(** * RideShare backend: a shallow embedding of [app.py] and its properties

    The Flask application of [src/app.py] is embedded as pure functions that
    thread the persistent store, the in-process [ride_data] collections and the
    caller's session explicitly.  Exceptions raised inside a handler's [try]
    block are values of an error monad; the [except Exception] clause turns
    them into the handler's 500 response, keeping whatever in-process state had
    been written before the raise.

    Modelling conventions, fixed once for the whole development:
    - JSON numbers are integers ([Z], as Python's unbounded [int]); floats are
      not represented.
    - Strings are [string] (sequences of 8-bit characters); case folding is
      ASCII case folding, as in SQLite's [lower()].  In a text outside ASCII,
      SQLite's [_] wildcard takes one character where [like] takes one
      element of the string; the statements about searching are made for
      needles without wildcards, or do not depend on how much a wildcard
      takes.  SQLite's matcher also stops at a NUL character and refuses a
      pattern of more than 50000 bytes, which [like] does not; the
      statements that describe a search by needle say so in their
      hypotheses ([no_nul], [pattern_fits]).
    - Columns are typed as [db.Column] declares them.  A value of another type
      bound to a column (in an INSERT or in a comparison) is taken to be
      refused by the store, which raises inside the handler.  SQLite itself
      would store some of these values after a conversion (a number given for
      a text column as its decimal text); the statements that fix the outcome
      of a call that writes to the store therefore give the JSON types of the
      fields it binds, and the invariants speak of rows whose fields have the
      declared types.
    - An integer bound to a statement must fit SQLite's signed 64-bit INTEGER:
      binding one outside [-2^63, 2^63) raises [OverflowError] inside the
      handler ([int64], [bind_int], [get_by_key], [flush_int]).  Keys and user
      ids that the code reads back from stored rows or from the session were
      stored by SQLite and are bound without a check.  [String(n)] widths are
      not enforced, as with the default SQLite engine.
    - Primary keys are assigned as SQLite does for an [INTEGER PRIMARY KEY]:
      one more than the largest key of the table.
    - [generate_password_hash], [check_password_hash] and
      [datetime.isoformat] belong to libraries outside the repository; they
      are the fields of the class [Externals]. *)

From stdpp Require Import base numbers strings pretty list gmap sorting.
From Stdlib Require Import ZArith Lia Ascii.

Local Open Scope string_scope.
Local Open Scope Z_scope.

(** ** JSON values, as [request.get_json()] and [jsonify] see them *)

#[local] Set Warnings "-register-all".

Inductive json : Type :=
| JNull
| JBool (b : bool)
| JInt (z : Z)
| JStr (s : string)
| JArr (l : list json)
| JObj (kvs : list (string * json)).

(** The text of [str(e)] for a raised exception.  The exact wording comes
    from the raising library; the exception class stands for it. *)
Definition exn := string.

Definition TypeError : exn := "TypeError".
Definition AttributeError : exn := "AttributeError".
Definition KeyError : exn := "KeyError".
Definition IntegrityError : exn := "IntegrityError".
Definition StatementError : exn := "StatementError".
Definition OverflowError : exn := "OverflowError".

(** The range of an SQLite INTEGER, and so of every integer that [sqlite3]
    accepts as a statement parameter. *)
Definition int64 (z : Z) : bool := (- 2 ^ 63 <=? z) && (z <? 2 ^ 63).

(** [dict] lookup: the first binding of the key. *)
Fixpoint dict_lookup (k : string) (kvs : list (string * json)) : option json :=
  match kvs with
  | [] => None
  | (k', v) :: rest => if String.eqb k k' then Some v else dict_lookup k rest
  end.

(** [needle in haystack] on two Python strings. *)
Fixpoint is_prefix (p s : string) : bool :=
  match p, s with
  | EmptyString, _ => true
  | String a p', String b s' => Ascii.eqb a b && is_prefix p' s'
  | String _ _, EmptyString => false
  end.

Fixpoint is_substring (p s : string) : bool :=
  is_prefix p s ||
  match s with
  | EmptyString => false
  | String _ s' => is_substring p s'
  end.

Definition is_str (field : string) (v : json) : bool :=
  match v with JStr s => String.eqb s field | _ => false end.

(** [field in data]. *)
Definition py_in (field : string) (data : json) : exn + bool :=
  match data with
  | JObj kvs => inr (if dict_lookup field kvs is Some _ then true else false)
  | JArr l => inr (existsb (is_str field) l)
  | JStr s => inr (is_substring field s)
  | _ => inl TypeError
  end.

(** [data[key]]. *)
Definition py_getitem (data : json) (key : string) : exn + json :=
  match data with
  | JObj kvs =>
      match dict_lookup key kvs with
      | Some v => inr v
      | None => inl KeyError
      end
  | _ => inl TypeError
  end.

(** [data.get(key, default)]. *)
Definition py_get (data : json) (key : string) (dflt : json) : exn + json :=
  match data with
  | JObj kvs => inr (default dflt (dict_lookup key kvs))
  | _ => inl AttributeError
  end.

(** [dict[key] = value]: an existing key keeps its position, a new key goes
    last. *)
Fixpoint dict_set (k : string) (v : json) (kvs : list (string * json))
  : list (string * json) :=
  match kvs with
  | [] => [(k, v)]
  | (k', v') :: rest =>
      if String.eqb k k' then (k, v) :: rest else (k', v') :: dict_set k v rest
  end.




(** The loop [for field in required_fields: if field not in data: return ...]:
    the first required field that [data] lacks, if any. *)
Fixpoint first_missing (required_fields : list string) (data : json)
  : exn + option string :=
  match required_fields with
  | [] => inr None
  | field :: rest =>
      match py_in field data with
      | inl e => inl e
      | inr false => inr (Some field)
      | inr true => first_missing rest data
      end
  end.

(** [a < v] for an [int] column value [a] and a JSON value [v]; Python's
    [bool] is an [int]. *)
Definition py_lt (a : Z) (v : json) : exn + bool :=
  match v with
  | JInt z => inr (a <? z)
  | JBool b => inr (a <? (if b then 1 else 0))
  | _ => inl TypeError
  end.

(** Python truth value of an [int]. *)
Definition truthy (z : Z) : bool := negb (z =? 0).

(** ** Hashable keys of a Python [set]

    [True == 1] and [hash(True) == hash(1)], so booleans and integers share
    their keys; lists and dicts are unhashable. *)

Inductive hkey : Type :=
| HNone
| HInt (z : Z)
| HStr (s : string).

#[global] Instance hkey_eq_dec : EqDecision hkey.
Proof. solve_decision. Defined.

#[global] Instance hkey_countable : Countable hkey.
Proof.
  refine (inj_countable'
    (fun k => match k with
              | HNone => inl ()
              | HInt z => inr (inl z)
              | HStr s => inr (inr s)
              end)
    (fun x => match x with
              | inl _ => HNone
              | inr (inl z) => HInt z
              | inr (inr s) => HStr s
              end) _).
  intros []; reflexivity.
Defined.

Definition py_hash (v : json) : exn + hkey :=
  match v with
  | JNull => inr HNone
  | JBool b => inr (HInt (if b then 1 else 0))
  | JInt z => inr (HInt z)
  | JStr s => inr (HStr s)
  | JArr _ | JObj _ => inl TypeError
  end.

(** ** Binding JSON values to typed columns *)

(** A [String]/[Text] column: [None] is SQL NULL. *)
Definition bind_text (v : json) : exn + option string :=
  match v with
  | JStr s => inr (Some s)
  | JNull => inr None
  | _ => inl StatementError
  end.

(** An [Integer] column: the value is bound when the session is flushed,
    and an integer outside the 64-bit range cannot be bound. *)
Definition bind_int (v : json) : exn + option Z :=
  match v with
  | JInt z => if int64 z then inr (Some z) else inl OverflowError
  | JNull => inr None
  | _ => inl StatementError
  end.

(** The UPDATE of an [Integer] column that [db.session.commit()] emits for a
    changed attribute. *)
Definition flush_int (z : Z) : exn + unit :=
  if int64 z then inr tt else inl OverflowError.

(** [Model.query.get(pk)] for an integer key that comes from the request.
    The key is bound as a statement parameter, so one outside the 64-bit range
    raises [OverflowError].  No stored row has such a key: the table is asked
    first, and on every table of 64-bit keys this is the same as checking the
    range first ([get_by_key_in_range]). *)
Definition get_by_key {A} (table : Z -> option A) (pk : Z) : exn + option A :=
  match table pk with
  | Some row => inr (Some row)
  | None => if int64 pk then inr None else inl OverflowError
  end.

(** [nullable=False]. *)
Definition not_null {A} (x : exn + option A) : exn + A :=
  match x with
  | inl e => inl e
  | inr None => inl IntegrityError
  | inr (Some a) => inr a
  end.

(** ** SQL [LIKE] and [ILIKE] *)

Definition lower_ascii (c : Ascii.ascii) : Ascii.ascii :=
  let n := Ascii.N_of_ascii c in
  if ((65 <=? n) && (n <=? 90))%N then Ascii.ascii_of_N (n + 32) else c.

Fixpoint lower (s : string) : string :=
  match s with
  | EmptyString => EmptyString
  | String c s' => String (lower_ascii c) (lower s')
  end.

(** [s LIKE p]: [%] matches any run of characters, [_] any one character. *)
Fixpoint like (p s : string) {struct p} : bool :=
  match p with
  | EmptyString => match s with EmptyString => true | _ => false end
  | String c p' =>
      if Ascii.eqb c "%"%char then
        (fix skip (s : string) : bool :=
           like p' s ||
           match s with
           | EmptyString => false
           | String _ s' => skip s'
           end) s
      else
        match s with
        | EmptyString => false
        | String d s' => (Ascii.eqb c "_"%char || Ascii.eqb c d) && like p' s'
        end
  end.

Definition ilike (column pattern : string) : bool :=
  like (lower pattern) (lower column).

(** ** The persistent store: three tables *)

Module User.
(** A row of [users].  [rating] and [total_rides] always hold their column
    defaults: no handler writes them. *)
Record t : Type := mk {
  id : Z;
  first_name : string;
  last_name : string;
  email : string;
  phone : string;
  password_hash : string;
  role : string;
  rating : Z;
  total_rides : Z;
  created_at : option Z
}.

Definition set_password_hash (u : t) (h : string) : t :=
  mk (id u) (first_name u) (last_name u) (email u) (phone u) h (role u)
     (rating u) (total_rides u) (created_at u).
End User.

Module Ride.
Record t : Type := mk {
  id : Z;
  driver_id : Z;
  origin : string;
  destination : string;
  date : string;
  time : string;
  available_seats : Z;
  price : Z;
  vehicle_type : string;
  notes : option string;
  status : string;
  created_at : option Z
}.

Definition set_available_seats (r : t) (n : Z) : t :=
  mk (id r) (driver_id r) (origin r) (destination r) (date r) (time r)
     n (price r) (vehicle_type r) (notes r) (status r) (created_at r).
End Ride.

Module RideRequest.
Record t : Type := mk {
  id : Z;
  ride_id : Z;
  rider_id : Z;
  seats : Z;
  message : option string;
  status : string;
  created_at : option Z
}.

Definition set_status (q : t) (s : string) : t :=
  mk (id q) (ride_id q) (rider_id q) (seats q) (message q) s (created_at q).
End RideRequest.

(** Tables keep their rows in insertion order. *)
Record Db : Type := mkDb {
  users : list User.t;
  rides : list Ride.t;
  ride_requests : list RideRequest.t
}.

Definition empty_db : Db := mkDb [] [] [].


(** The [unique=True] constraint on [users.email], as a property of a store. *)
Definition unique_emails_in (d : Db) : Prop := NoDup (map User.email (users d)).

(** The next [INTEGER PRIMARY KEY]. *)
Definition next_id (ids : list Z) : Z := 1 + foldr Z.max 0 ids.

(** [Model.query.get(pk)]. *)
Definition get_user (d : Db) (pk : Z) : option User.t :=
  find (fun u => User.id u =? pk) (users d).

Definition get_ride (d : Db) (pk : Z) : option Ride.t :=
  find (fun r => Ride.id r =? pk) (rides d).

Definition get_ride_request (d : Db) (pk : Z) : option RideRequest.t :=
  find (fun q => RideRequest.id q =? pk) (ride_requests d).

(** [User.query.filter_by(email=e).first()]. *)
Definition user_by_email (d : Db) (e : string) : option User.t :=
  find (fun u => String.eqb (User.email u) e) (users d).

(** An UPDATE of the row with a given primary key. *)
Fixpoint update_row {A} (pk_is : A -> bool) (row : A) (table : list A) : list A :=
  match table with
  | [] => []
  | x :: rest => if pk_is x then row :: rest else x :: update_row pk_is row rest
  end.

(** [ORDER BY created_at DESC]; NULL sorts as the smallest value.  SQL leaves
    the order of rows with equal timestamps open; here it is the one the
    merge sort gives. *)
Definition created_le (a b : option Z) : bool :=
  match a, b with
  | None, _ => true
  | Some _, None => false
  | Some x, Some y => x <=? y
  end.

Definition newer {A} (created_at : A -> option Z) (x y : A) : Prop :=
  created_le (created_at y) (created_at x) = true.

#[global] Instance newer_dec {A} (f : A -> option Z) : RelDecision (newer f).
Proof. intros x y. unfold newer. apply _. Defined.

Definition order_by_created_desc {A} (created_at : A -> option Z) (rows : list A)
  : list A :=
  merge_sort (newer created_at) rows.

(** ** The in-process collections of [RideShareDataStructures] *)

Record SessionData : Type := mkSessionData {
  sd_role : string;
  sd_email : string;
  sd_login_time : string
}.

Record SearchParams : Type := mkSearchParams {
  sp_origin : string;
  sp_destination : string;
  sp_date : string;
  sp_timestamp : string
}.

Record RideShareDataStructures : Type := mkData {
  active_rides : list Z;
  search_history : list SearchParams;
  user_sessions : gmap Z SessionData;
  ride_cache : gmap Z json;
  driver_rides : gmap Z (list Z);
  unique_emails : gset hkey;
  active_drivers : gset Z;
  blocked_users : gset Z
}.

Definition empty_data : RideShareDataStructures :=
  mkData [] [] ∅ ∅ ∅ ∅ ∅ ∅.

Definition set_active_rides (rd : RideShareDataStructures) (x : list Z) :=
  mkData x (search_history rd) (user_sessions rd) (ride_cache rd)
         (driver_rides rd) (unique_emails rd) (active_drivers rd) (blocked_users rd).

Definition set_search_history (rd : RideShareDataStructures) (x : list SearchParams) :=
  mkData (active_rides rd) x (user_sessions rd) (ride_cache rd)
         (driver_rides rd) (unique_emails rd) (active_drivers rd) (blocked_users rd).

Definition set_user_sessions (rd : RideShareDataStructures) (x : gmap Z SessionData) :=
  mkData (active_rides rd) (search_history rd) x (ride_cache rd)
         (driver_rides rd) (unique_emails rd) (active_drivers rd) (blocked_users rd).

Definition set_ride_cache (rd : RideShareDataStructures) (x : gmap Z json) :=
  mkData (active_rides rd) (search_history rd) (user_sessions rd) x
         (driver_rides rd) (unique_emails rd) (active_drivers rd) (blocked_users rd).

Definition set_driver_rides (rd : RideShareDataStructures) (x : gmap Z (list Z)) :=
  mkData (active_rides rd) (search_history rd) (user_sessions rd) (ride_cache rd)
         x (unique_emails rd) (active_drivers rd) (blocked_users rd).

Definition set_unique_emails (rd : RideShareDataStructures) (x : gset hkey) :=
  mkData (active_rides rd) (search_history rd) (user_sessions rd) (ride_cache rd)
         (driver_rides rd) x (active_drivers rd) (blocked_users rd).

Definition set_active_drivers (rd : RideShareDataStructures) (x : gset Z) :=
  mkData (active_rides rd) (search_history rd) (user_sessions rd) (ride_cache rd)
         (driver_rides rd) (unique_emails rd) x (blocked_users rd).

(** [list.remove(x)]: drops the first occurrence. *)
Fixpoint list_remove (x : Z) (l : list Z) : list Z :=
  match l with
  | [] => []
  | y :: rest => if y =? x then rest else y :: list_remove x rest
  end.

(** ** Sessions and the world a handler runs in *)

Record Session : Type := mkSession {
  user_id : option Z;
  user_role : option string
}.

Definition empty_session : Session := mkSession None None.

Record World : Type := mkWorld {
  session : Session;
  db : Db;
  ride_data : RideShareDataStructures
}.


(** The two clock readings a request may take. *)
Record Clock : Type := mkClock {
  utcnow : Z;
  now : Z
}.

Record Response : Type := mkResponse {
  body : json;
  code : Z
}.

(** ** Handler bodies: state and exceptions *)

Definition M (A : Type) : Type := World -> (exn + A) * World.

Definition ret {A} (a : A) : M A := fun w => (inr a, w).

Definition bind {A B} (m : M A) (k : A -> M B) : M B :=
  fun w =>
    match m w with
    | (inl e, w') => (inl e, w')
    | (inr a, w') => k a w'
    end.

Notation "'let*' x := m 'in' k" := (bind m (fun x => k))
  (at level 10, x name, m at level 100, k at level 200).
Notation "'run' m 'in' k" := (bind m (fun _ => k))
  (at level 10, m at level 100, k at level 200).

(** A pure computation that may raise. *)
Definition lift {A} (r : exn + A) : M A := fun w => (r, w).

Definition read {A} (f : World -> A) : M A := fun w => (inr (f w), w).

Definition set_session (s : Session) : M unit :=
  fun w => (inr tt, mkWorld s (db w) (ride_data w)).

Definition set_data (rd : RideShareDataStructures) : M unit :=
  fun w => (inr tt, mkWorld (session w) (db w) rd).

(** [db.session.commit()] of the pending changes, as the new store.  The
    values it writes are bound before: a value that cannot be bound
    ([bind_text], [bind_int], [flush_int]) raises there and nothing is
    committed. *)
Definition commit (d : Db) : M unit :=
  fun w => (inr tt, mkWorld (session w) d (ride_data w)).

Definition Handler : Type := World -> Response * World.

(** [try: ... except Exception as e: return ...]. *)
Definition try_except (m : M Response) (handler : exn -> Response) : Handler :=
  fun w =>
    match m w with
    | (inl e, w') => (handler e, w')
    | (inr r, w') => (r, w')
    end.

Definition message (text : string) (status : Z) : Response :=
  mkResponse (JObj [("message", JStr text)]) status.

Definition failure (text : string) (e : exn) : Response :=
  mkResponse (JObj [("message", JStr text); ("error", JStr e)]) 500.

(** The [require_auth] decorator. *)
Definition require_auth (f : Handler) : Handler :=
  fun w =>
    match user_id (session w) with
    | None => (message "Unauthorized" 401, w)
    | Some _ => f w
    end.

(** ** Library functions outside the repository *)

Class Externals : Type := {
  (** [werkzeug.security.generate_password_hash(password)], salt included.
      It is called on whatever JSON value the body holds and may raise. *)
  generate_password_hash : json -> exn + string;
  (** [werkzeug.security.check_password_hash(pwhash, password)]. *)
  check_password_hash : string -> json -> exn + bool;
  (** [datetime.isoformat]. *)
  isoformat : Z -> string
}.

(** ** Serialization: the [to_dict] methods *)

Section Serialization.
Context `{Externals}.

(** [x.isoformat() if x else None]. *)
Definition render_time (t : option Z) : json :=
  match t with
  | Some x => JStr (isoformat x)
  | None => JNull
  end.

Definition render_text (s : option string) : json :=
  match s with
  | Some x => JStr x
  | None => JNull
  end.

Definition User_to_dict (u : User.t) : json :=
  JObj [ ("id", JInt (User.id u));
         ("firstName", JStr (User.first_name u));
         ("lastName", JStr (User.last_name u));
         ("email", JStr (User.email u));
         ("phone", JStr (User.phone u));
         ("role", JStr (User.role u));
         ("rating", JInt (User.rating u));
         ("totalRides", JInt (User.total_rides u));
         ("createdAt", render_time (User.created_at u)) ].

Definition Ride_fields (r : Ride.t) : list (string * json) :=
  [ ("id", JInt (Ride.id r));
    ("driverId", JInt (Ride.driver_id r));
    ("origin", JStr (Ride.origin r));
    ("destination", JStr (Ride.destination r));
    ("date", JStr (Ride.date r));
    ("time", JStr (Ride.time r));
    ("availableSeats", JInt (Ride.available_seats r));
    ("price", JInt (Ride.price r));
    ("vehicleType", JStr (Ride.vehicle_type r));
    ("notes", render_text (Ride.notes r));
    ("status", JStr (Ride.status r));
    ("createdAt", render_time (Ride.created_at r)) ].

Definition Ride_to_dict (d : Db) (r : Ride.t) (include_driver : bool) : json :=
  let result := Ride_fields r in
  JObj (if include_driver then
          match get_user d (Ride.driver_id r) with
          | Some driver => dict_set "driver" (User_to_dict driver) result
          | None => result
          end
        else result).

Definition RideRequest_fields (q : RideRequest.t) : list (string * json) :=
  [ ("id", JInt (RideRequest.id q));
    ("rideId", JInt (RideRequest.ride_id q));
    ("riderId", JInt (RideRequest.rider_id q));
    ("seats", JInt (RideRequest.seats q));
    ("message", render_text (RideRequest.message q));
    ("status", JStr (RideRequest.status q));
    ("createdAt", render_time (RideRequest.created_at q)) ].

Definition RideRequest_dict (d : Db) (q : RideRequest.t)
           (include_rider include_ride : bool) : list (string * json) :=
  let result := RideRequest_fields q in
  let result :=
    if include_rider then
      match get_user d (RideRequest.rider_id q) with
      | Some rider => dict_set "rider" (User_to_dict rider) result
      | None => result
      end
    else result in
  if include_ride then
    match get_ride d (RideRequest.ride_id q) with
    | Some ride => dict_set "ride" (Ride_to_dict d ride true) result
    | None => result
    end
  else result.

Definition RideRequest_to_dict (d : Db) (q : RideRequest.t)
           (include_rider include_ride : bool) : json :=
  JObj (RideRequest_dict d q include_rider include_ride).
End Serialization.

(** ** Methods of [RideShareDataStructures] *)

Definition add_user_email (email : json) : M bool :=
  let* k := lift (py_hash email) in
  let* rd := read ride_data in
  if decide (k ∈ unique_emails rd) then ret false
  else
    run set_data (set_unique_emails rd ({[k]} ∪ unique_emails rd)) in
    ret true.

Definition cache_ride (ride_id : Z) (ride_dict : json) : M unit :=
  let* rd := read ride_data in
  set_data (set_ride_cache rd (<[ride_id := ride_dict]> (ride_cache rd))).

Definition add_to_search_history (search_params : SearchParams) : M unit :=
  let* rd := read ride_data in
  let history := search_history rd in
  let history := if (10 <=? length history)%nat then tail history else history in
  set_data (set_search_history rd (history ++ [search_params])).

(** ** Store operations used by the handlers *)

(** [session['user_id']]. *)
Definition session_user_id : M Z :=
  let* s := read session in
  match user_id s with
  | Some uid => ret uid
  | None => lift (inl KeyError)
  end.

(** [User.query.filter_by(email=v).first()]. *)
Definition first_user_by_email (v : json) : M (option User.t) :=
  let* e := lift (bind_text v) in
  let* d := read db in
  ret (match e with
       | Some s => user_by_email d s
       | None => None
       end).

(** [Ride.query.get(v)] for a key taken from the request body. *)
Definition query_ride (v : json) : M (option Ride.t) :=
  let* d := read db in
  match v with
  | JInt z => lift (get_by_key (get_ride d) z)
  | JNull => ret None
  | _ => lift (inl StatementError)
  end.

(** [db.session.add(User(...)); db.session.commit()]: the stored row. *)
Definition insert_user (first_name last_name email phone : json)
           (password_hash : string) (role : json) (clk : Clock) : M User.t :=
  let* first_name := lift (not_null (bind_text first_name)) in
  let* last_name := lift (not_null (bind_text last_name)) in
  let* email := lift (not_null (bind_text email)) in
  let* phone := lift (not_null (bind_text phone)) in
  let* role := lift (not_null (bind_text role)) in
  let* d := read db in
  if existsb (fun u => String.eqb (User.email u) email) (users d)
  then lift (inl IntegrityError)
  else
    let user := User.mk (next_id (map User.id (users d))) first_name last_name
                        email phone password_hash role 5 0 (Some (utcnow clk)) in
    run commit (mkDb (users d ++ [user]) (rides d) (ride_requests d)) in
    ret user.

(** [db.session.add(Ride(...)); db.session.commit()]. *)
Definition insert_ride (driver_id : Z)
           (origin destination date time available_seats price vehicle_type notes : json)
           (clk : Clock) : M Ride.t :=
  let* origin := lift (not_null (bind_text origin)) in
  let* destination := lift (not_null (bind_text destination)) in
  let* date := lift (not_null (bind_text date)) in
  let* time := lift (not_null (bind_text time)) in
  let* available_seats := lift (not_null (bind_int available_seats)) in
  let* price := lift (not_null (bind_int price)) in
  let* vehicle_type := lift (not_null (bind_text vehicle_type)) in
  let* notes := lift (bind_text notes) in
  let* d := read db in
  let ride := Ride.mk (next_id (map Ride.id (rides d))) driver_id origin destination
                      date time available_seats price vehicle_type notes "active"
                      (Some (utcnow clk)) in
  run commit (mkDb (users d) (rides d ++ [ride]) (ride_requests d)) in
  ret ride.

(** [db.session.add(RideRequest(...)); db.session.commit()]. *)
Definition insert_ride_request (ride_id : json) (rider_id : Z) (seats message : json)
           (clk : Clock) : M RideRequest.t :=
  let* ride_id := lift (not_null (bind_int ride_id)) in
  let* seats := lift (not_null (bind_int seats)) in
  let* message := lift (bind_text message) in
  let* d := read db in
  let ride_request :=
    RideRequest.mk (next_id (map RideRequest.id (ride_requests d))) ride_id rider_id
                   seats message "pending" (Some (utcnow clk)) in
  run commit (mkDb (users d) (rides d) (ride_requests d ++ [ride_request])) in
  ret ride_request.

(** ** Request handlers *)

Record SearchArgs : Type := mkSearchArgs {
  arg_origin : option string;
  arg_destination : option string;
  arg_date : option string
}.

(** Truth value of a Python [str]. *)
Definition nonempty (s : string) : bool :=
  match s with
  | EmptyString => false
  | String _ _ => true
  end.

(** [session.get('user_role') != role]. *)
Definition role_is_not (role : string) (s : Session) : bool :=
  match user_role s with
  | Some r => negb (String.eqb r role)
  | None => true
  end.

Section Handlers.
Context `{Externals}.

(** POST /api/auth/register *)
Definition register (data : json) (clk : Clock) : Handler :=
  try_except
    (let* missing :=
       lift (first_missing
               ["firstName"; "lastName"; "email"; "phone"; "password"; "role"] data) in
     match missing with
     | Some field => ret (message ("Missing field: " +:+ field) 400)
     | None =>
         let* email := lift (py_getitem data "email") in
         let* fresh := add_user_email email in
         if negb fresh then ret (message "Email already registered" 400)
         else
           let* existing_user := first_user_by_email email in
           match existing_user with
           | Some _ => ret (message "User already exists" 400)
           | None =>
               let* first_name := lift (py_getitem data "firstName") in
               let* last_name := lift (py_getitem data "lastName") in
               let* phone := lift (py_getitem data "phone") in
               let* password := lift (py_getitem data "password") in
               let* password_hash := lift (generate_password_hash password) in
               let* role := lift (py_getitem data "role") in
               let* user :=
                 insert_user first_name last_name email phone password_hash role clk in
               run set_session
                     (mkSession (Some (User.id user)) (Some (User.role user))) in
               let* rd := read ride_data in
               run set_data
                     (set_user_sessions rd
                        (<[User.id user :=
                             mkSessionData (User.role user) (User.email user)
                                           (isoformat (now clk))]>
                           (user_sessions rd))) in
               ret (mkResponse (User_to_dict user) 201)
           end
     end)
    (failure "Registration failed").

(** POST /api/auth/login *)
Definition login (data : json) (clk : Clock) : Handler :=
  try_except
    (let* has_email := lift (py_in "email" data) in
     let* absent :=
       if has_email then
         let* has_password := lift (py_in "password" data) in
         ret (negb has_password)
       else ret true in
     if absent then ret (message "Email and password required" 400)
     else
       let* email := lift (py_getitem data "email") in
       let* user := first_user_by_email email in
       match user with
       | Some user =>
           let* password := lift (py_getitem data "password") in
           let* ok := lift (check_password_hash (User.password_hash user) password) in
           if ok then
             run set_session
                   (mkSession (Some (User.id user)) (Some (User.role user))) in
             let* rd := read ride_data in
             run set_data
                   (set_user_sessions rd
                      (<[User.id user :=
                           mkSessionData (User.role user) (User.email user)
                                         (isoformat (now clk))]>
                         (user_sessions rd))) in
             let* rd := read ride_data in
             run (if String.eqb (User.role user) "driver"
                  then set_data (set_active_drivers rd
                                   ({[User.id user]} ∪ active_drivers rd))
                  else ret tt) in
             ret (mkResponse (User_to_dict user) 200)
           else ret (message "Invalid credentials" 401)
       | None => ret (message "Invalid credentials" 401)
       end)
    (failure "Login failed").

(** GET /api/auth/me *)
Definition get_current_user : Handler :=
  require_auth
    (try_except
       (let* uid := session_user_id in
        let* d := read db in
        match get_user d uid with
        | None => ret (message "User not found" 404)
        | Some user => ret (mkResponse (User_to_dict user) 200)
        end)
       (failure "Failed to get user")).

(** POST /api/rides *)
Definition create_ride (data : json) (clk : Clock) : Handler :=
  require_auth
    (try_except
       (let* s := read session in
        if role_is_not "driver" s then ret (message "Only drivers can post rides" 403)
        else
          let* missing :=
            lift (first_missing
                    ["origin"; "destination"; "date"; "time"; "availableSeats";
                     "price"; "vehicleType"] data) in
          match missing with
          | Some field => ret (message ("Missing field: " +:+ field) 400)
          | None =>
              let* driver_id := session_user_id in
              let* origin := lift (py_getitem data "origin") in
              let* destination := lift (py_getitem data "destination") in
              let* date := lift (py_getitem data "date") in
              let* time := lift (py_getitem data "time") in
              let* available_seats := lift (py_getitem data "availableSeats") in
              let* price := lift (py_getitem data "price") in
              let* vehicle_type := lift (py_getitem data "vehicleType") in
              let* notes := lift (py_get data "notes" (JStr "")) in
              let* ride :=
                insert_ride driver_id origin destination date time available_seats
                            price vehicle_type notes clk in
              let* rd := read ride_data in
              run set_data (set_active_rides rd (active_rides rd ++ [Ride.id ride])) in
              let* d := read db in
              run cache_ride (Ride.id ride) (Ride_to_dict d ride false) in
              let* driver_id := session_user_id in
              let* rd := read ride_data in
              let mine : list Z := default [] (driver_rides rd !! driver_id) in
              run set_data
                    (set_driver_rides rd
                       (<[driver_id := (mine ++ [Ride.id ride])%list]> (driver_rides rd))) in
              ret (mkResponse (Ride_to_dict d ride false) 201)
          end)
       (failure "Failed to create ride")).

(** The loop of [search_rides]: serialize each ride and cache it. *)
Fixpoint serialize_and_cache (d : Db) (rides : list Ride.t) : M (list json) :=
  match rides with
  | [] => ret []
  | ride :: rest =>
      let ride_dict := Ride_to_dict d ride true in
      run cache_ride (Ride.id ride) ride_dict in
      let* result := serialize_and_cache d rest in
      ret (ride_dict :: result)
  end.

(** The rows selected by the query that [search_rides] builds. *)
Definition search_query (d : Db) (origin destination date : string) : list Ride.t :=
  let query := List.filter (fun r => String.eqb (Ride.status r) "active") (rides d) in
  let query :=
    if nonempty origin
    then List.filter (fun r => ilike (Ride.origin r) ("%" +:+ origin +:+ "%")) query
    else query in
  let query :=
    if nonempty destination
    then List.filter
           (fun r => ilike (Ride.destination r) ("%" +:+ destination +:+ "%")) query
    else query in
  let query :=
    if nonempty date
    then List.filter (fun r => String.eqb (Ride.date r) date) query
    else query in
  order_by_created_desc Ride.created_at query.

(** GET /api/rides/search *)
Definition search_rides (args : SearchArgs) (clk : Clock) : Handler :=
  try_except
    (let origin := default "" (arg_origin args) in
     let destination := default "" (arg_destination args) in
     let date := default "" (arg_date args) in
     let search_params :=
       mkSearchParams origin destination date (isoformat (now clk)) in
     run add_to_search_history search_params in
     let* d := read db in
     let rides := search_query d origin destination date in
     let* result := serialize_and_cache d rides in
     ret (mkResponse (JArr result) 200))
    (failure "Search failed").

(** GET /api/rides/my *)
Definition get_my_rides : Handler :=
  require_auth
    (try_except
       (let* s := read session in
        if role_is_not "driver" s
        then ret (message "Only drivers can view posted rides" 403)
        else
          let* uid := session_user_id in
          let* d := read db in
          let rides :=
            order_by_created_desc Ride.created_at
              (List.filter (fun r => Ride.driver_id r =? uid) (rides d)) in
          let result := map (fun ride => Ride_to_dict d ride false) rides in
          ret (mkResponse (JArr result) 200))
       (failure "Failed to get rides")).

(** POST /api/requests *)
Definition create_ride_request (data : json) (clk : Clock) : Handler :=
  require_auth
    (try_except
       (let* s := read session in
        if role_is_not "rider" s
        then ret (message "Only riders can request rides" 403)
        else
          let* missing := lift (first_missing ["rideId"; "seats"] data) in
          match missing with
          | Some field => ret (message ("Missing field: " +:+ field) 400)
          | None =>
              let* ride_id := lift (py_getitem data "rideId") in
              let* ride := query_ride ride_id in
              match ride with
              | None => ret (message "Ride not found" 404)
              | Some ride =>
                  let* seats := lift (py_getitem data "seats") in
                  let* short := lift (py_lt (Ride.available_seats ride) seats) in
                  if short then ret (message "Not enough available seats" 400)
                  else
                    let* rider_id := session_user_id in
                    let* msg := lift (py_get data "message" (JStr "")) in
                    let* ride_request :=
                      insert_ride_request ride_id rider_id seats msg clk in
                    let* d := read db in
                    ret (mkResponse (RideRequest_to_dict d ride_request false false)
                                    201)
              end
          end)
       (failure "Failed to create request")).

(** The driver branch of [get_my_requests]: each request with its rider
    embedded and its ride attached without the driver. *)
Fixpoint driver_view (d : Db) (requests : list RideRequest.t) : exn + list json :=
  match requests with
  | [] => inr []
  | req :: rest =>
      let req_dict := RideRequest_dict d req true false in
      match get_ride d (RideRequest.ride_id req) with
      | None => inl AttributeError
      | Some ride =>
          match driver_view d rest with
          | inl e => inl e
          | inr result =>
              inr (JObj (dict_set "ride" (Ride_to_dict d ride false) req_dict)
                     :: result)
          end
      end
  end.

(** GET /api/requests/my *)
Definition get_my_requests : Handler :=
  require_auth
    (try_except
       (let* s := read session in
        let* uid := session_user_id in
        let* d := read db in
        if negb (role_is_not "driver" s) then
          let requests :=
            order_by_created_desc RideRequest.created_at
              (List.filter
                 (fun q => match get_ride d (RideRequest.ride_id q) with
                           | Some r => Ride.driver_id r =? uid
                           | None => false
                           end)
                 (ride_requests d)) in
          let* result := lift (driver_view d requests) in
          ret (mkResponse (JArr result) 200)
        else
          let requests :=
            order_by_created_desc RideRequest.created_at
              (List.filter (fun q => RideRequest.rider_id q =? uid) (ride_requests d)) in
          let result := map (fun req => RideRequest_to_dict d req false true) requests in
          ret (mkResponse (JArr result) 200))
       (failure "Failed to get requests")).
End Handlers.

(** POST /api/auth/logout *)
Definition logout : Handler :=
  try_except
    (let* s := read session in
     let uid := user_id s in
     let* rd := read ride_data in
     run (match uid with
          | Some u =>
              if truthy u && bool_decide (u ∈ active_drivers rd)
              then set_data (set_active_drivers rd (active_drivers rd ∖ {[u]}))
              else ret tt
          | None => ret tt
          end) in
     let* rd := read ride_data in
     run (match uid with
          | Some u =>
              if truthy u && bool_decide (is_Some (user_sessions rd !! u))
              then set_data (set_user_sessions rd (delete u (user_sessions rd)))
              else ret tt
          | None => ret tt
          end) in
     run set_session empty_session in
     ret (message "Logged out successfully" 200))
    (failure "Logout failed").

(** [status not in ['accepted', 'declined']]. *)
Definition invalid_status (status : json) : bool :=
  negb (is_str "accepted" status || is_str "declined" status).

(** PATCH /api/requests/<request_id> *)
Definition update_request_status (request_id : Z) (data : json) : Handler :=
  require_auth
    (try_except
       (let* s := read session in
        if role_is_not "driver" s
        then ret (message "Only drivers can update request status" 403)
        else
          let* status := lift (py_get data "status" JNull) in
          if invalid_status status then ret (message "Invalid status" 400)
          else
            let* d := read db in
            let* found := lift (get_by_key (get_ride_request d) request_id) in
            match found with
            | None => ret (message "Request not found" 404)
            | Some ride_request =>
                match get_ride d (RideRequest.ride_id ride_request) with
                | None => ret (message "Unauthorized" 403)
                | Some ride =>
                    let* uid := session_user_id in
                    if negb (Ride.driver_id ride =? uid)
                    then ret (message "Unauthorized" 403)
                    else
                      let accepted := is_str "accepted" status in
                      let ride_request :=
                        RideRequest.set_status ride_request
                          (if accepted then "accepted" else "declined") in
                      let ride :=
                        if accepted
                        then Ride.set_available_seats ride
                               (Ride.available_seats ride - RideRequest.seats ride_request)
                        else ride in
                      let* rd := read ride_data in
                      run (if accepted
                              && (Ride.available_seats ride <=? 0)
                              && bool_decide (Ride.id ride ∈ active_rides rd)
                           then set_data (set_active_rides rd
                                            (list_remove (Ride.id ride) (active_rides rd)))
                           else ret tt) in
                      run (if accepted
                           then lift (flush_int (Ride.available_seats ride))
                           else ret tt) in
                      run commit
                            (mkDb (users d)
                                  (update_row (fun r => Ride.id r =? Ride.id ride)
                                              ride (rides d))
                                  (update_row
                                     (fun q => RideRequest.id q =? RideRequest.id ride_request)
                                     ride_request (ride_requests d))) in
                      ret (message "Request updated successfully" 200)
                end
            end)
       (failure "Failed to update request")).

(** ** The API surface and a server with one session per client

    One constructor per JSON endpoint.  The demo endpoint
    [/api/data-structures/demo] and the static file routes only read the
    in-process collections and the file system; they take no part in what
    follows. *)

Inductive Request : Type :=
| Register (data : json)
| Login (data : json)
| Logout
| GetCurrentUser
| CreateRide (data : json)
| SearchRides (args : SearchArgs)
| GetMyRides
| CreateRideRequest (data : json)
| GetMyRequests
| UpdateRequestStatus (request_id : Z) (data : json).

Definition handle `{Externals} (req : Request) (clk : Clock) : Handler :=
  match req with
  | Register data => register data clk
  | Login data => login data clk
  | Logout => logout
  | GetCurrentUser => get_current_user
  | CreateRide data => create_ride data clk
  | SearchRides args => search_rides args clk
  | GetMyRides => get_my_rides
  | CreateRideRequest data => create_ride_request data clk
  | GetMyRequests => get_my_requests
  | UpdateRequestStatus request_id data => update_request_status request_id data
  end.

(** Sessions are held on the server, one per client cookie. *)
Record Server : Type := mkServer {
  sessions : gmap nat Session;
  store : Db;
  collections : RideShareDataStructures
}.

Definition initial_server : Server := mkServer ∅ empty_db empty_data.

Definition serve `{Externals} (client : nat) (req : Request) (clk : Clock)
           (sv : Server) : Response * Server :=
  let w := mkWorld (default empty_session (sessions sv !! client))
                   (store sv) (collections sv) in
  let (resp, w') := handle req clk w in
  (resp, mkServer (<[client := session w']> (sessions sv)) (db w') (ride_data w')).

(** A run of the server over a list of calls; responses in call order. *)
Fixpoint serve_all `{Externals} (calls : list (nat * Request * Clock)) (sv : Server)
  : list Response * Server :=
  match calls with
  | [] => ([], sv)
  | (client, req, clk) :: rest =>
      let (resp, sv') := serve client req clk sv in
      let (resps, sv'') := serve_all rest sv' in
      (resp :: resps, sv'')
  end.

(** ** Sample data: one driver, one rider, one ride with three seats *)

Module Sample.
(** A hash that is easy to read; as in werkzeug, only a [str] can be hashed. *)
Definition externals : Externals :=
  {| generate_password_hash := fun password =>
       match password with
       | JStr p => inr ("pbkdf2:" +:+ p)
       | _ => inl AttributeError
       end;
     check_password_hash := fun pwhash password =>
       match password with
       | JStr p => inr (String.eqb pwhash ("pbkdf2:" +:+ p))
       | _ => inl AttributeError
       end;
     isoformat := fun t => pretty t |}.

Definition clock (t : Z) : Clock := mkClock t t.

Definition signup_fields (email role : string) : list (string * json) :=
  [ ("firstName", JStr "Asha"); ("lastName", JStr "Rao");
    ("email", JStr email); ("phone", JStr "555-0100");
    ("password", JStr "secret"); ("role", JStr role) ].

Definition signup (email role : string) : Request :=
  Register (JObj (signup_fields email role)).

Definition signin_fields (email password : string) : list (string * json) :=
  [ ("email", JStr email); ("password", JStr password) ].

Definition offer (seats : Z) : Request :=
  CreateRide (JObj [ ("origin", JStr "Pune Station"); ("destination", JStr "Hadapsar");
                     ("date", JStr "2025-01-01"); ("time", JStr "09:00");
                     ("availableSeats", JInt seats); ("price", JInt 100);
                     ("vehicleType", JStr "car") ]).

Definition ask (ride_id seats : Z) : Request :=
  CreateRideRequest (JObj [ ("rideId", JInt ride_id); ("seats", JInt seats) ]).

Definition answer (request_id : Z) (status : string) : Request :=
  UpdateRequestStatus request_id (JObj [ ("status", JStr status) ]).

(** Client 0 is the driver, client 1 the rider. *)
Definition setup : list (nat * Request * Clock) :=
  [ (0%nat, signup "driver@example.org" "driver", clock 1);
    (0%nat, offer 3, clock 2);
    (1%nat, signup "rider@example.org" "rider", clock 3);
    (1%nat, ask 1 2, clock 4) ].

(** Two requests for two seats each, made while three seats are free, both
    accepted by the driver. *)
Definition overbooking : list (nat * Request * Clock) :=
  setup ++ [ (1%nat, ask 1 2, clock 5);
             (0%nat, answer 1 "accepted", clock 6);
             (0%nat, answer 2 "accepted", clock 7) ].

Definition driver : User.t :=
  User.mk 1 "Asha" "Rao" "driver@example.org" "555-0100" "pbkdf2:secret" "driver"
          5 0 (Some 1).

Definition rider : User.t :=
  User.mk 2 "Asha" "Rao" "rider@example.org" "555-0100" "pbkdf2:secret" "rider"
          5 0 (Some 3).

Definition ride : Ride.t :=
  Ride.mk 1 1 "Pune Station" "Hadapsar" "2025-01-01" "09:00" 3 100 "car" (Some "")
          "active" (Some 2).

Definition request (status : string) : RideRequest.t :=
  RideRequest.mk 1 1 2 2 (Some "") status (Some 4).

(** [setup], then the driver accepts the request. *)
Definition accepted_once : list (nat * Request * Clock) :=
  setup ++ [ (0%nat, answer 1 "accepted", clock 5) ].

(** A ride offered with the largest seat count the store can hold, and a
    request for minus one seat on it. *)
Definition largest_ride : list (nat * Request * Clock) :=
  [ (0%nat, signup "driver@example.org" "driver", clock 1);
    (0%nat, offer (2 ^ 63 - 1), clock 2);
    (1%nat, signup "rider@example.org" "rider", clock 3);
    (1%nat, ask 1 (-1), clock 4) ].

(** The store after [setup], with the request in a given status. *)
Definition store_with (status : string) : Db :=
  mkDb [driver; rider] [ride] [request status].

Definition driver_session : Session := mkSession (Some 1) (Some "driver").
Definition rider_session : Session := mkSession (Some 2) (Some "rider").

Definition driver_world (status : string) : World :=
  mkWorld driver_session (store_with status) empty_data.

Definition rider_world : World :=
  mkWorld rider_session (store_with "pending") empty_data.
End Sample.

(** ** One request, seen from the store

    Whatever the request, the store either stays as it is, gains one row at
    the end of one table, or has one request row and at most one ride row
    rewritten by [update_request_status]. *)

Inductive store_step (w : World) (req : Request) : Db -> Prop :=
| step_none : store_step w req (db w)
| step_user (data : json) (u : User.t) :
    req = Register data ->
    user_by_email (db w) (User.email u) = None ->
    store_step w req
      (mkDb (users (db w) ++ [u]) (rides (db w)) (ride_requests (db w)))
| step_ride (data : json) (r : Ride.t) :
    req = CreateRide data ->
    Ride.status r = "active" ->
    store_step w req
      (mkDb (users (db w)) (rides (db w) ++ [r]) (ride_requests (db w)))
| step_request (data : json) (q : RideRequest.t) :
    req = CreateRideRequest data ->
    RideRequest.status q = "pending" ->
    store_step w req
      (mkDb (users (db w)) (rides (db w)) (ride_requests (db w) ++ [q]))
| step_update (request_id : Z) (data : json) (uid : Z) (st : string)
              (q : RideRequest.t) (r : Ride.t) :
    req = UpdateRequestStatus request_id data ->
    user_id (session w) = Some uid ->
    user_role (session w) = Some "driver" ->
    py_get data "status" JNull = inr (JStr st) ->
    st = "accepted" \/ st = "declined" ->
    get_ride_request (db w) request_id = Some q ->
    get_ride (db w) (RideRequest.ride_id q) = Some r ->
    Ride.driver_id r = uid ->
    store_step w req
      (mkDb (users (db w))
            (if String.eqb st "accepted"
             then update_row (fun x => Ride.id x =? Ride.id r)
                    (Ride.set_available_seats r
                       (Ride.available_seats r - RideRequest.seats q))
                    (rides (db w))
             else rides (db w))
            (update_row (fun x => RideRequest.id x =? RideRequest.id q)
               (RideRequest.set_status q st) (ride_requests (db w)))).

(** ** Route suggestions and the demo endpoint *)

(** [self.popular_routes], set once in [__init__] and never assigned again. *)
Definition popular_routes : list (string * string) :=
  [ ("Mumbai Central", "Bandra");
    ("Pune Station", "Hadapsar");
    ("Delhi CP", "Gurgaon") ].

(** The loop of [get_popular_route_suggestions] over a list of routes. *)
Fixpoint route_suggestions (routes : list (string * string)) (origin : string)
  : list string :=
  match routes with
  | [] => []
  | (route_origin, route_dest) :: rest =>
      if String.eqb (lower route_origin) (lower origin)
      then route_dest :: route_suggestions rest origin
      else route_suggestions rest origin
  end.

Definition get_popular_route_suggestions (origin : string) : list string :=
  route_suggestions popular_routes origin.

(** [len(x)] as a JSON number. *)
Definition len {A} (l : list A) : json := JInt (Z.of_nat (length l)).

(** A search-history entry as [jsonify] renders it. *)
Definition search_params_json (p : SearchParams) : json :=
  JObj [ ("origin", JStr (sp_origin p));
         ("destination", JStr (sp_destination p));
         ("date", JStr (sp_date p));
         ("timestamp", JStr (sp_timestamp p)) ].

(** [l[-3:]]. *)
Definition last_three {A} (l : list A) : list A := drop (length l - 3)%nat l.

(** GET /api/data-structures/demo *)
Definition demo_data_structures : Handler :=
  fun w =>
    let rd := ride_data w in
    (mkResponse
       (JObj
          [ ("message", JStr "Data Structures Demo");
            ("structures",
             JObj
               [ ("lists",
                  JObj [ ("active_rides", len (active_rides rd));
                         ("search_history", len (search_history rd));
                         ("description",
                          JStr "Used for ordered collections, easy iteration, dynamic sizing") ]);
                 ("dictionaries",
                  JObj [ ("user_sessions", JInt (Z.of_nat (size (user_sessions rd))));
                         ("ride_cache", JInt (Z.of_nat (size (ride_cache rd))));
                         ("driver_rides", JInt (Z.of_nat (size (driver_rides rd))));
                         ("description",
                          JStr "Used for fast O(1) lookups, key-value mapping, caching") ]);
                 ("sets",
                  JObj [ ("unique_emails", JInt (Z.of_nat (size (unique_emails rd))));
                         ("active_drivers", JInt (Z.of_nat (size (active_drivers rd))));
                         ("blocked_users", JInt (Z.of_nat (size (blocked_users rd))));
                         ("description",
                          JStr "Used for uniqueness, fast membership testing, no duplicates") ]);
                 ("tuples",
                  JObj [ ("popular_routes", len popular_routes);
                         ("description",
                          JStr "Used for immutable grouped data, coordinate pairs") ]) ]);
            ("recent_searches",
             JArr (map search_params_json
                       (match search_history rd with
                        | [] => []
                        | _ :: _ => last_three (search_history rd)
                        end))) ])
       200,
     w).

(** A key that a JSON object lacks. *)
Definition absent (kvs : list (string * json)) (field : string) : bool :=
  if dict_lookup field kvs is Some _ then false else true.

(** ** Well-formed stores, sessions and servers *)

(** Primary keys are positive and pairwise distinct in each table. *)
Definition keys_ok (d : Db) : Prop :=
  (NoDup (map User.id (users d)) /\ Forall (fun i => 0 < i) (map User.id (users d))) /\
  NoDup (map Ride.id (rides d)) /\
  NoDup (map RideRequest.id (ride_requests d)).

(** A bound session names a stored user and carries that user's role. *)
Definition session_ok (d : Db) (s : Session) : Prop :=
  forall uid,
    user_id s = Some uid ->
    exists u, get_user d uid = Some u /\ user_role s = Some (User.role u).

(** Every ride belongs to a stored driver; every request names a stored
    ride and a stored rider. *)
Definition references_ok (d : Db) : Prop :=
  (forall r, In r (rides d) ->
     exists u, get_user d (Ride.driver_id r) = Some u /\ User.role u = "driver") /\
  (forall q, In q (ride_requests d) ->
     (exists r, get_ride d (RideRequest.ride_id q) = Some r) /\
     exists u, get_user d (RideRequest.rider_id q) = Some u /\ User.role u = "rider").

(** The in-process collections: the search history holds at most ten
    entries. *)
Definition collections_ok (rd : RideShareDataStructures) : Prop :=
  (length (search_history rd) <= 10)%nat.

Definition world_ok (w : World) : Prop :=
  keys_ok (db w) /\ references_ok (db w) /\ session_ok (db w) (session w) /\
  collections_ok (ride_data w).

Definition server_ok (sv : Server) : Prop :=
  keys_ok (store sv) /\ references_ok (store sv) /\
  (forall client s, sessions sv !! client = Some s -> session_ok (store sv) s) /\
  collections_ok (collections sv).

(** The protected endpoints: those wrapped in [require_auth]. *)
Definition protected (req : Request) : bool :=
  match req with
  | GetCurrentUser | CreateRide _ | GetMyRides | CreateRideRequest _
  | GetMyRequests | UpdateRequestStatus _ _ => true
  | Register _ | Login _ | Logout | SearchRides _ => false
  end.

(** A text without the NUL character, at which SQLite's [LIKE] would stop
    reading. *)
Fixpoint no_nul (s : string) : bool :=
  match s with
  | EmptyString => true
  | String c s' => negb (Ascii.eqb c "000"%char) && no_nul s'
  end.

(** The pattern ['%' + needle + '%'] is within SQLite's limit on the length
    of a [LIKE] pattern (SQLITE_MAX_LIKE_PATTERN_LENGTH, 50000 bytes). *)
Definition pattern_fits (needle : string) : bool :=
  (N.of_nat (String.length needle) + 2 <=? 50000)%N.

(** A needle without the two [LIKE] wildcards. *)
Fixpoint plain (s : string) : bool :=
  match s with
  | EmptyString => true
  | String c s' =>
      negb (Ascii.eqb c "%"%char) && negb (Ascii.eqb c "_"%char) && plain s'
  end.

(** A query string from which every parameter given as the empty string has
    been left out. *)
Definition without_empty (args : SearchArgs) : SearchArgs :=
  let present (a : option string) :=
    match a with
    | Some s => if nonempty s then Some s else None
    | None => None
    end in
  mkSearchArgs (present (arg_origin args)) (present (arg_destination args))
               (present (arg_date args)).

(** The rows that [search_rides] selects, before ordering. *)
Definition matches_search (origin destination date : string) (r : Ride.t) : bool :=
  String.eqb (Ride.status r) "active"
  && (negb (nonempty origin) || ilike (Ride.origin r) ("%" +:+ origin +:+ "%"))
  && (negb (nonempty destination)
      || ilike (Ride.destination r) ("%" +:+ destination +:+ "%"))
  && (negb (nonempty date) || String.eqb (Ride.date r) date).

(** ** One request, seen from the store and the caller's session

    A finer view than [store_step]: which session the caller is left with,
    which key a new row receives and on whose behalf it is written. *)

Inductive transition (w : World) : Db -> Session -> Prop :=
| tr_read :
    transition w (db w) (session w)
| tr_logout :
    transition w (db w) empty_session
| tr_login (u : User.t) :
    In u (users (db w)) ->
    transition w (db w) (mkSession (Some (User.id u)) (Some (User.role u)))
| tr_register (u : User.t) :
    User.id u = next_id (map User.id (users (db w))) ->
    user_by_email (db w) (User.email u) = None ->
    transition w
      (mkDb (users (db w) ++ [u]) (rides (db w)) (ride_requests (db w)))
      (mkSession (Some (User.id u)) (Some (User.role u)))
| tr_ride (r : Ride.t) :
    Ride.id r = next_id (map Ride.id (rides (db w))) ->
    user_id (session w) = Some (Ride.driver_id r) ->
    user_role (session w) = Some "driver" ->
    Ride.status r = "active" ->
    transition w
      (mkDb (users (db w)) (rides (db w) ++ [r]) (ride_requests (db w)))
      (session w)
| tr_request (q : RideRequest.t) (r : Ride.t) :
    RideRequest.id q = next_id (map RideRequest.id (ride_requests (db w))) ->
    user_id (session w) = Some (RideRequest.rider_id q) ->
    user_role (session w) = Some "rider" ->
    get_ride (db w) (RideRequest.ride_id q) = Some r ->
    RideRequest.seats q <= Ride.available_seats r ->
    RideRequest.status q = "pending" ->
    transition w
      (mkDb (users (db w)) (rides (db w)) (ride_requests (db w) ++ [q]))
      (session w)
| tr_decision (q : RideRequest.t) (r : Ride.t) (st : string) :
    st = "accepted" \/ st = "declined" ->
    In q (ride_requests (db w)) ->
    get_ride (db w) (RideRequest.ride_id q) = Some r ->
    user_id (session w) = Some (Ride.driver_id r) ->
    user_role (session w) = Some "driver" ->
    transition w
      (mkDb (users (db w))
            (if String.eqb st "accepted"
             then update_row (fun x => Ride.id x =? Ride.id r)
                    (Ride.set_available_seats r
                       (Ride.available_seats r - RideRequest.seats q))
                    (rides (db w))
             else rides (db w))
            (update_row (fun x => RideRequest.id x =? RideRequest.id q)
               (RideRequest.set_status q st) (ride_requests (db w))))
      (session w).

(** * Properties *)

(** ** SQL pattern matching on examples *)

Example like_substring : ilike "Mumbai Central" ("%" +:+ "mumbai" +:+ "%") = true.
Proof. reflexivity. Qed.

Example like_wildcard : ilike "Pune" ("%" +:+ "p_n" +:+ "%") = true.
Proof. reflexivity. Qed.

Example like_mismatch : ilike "Pune" ("%" +:+ "delhi" +:+ "%") = false.
Proof. reflexivity. Qed.

(** ** Lookups and updates by primary key *)

Section Keyed.
Context {A : Type} (key : A -> Z).

Lemma find_key_eq (pk : Z) (table : list A) (x : A) :
  find (fun a => key a =? pk) table = Some x -> key x = pk.
Proof.
  induction table as [|a rest IH]; simpl; [discriminate|].
  destruct (key a =? pk) eqn:E.
  - intros [= <-]. lia.
  - exact IH.
Qed.

Lemma find_key_In (pk : Z) (table : list A) (x : A) :
  find (fun a => key a =? pk) table = Some x -> In x table.
Proof.
  induction table as [|a rest IH]; simpl; [discriminate|].
  destruct (key a =? pk).
  - intros [= <-]. now left.
  - intros Hx. right. now apply IH.
Qed.

Lemma find_update_row (pk : Z) (row x : A) (table : list A) :
  find (fun a => key a =? pk) table = Some x ->
  key row = pk ->
  find (fun a => key a =? pk)
       (update_row (fun a => key a =? key row) row table) = Some row.
Proof.
  intros Hfind Hrow. subst pk.
  induction table as [|a rest IH]; simpl in *; [discriminate|].
  destruct (key a =? key row) eqn:E; simpl.
  - now rewrite Z.eqb_refl.
  - rewrite E. now apply IH.
Qed.

(** Writing back the row that the lookup returned changes nothing. *)
Lemma update_row_same (pk : Z) (x : A) (table : list A) :
  find (fun a => key a =? pk) table = Some x ->
  update_row (fun a => key a =? key x) x table = table.
Proof.
  intros Hfind. pose proof (find_key_eq _ _ _ Hfind) as Hk. rewrite Hk.
  induction table as [|a rest IH]; simpl in *; [reflexivity|].
  destruct (key a =? pk) eqn:E.
  - now injection Hfind as ->.
  - f_equal. now apply IH.
Qed.

Lemma update_row_length (p : A -> bool) (row : A) (table : list A) :
  length (update_row p row table) = length table.
Proof.
  induction table as [|a rest IH]; simpl; [reflexivity|].
  destruct (p a); simpl; congruence.
Qed.

(** An update touches at most the row that the lookup by that key returns:
    every position keeps its row, except the position of that row, which
    receives the new one. *)
Lemma update_row_lookup (pk : Z) (row old : A) (table : list A) (i : nat) :
  table !! i = Some old ->
  exists new,
    update_row (fun a => key a =? pk) row table !! i = Some new /\
    (new = old \/ (find (fun a => key a =? pk) table = Some old /\ new = row)).
Proof.
  revert i. induction table as [|a rest IH]; intros i Hi; [discriminate|].
  simpl. destruct (key a =? pk) eqn:E.
  - destruct i as [|i]; simpl in *.
    + injection Hi as ->. exists row. split; [reflexivity|]. now right.
    + exists old. split; [assumption|now left].
  - destruct i as [|i]; simpl in *.
    + injection Hi as ->. exists old. split; [reflexivity|now left].
    + apply IH in Hi. exact Hi.
Qed.
End Keyed.

(** ** Running handler bodies *)

Ltac unfold_handler :=
  cbv beta iota zeta delta
    [try_except require_auth bind ret lift read set_session set_data commit
     session_user_id first_user_by_email query_ride add_user_email cache_ride
     add_to_search_history insert_user insert_ride insert_ride_request
     message failure].

Ltac world_simpl :=
  cbn [session db ride_data user_id user_role body code fst snd] in *.

Ltac case_step :=
  match goal with
  | |- context [match ?x with _ => _ end] =>
      lazymatch x with
      | context [match _ with _ => _ end] => fail
      | _ => destruct x eqn:?
      end
  end.

Ltac run_handler :=
  unfold_handler; world_simpl;
  repeat (case_step; cbv beta iota; world_simpl).

Lemma is_str_eq (field : string) (v : json) :
  is_str field v = true -> v = JStr field.
Proof.
  destruct v; simpl; try discriminate.
  intros E. apply String.eqb_eq in E. now subst.
Qed.

Lemma invalid_status_false (status : json) :
  invalid_status status = false ->
  (status = JStr "accepted" /\ is_str "accepted" status = true) \/
  (status = JStr "declined" /\ is_str "accepted" status = false).
Proof.
  unfold invalid_status. intros E. apply negb_false_iff, orb_true_iff in E.
  destruct E as [E|E]; apply is_str_eq in E; subst; [left|right]; split; reflexivity.
Qed.

Lemma get_by_key_Some {A} (table : Z -> option A) (pk : Z) (row : A) :
  get_by_key table pk = inr (Some row) <-> table pk = Some row.
Proof.
  unfold get_by_key. destruct (table pk) as [x|].
  - split; now intros [= ->].
  - destruct (int64 pk); split; discriminate.
Qed.

Lemma get_by_key_None {A} (table : Z -> option A) (pk : Z) :
  get_by_key table pk = inr None <-> table pk = None /\ int64 pk = true.
Proof.
  unfold get_by_key. destruct (table pk) as [x|].
  - split; [discriminate|]. now intros [? _].
  - destruct (int64 pk); split; try discriminate; intuition discriminate.
Qed.

Lemma get_by_key_raises {A} (table : Z -> option A) (pk : Z) (e : exn) :
  get_by_key table pk = inl e <->
  table pk = None /\ int64 pk = false /\ e = OverflowError.
Proof.
  unfold get_by_key. destruct (table pk) as [x|].
  - split; [discriminate|]. now intros [? _].
  - destruct (int64 pk); split; try discriminate.
    + now intros (_ & ? & _).
    + now intros [= <-].
    + now intros (_ & _ & ->).
Qed.

(** On a table whose keys SQLite can hold, [get_by_key] is the range check
    followed by the lookup, in the order of the code. *)
Lemma get_by_key_in_range {A} (table : Z -> option A) (pk : Z) :
  (forall k row, table k = Some row -> int64 k = true) ->
  get_by_key table pk =
    if int64 pk then inr (table pk) else inl OverflowError.
Proof.
  intros K. unfold get_by_key. destruct (table pk) as [x|] eqn:E.
  - now rewrite (K _ _ E).
  - reflexivity.
Qed.

Ltac keys_norm :=
  repeat match goal with
         | Hk : get_by_key _ _ = inr (Some _) |- _ => apply get_by_key_Some in Hk
         | Hk : get_by_key _ _ = inr None |- _ =>
             apply get_by_key_None in Hk; destruct Hk as [Hk ?]
         end.

(** ** What each handler does to the store *)

(** The full effect of [update_request_status]: either the handler answers
    with a code other than 200 and writes nothing, or the caller is a driver
    who owns the ride, the new status is one of the two allowed values, and
    exactly the two rows are rewritten. *)
Lemma update_request_status_effect (request_id : Z) (data : json) (w : World) :
  let (resp, w') := update_request_status request_id data w in
  session w' = session w /\
  ((code resp <> 200 /\ db w' = db w) \/
   (exists uid st q r,
      resp = message "Request updated successfully" 200 /\
      user_id (session w) = Some uid /\
      user_role (session w) = Some "driver" /\
      py_get data "status" JNull = inr (JStr st) /\
      (st = "accepted" \/ st = "declined") /\
      get_ride_request (db w) request_id = Some q /\
      get_ride (db w) (RideRequest.ride_id q) = Some r /\
      Ride.driver_id r = uid /\
      db w' =
        mkDb (users (db w))
             (if String.eqb st "accepted"
              then update_row (fun x => Ride.id x =? Ride.id r)
                     (Ride.set_available_seats r
                        (Ride.available_seats r - RideRequest.seats q))
                     (rides (db w))
              else rides (db w))
             (update_row (fun x => RideRequest.id x =? RideRequest.id q)
                (RideRequest.set_status q st) (ride_requests (db w))))).
Proof.
  unfold update_request_status, role_is_not.
  run_handler.
  all: try (split; [reflexivity|left; split; [discriminate|reflexivity]]).
  all: split; [reflexivity|right].
  all: keys_norm.
  all: match goal with
       | Hs : invalid_status ?j = false, Ha : is_str "accepted" ?j = _ |- _ =>
           destruct (invalid_status_false _ Hs) as [[-> Hacc]|[-> Hacc]];
           rewrite Hacc in Ha; try discriminate; clear Ha Hacc Hs
       end.
  all: match goal with
       | Hu : Some ?a = Some ?b, Hr : negb (String.eqb ?s "driver") = false,
         Hd : negb (Ride.driver_id ?r =? _) = false |- _ =>
           injection Hu as ->;
           apply negb_false_iff, String.eqb_eq in Hr; subst s;
           apply negb_false_iff, Z.eqb_eq in Hd
       end.
  all: match goal with
       | Hq : get_ride_request _ _ = Some ?q, Hr : get_ride _ _ = Some ?r |- _ =>
           eexists _, _, q, r; repeat split; try eassumption; try reflexivity;
           try (left; reflexivity); try (right; reflexivity)
       end.
  all: cbn [String.eqb Ascii.eqb Bool.eqb]; f_equal.
  all: unfold get_ride in *; eapply (update_row_same Ride.id); eassumption.
Qed.

Lemma not_null_text (v : json) (s : string) :
  not_null (bind_text v) = inr s -> v = JStr s.
Proof. destruct v; simpl; try discriminate. now intros [= ->]. Qed.

Lemma not_null_int (v : json) (z : Z) :
  not_null (bind_int v) = inr z -> v = JInt z.
Proof.
  destruct v; simpl; try discriminate.
  destruct (int64 _); simpl; try discriminate. now intros [= ->].
Qed.

Lemma bind_text_Some (v : json) (s : string) :
  bind_text v = inr (Some s) -> v = JStr s.
Proof. destruct v; simpl; try discriminate. now intros [= ->]. Qed.

Lemma bind_int_Some (v : json) (z : Z) :
  bind_int v = inr (Some z) -> v = JInt z.
Proof.
  destruct v; simpl; try discriminate.
  destruct (int64 _); try discriminate. now intros [= ->].
Qed.


Section Effects.
Context `{Externals}.

(** The loop of [search_rides] always completes, returns one dictionary per
    ride in order, and touches nothing but the ride cache. *)
Lemma serialize_and_cache_spec (d : Db) (l : list Ride.t) (w : World) :
  exists rd,
    serialize_and_cache d l w =
      (inr (map (fun r => Ride_to_dict d r true) l),
       mkWorld (session w) (db w) rd).
Proof.
  revert w. induction l as [|r rest IH]; intros w; simpl.
  - exists (ride_data w). unfold ret. now destruct w.
  - unfold_handler. world_simpl.
    match goal with
    | |- context [serialize_and_cache d rest ?w1] =>
        destruct (IH w1) as [rd ->]
    end.
    world_simpl. now exists rd.
Qed.

Lemma register_effect (data : json) (clk : Clock) (w : World) :
  let (resp, w') := register data clk w in
  (code resp <> 201 /\ db w' = db w /\ session w' = session w) \/
  (exists user,
     resp = mkResponse (User_to_dict user) 201 /\
     db w' = mkDb (users (db w) ++ [user]) (rides (db w)) (ride_requests (db w)) /\
     user_by_email (db w) (User.email user) = None /\
     User.id user = next_id (map User.id (users (db w))) /\
     py_getitem data "email" = inr (JStr (User.email user)) /\
     py_getitem data "role" = inr (JStr (User.role user)) /\
     session w' = mkSession (Some (User.id user)) (Some (User.role user))).
Proof.
  unfold register. run_handler.
  all: cbn [negb] in *; try discriminate.
  all: try (left; repeat split; [discriminate|reflexivity..]).
  right. eexists. split; [reflexivity|]. split; [reflexivity|].
  cbn [User.email User.id User.role].
  repeat match goal with
         | Hn : not_null (bind_text _) = inr _ |- _ => apply not_null_text in Hn; subst
         | Hn : not_null (inr (Some _)) = inr _ |- _ => injection Hn as <-
         | Hn : bind_text _ = inr (Some _) |- _ => apply bind_text_Some in Hn; subst
         end.
  repeat split; assumption.
Qed.

Lemma login_effect (data : json) (clk : Clock) (w : World) :
  let (resp, w') := login data clk w in
  db w' = db w /\ (code resp <> 200 -> w' = w).
Proof.
  unfold login. run_handler.
  all: split; [reflexivity|]; intros Hc; try reflexivity; try now destruct w.
  all: now contradiction Hc.
Qed.

Lemma get_current_user_effect (w : World) :
  snd (get_current_user w) = w.
Proof. unfold get_current_user. run_handler; now destruct w. Qed.

Lemma get_my_rides_effect (w : World) :
  snd (get_my_rides w) = w.
Proof. unfold get_my_rides. run_handler; now destruct w. Qed.

Lemma get_my_requests_effect (w : World) :
  snd (get_my_requests w) = w.
Proof.
  unfold get_my_requests. run_handler; try now destruct w.
  now destruct (driver_view _ _).
Qed.

Lemma search_rides_effect (args : SearchArgs) (clk : Clock) (w : World) :
  let (resp, w') := search_rides args clk w in
  code resp = 200 /\ db w' = db w /\ session w' = session w.
Proof.
  unfold search_rides. unfold_handler. world_simpl.
  match goal with
  | |- context [serialize_and_cache ?d ?l ?w1] =>
      destruct (serialize_and_cache_spec d l w1) as [rd ->]
  end.
  now world_simpl.
Qed.

Lemma create_ride_effect (data : json) (clk : Clock) (w : World) :
  let (resp, w') := create_ride data clk w in
  session w' = session w /\
  ((code resp <> 201 /\ db w' = db w) \/
   (exists ride uid,
      resp = mkResponse (Ride_to_dict (db w') ride false) 201 /\
      db w' = mkDb (users (db w)) (rides (db w) ++ [ride]) (ride_requests (db w)) /\
      user_id (session w) = Some uid /\
      user_role (session w) = Some "driver" /\
      Ride.driver_id ride = uid /\
      Ride.status ride = "active" /\
      Ride.id ride = next_id (map Ride.id (rides (db w))) /\
      py_getitem data "availableSeats" = inr (JInt (Ride.available_seats ride)))).
Proof.
  unfold create_ride, role_is_not. run_handler.
  all: cbn [negb] in *; try discriminate.
  all: try (split; [reflexivity|left; split; [discriminate|reflexivity]]).
  split; [reflexivity|right].
  repeat match goal with
         | Hn : not_null (bind_int _) = inr _ |- _ => apply not_null_int in Hn; subst
         | Hr : negb (String.eqb ?s "driver") = false |- _ =>
             apply negb_false_iff, String.eqb_eq in Hr; subst s
         | Hu : Some _ = Some _ |- _ => injection Hu as ->
         end.
  eexists _, _. repeat split; try eassumption; reflexivity.
Qed.

Lemma create_ride_request_effect (data : json) (clk : Clock) (w : World) :
  let (resp, w') := create_ride_request data clk w in
  session w' = session w /\
  ((code resp <> 201 /\ db w' = db w) \/
   (exists q ride uid,
      resp = mkResponse (RideRequest_to_dict (db w') q false false) 201 /\
      db w' = mkDb (users (db w)) (rides (db w)) (ride_requests (db w) ++ [q]) /\
      user_id (session w) = Some uid /\
      user_role (session w) = Some "rider" /\
      RideRequest.rider_id q = uid /\
      RideRequest.status q = "pending" /\
      RideRequest.id q = next_id (map RideRequest.id (ride_requests (db w))) /\
      get_ride (db w) (RideRequest.ride_id q) = Some ride /\
      RideRequest.seats q <= Ride.available_seats ride)).
Proof.
  unfold create_ride_request, role_is_not. run_handler.
  all: cbn [negb] in *; try discriminate.
  all: try (split; [reflexivity|left; split; [discriminate|reflexivity]]).
  split; [reflexivity|right]. keys_norm.
  repeat match goal with
         | Hn : not_null (bind_int _) = inr _ |- _ => apply not_null_int in Hn; subst
         | Hj : JInt _ = JInt _ |- _ => injection Hj as <-
         | Hr : negb (String.eqb ?s "rider") = false |- _ =>
             apply negb_false_iff, String.eqb_eq in Hr; subst s
         | Hu : Some _ = Some _ |- _ => injection Hu as ->
         | Hn : not_null (inr (Some _)) = inr _ |- _ => injection Hn as <-
         | Hl : py_lt _ (JInt _) = inr false |- _ =>
             injection Hl as Hl; apply Z.ltb_ge in Hl
         end.
  match goal with
  | Hr : get_ride _ _ = Some ?t |- _ => eexists _, t, _
  end.
  repeat split; try eassumption; reflexivity.
Qed.
End Effects.

Lemma logout_effect (w : World) :
  let (resp, w') := logout w in
  code resp = 200 /\ db w' = db w.
Proof. unfold logout. run_handler; now split. Qed.

Section Steps.
Context `{Externals}.

Lemma handle_store_step (req : Request) (clk : Clock) (w : World) :
  store_step w req (db (snd (handle req clk w))).
Proof.
  destruct req as [data|data| | |data|args| |data| |request_id data]; simpl.
  - pose proof (register_effect data clk w) as E.
    destruct (register data clk w) as [resp w']; simpl.
    destruct E as [(_ & -> & _)|(u & _ & -> & Hu & _)]; [constructor|].
    now apply (step_user _ _ data).
  - pose proof (login_effect data clk w) as E.
    destruct (login data clk w) as [resp w']; simpl.
    destruct E as [-> _]. constructor.
  - pose proof (logout_effect w) as E.
    destruct (logout w) as [resp w']; simpl.
    destruct E as [_ ->]. constructor.
  - rewrite get_current_user_effect. constructor.
  - pose proof (create_ride_effect data clk w) as E.
    destruct (create_ride data clk w) as [resp w']; simpl.
    destruct E as [_ [(_ & ->)|(r & uid & _ & -> & _ & _ & _ & Hs & _)]];
      [constructor|].
    now apply (step_ride _ _ data).
  - pose proof (search_rides_effect args clk w) as E.
    destruct (search_rides args clk w) as [resp w']; simpl.
    destruct E as (_ & -> & _). constructor.
  - rewrite get_my_rides_effect. constructor.
  - pose proof (create_ride_request_effect data clk w) as E.
    destruct (create_ride_request data clk w) as [resp w']; simpl.
    destruct E as [_ [(_ & ->)|(q & r & uid & _ & -> & _ & _ & _ & Hs & _)]];
      [constructor|].
    now apply (step_request _ _ data).
  - rewrite get_my_requests_effect. constructor.
  - pose proof (update_request_status_effect request_id data w) as E.
    destruct (update_request_status request_id data w) as [resp w']; simpl.
    destruct E as [_ [(_ & ->)|(uid & st & q & r & _ & Hu & Hro & Hst & Hv & Hq & Hr & Ho & ->)]];
      [constructor|].
    now apply (step_update _ _ request_id data uid).
Qed.

(** A response that is neither 200 nor 201 comes with an untouched store. *)
Lemma handle_failure_db (req : Request) (clk : Clock) (w : World) :
  let (resp, w') := handle req clk w in
  code resp <> 200 -> code resp <> 201 -> db w' = db w.
Proof.
  destruct req as [data|data| | |data|args| |data| |request_id data]; simpl.
  - pose proof (register_effect data clk w) as E.
    destruct (register data clk w) as [resp w'].
    destruct E as [(_ & -> & _)|(u & -> & _)]; [easy|]. simpl. easy.
  - pose proof (login_effect data clk w) as E.
    destruct (login data clk w) as [resp w']. now destruct E as [-> _].
  - pose proof (logout_effect w) as E.
    destruct (logout w) as [resp w']. now destruct E as [_ ->].
  - pose proof (get_current_user_effect w) as E.
    destruct (get_current_user w) as [resp w']. simpl in E. now subst.
  - pose proof (create_ride_effect data clk w) as E.
    destruct (create_ride data clk w) as [resp w'].
    destruct E as [_ [(_ & ->)|(r & uid & -> & _)]]; [easy|]. simpl. easy.
  - pose proof (search_rides_effect args clk w) as E.
    destruct (search_rides args clk w) as [resp w']. now destruct E as (_ & -> & _).
  - pose proof (get_my_rides_effect w) as E.
    destruct (get_my_rides w) as [resp w']. simpl in E. now subst.
  - pose proof (create_ride_request_effect data clk w) as E.
    destruct (create_ride_request data clk w) as [resp w'].
    destruct E as [_ [(_ & ->)|(q & r & uid & -> & _)]]; [easy|]. simpl. easy.
  - pose proof (get_my_requests_effect w) as E.
    destruct (get_my_requests w) as [resp w']. simpl in E. now subst.
  - pose proof (update_request_status_effect request_id data w) as E.
    destruct (update_request_status request_id data w) as [resp w'].
    destruct E as [_ [(_ & ->)|(uid & st & q & r & -> & _)]]; [easy|]. simpl. easy.
Qed.
End Steps.

(** ** What a search selects *)

Lemma filter_twice {A} (p q : A -> bool) (l : list A) :
  List.filter p (List.filter q l) = List.filter (fun x => q x && p x) l.
Proof.
  induction l as [|x l IH]; simpl; [reflexivity|].
  destruct (q x); simpl; [|exact IH]. destruct (p x); now rewrite IH.
Qed.

Lemma filter_optional {A} (on : bool) (p : A -> bool) (l : list A) :
  (if on then List.filter p l else l) = List.filter (fun x => negb on || p x) l.
Proof.
  destruct on; simpl; [reflexivity|].
  induction l as [|x l IH]; simpl; [reflexivity|]. now rewrite <- IH.
Qed.

Lemma search_query_filter (d : Db) (origin destination date : string) :
  search_query d origin destination date
  = order_by_created_desc Ride.created_at
      (List.filter (matches_search origin destination date) (rides d)).
Proof.
  unfold search_query. rewrite !filter_optional, !filter_twice.
  f_equal. apply List.filter_ext. intros r. unfold matches_search.
  now rewrite !andb_assoc.
Qed.

Lemma search_rides_result `{Externals} (args : SearchArgs) (clk : Clock) (w : World) :
  fst (search_rides args clk w)
  = mkResponse
      (JArr (map (fun r => Ride_to_dict (db w) r true)
                 (order_by_created_desc Ride.created_at
                    (List.filter
                       (matches_search (default "" (arg_origin args))
                                       (default "" (arg_destination args))
                                       (default "" (arg_date args)))
                       (rides (db w)))))) 200.
Proof.
  unfold search_rides. unfold_handler. world_simpl.
  match goal with
  | |- context [serialize_and_cache ?d ?l ?w1] =>
      destruct (serialize_and_cache_spec d l w1) as [rd ->]
  end.
  cbn [fst]. now rewrite search_query_filter.
Qed.

(** * The claims *)

(** The sample store is the one the server holds after the sample setup. *)
Example sample_store_reached :
  store (snd (serve_all (H := Sample.externals) Sample.setup initial_server))
  = Sample.store_with "pending".
Proof. vm_compute. reflexivity. Qed.

(** C1 (the code departs from the claim).  Two requests for two seats each
    are made while the ride has three free seats; the driver accepts both.
    Every call succeeds and the ride ends with [available_seats = -1]:
    acceptance is never refused for lack of seats. *)
Theorem accepting_overlapping_requests_makes_seats_negative :
  let (resps, sv) :=
    serve_all (H := Sample.externals) Sample.overbooking initial_server in
  map code resps = [201; 201; 201; 201; 201; 200; 200] /\
  map Ride.available_seats (rides (store sv)) = [-1] /\
  map RideRequest.status (ride_requests (store sv)) = ["accepted"; "accepted"].
Proof. vm_compute. repeat split. Qed.

(** C3, as stated, fails at the edge of the store's integer range.  A ride
    is offered with [2^63 - 1] seats and a rider asks for [-1] seats on it;
    both calls answer 201.  When the owning driver accepts, the reduced seat
    count [2^63] cannot be written: the handler answers 500 and the store
    keeps the ride's seat count and the request's pending status. *)
Lemma accept_beyond_int64_is_not_applied :
  let (resps, sv) :=
    serve_all (H := Sample.externals) Sample.largest_ride initial_server in
  map code resps = [201; 201; 201; 201] /\
  map Ride.available_seats (rides (store sv)) = [2 ^ 63 - 1] /\
  map RideRequest.seats (ride_requests (store sv)) = [-1] /\
  let (resp, sv') :=
    serve (H := Sample.externals) 0%nat (Sample.answer 1 "accepted")
          (Sample.clock 5) sv in
  code resp = 500 /\
  map Ride.available_seats (rides (store sv')) = [2 ^ 63 - 1] /\
  map RideRequest.status (ride_requests (store sv')) = ["pending"].
Proof. vm_compute. repeat split. Qed.

(** C3, amended.  When the driver who owns the ride accepts a request for
    [S] seats and the reduced seat count fits the store's signed 64-bit
    integer column, the ride's [available_seats] drops by exactly [S], the
    request's status becomes [accepted], and the handler answers 200 with
    its acknowledgment. *)
Theorem accept_reduces_seats_by_request_seats
    (request_id uid : Z) (kvs : list (string * json)) (w : World)
    (q : RideRequest.t) (r : Ride.t) :
  user_id (session w) = Some uid ->
  user_role (session w) = Some "driver" ->
  dict_lookup "status" kvs = Some (JStr "accepted") ->
  get_ride_request (db w) request_id = Some q ->
  get_ride (db w) (RideRequest.ride_id q) = Some r ->
  Ride.driver_id r = uid ->
  int64 (Ride.available_seats r - RideRequest.seats q) = true ->
  let (resp, w') := update_request_status request_id (JObj kvs) w in
  resp = message "Request updated successfully" 200 /\
  get_ride (db w') (RideRequest.ride_id q) =
    Some (Ride.set_available_seats r (Ride.available_seats r - RideRequest.seats q)) /\
  get_ride_request (db w') request_id = Some (RideRequest.set_status q "accepted").
Proof.
  intros Huid Hrole Hstatus Hq Hr Hown Hrange.
  unfold update_request_status, role_is_not, py_get, flush_int.
  unfold_handler. rewrite Huid, Hrole, Hstatus.
  cbn -[get_ride get_ride_request get_by_key int64].
  rewrite (proj2 (get_by_key_Some _ _ _) Hq).
  cbn -[get_ride get_ride_request int64].
  rewrite Hr, Huid, Hown, Z.eqb_refl. cbn -[get_ride get_ride_request int64].
  rewrite Hrange.
  pose proof (find_key_eq _ _ _ _ Hr) as Hrid.
  pose proof (find_key_eq _ _ _ _ Hq) as Hqid.
  destruct (_ && _); cbn -[get_ride get_ride_request];
    (split; [reflexivity|]; split;
     [ apply (find_update_row Ride.id _
                (Ride.set_available_seats r
                   (Ride.available_seats r - RideRequest.seats q)) r);
       [exact Hr | exact Hrid]
     | apply (find_update_row RideRequest.id _
                (RideRequest.set_status q "accepted") q);
       [exact Hq | exact Hqid] ]).
Qed.

Lemma accept_reduces_seats_witness :
  let (resp, w') :=
    update_request_status 1 (JObj [("status", JStr "accepted")])
                          (Sample.driver_world "pending") in
  resp = message "Request updated successfully" 200 /\
  get_ride (db w') 1 = Some (Ride.set_available_seats Sample.ride (3 - 2)) /\
  get_ride_request (db w') 1 = Some (Sample.request "accepted").
Proof.
  exact (accept_reduces_seats_by_request_seats
           1 1 [("status", JStr "accepted")] (Sample.driver_world "pending")
           (Sample.request "pending") Sample.ride
           eq_refl eq_refl eq_refl eq_refl eq_refl eq_refl eq_refl).
Defined.

(** C2, as stated, fails: the driver who accepted a request can decline it
    afterwards, and the stored status goes from [accepted] to [declined]. *)
Lemma accepted_request_can_be_declined :
  let sv := snd (serve_all (H := Sample.externals) Sample.accepted_once initial_server) in
  map RideRequest.status (ride_requests (store sv)) = ["accepted"] /\
  let (resp, sv') :=
    serve (H := Sample.externals) 0%nat (Sample.answer 1 "declined") (Sample.clock 6) sv in
  code resp = 200 /\
  map RideRequest.status (ride_requests (store sv')) = ["declined"].
Proof. vm_compute. repeat split. Qed.

(** C2, amended.  A stored request keeps its place in the table, and its row
    changes only when [update_request_status] is called for that request by
    a session whose role is [driver] and whose user owns the referenced
    ride; the row then differs from the old one in its status alone, and the
    new status is [accepted] or [declined]. *)
Theorem request_status_changes_only_by_owner_decision `{Externals}
    (req : Request) (clk : Clock) (w : World) (i : nat) (q : RideRequest.t) :
  ride_requests (db w) !! i = Some q ->
  exists q',
    ride_requests (db (snd (handle req clk w))) !! i = Some q' /\
    (q' = q \/
     exists data st r uid,
       req = UpdateRequestStatus (RideRequest.id q) data /\
       py_get data "status" JNull = inr (JStr st) /\
       (st = "accepted" \/ st = "declined") /\
       q' = RideRequest.set_status q st /\
       user_role (session w) = Some "driver" /\
       user_id (session w) = Some uid /\
       get_ride (db w) (RideRequest.ride_id q) = Some r /\
       Ride.driver_id r = uid).
Proof.
  intros Hi. pose proof (handle_store_step req clk w) as Hstep.
  inversion Hstep
    as [Hd | data u Hreq Hu Hd | data r Hreq Hs Hd | data q0 Hreq Hs Hd
        | request_id data uid st q0 r Hreq Huid Hrole Hst Hv Hq Hr Hown Hd];
    cbn [ride_requests].
  - exists q. split; [assumption|now left].
  - exists q. split; [assumption|now left].
  - exists q. split; [assumption|now left].
  - exists q. split; [now apply lookup_app_l_Some|now left].
  - destruct (update_row_lookup RideRequest.id (RideRequest.id q0)
                (RideRequest.set_status q0 st) q _ i Hi) as (q' & Hq' & Hcase).
    exists q'. split; [exact Hq'|].
    destruct Hcase as [->|[Hfind ->]]; [now left|right].
    pose proof (find_key_eq _ _ _ _ Hq) as Hid.
    unfold get_ride_request in Hq. rewrite Hid in Hfind.
    rewrite Hq in Hfind. injection Hfind as ->.
    exists data, st, r, uid. rewrite Hid. repeat split; assumption.
Qed.

Lemma request_status_changes_witness :
  exists q',
    ride_requests
      (db (snd (handle (H := Sample.externals) (Sample.answer 1 "declined")
                       (Sample.clock 6) (Sample.driver_world "pending")))) !! 0%nat
    = Some q' /\
    (q' = Sample.request "pending" \/
     exists data st r uid,
       Sample.answer 1 "declined"
       = UpdateRequestStatus (RideRequest.id (Sample.request "pending")) data /\
       py_get data "status" JNull = inr (JStr st) /\
       (st = "accepted" \/ st = "declined") /\
       q' = RideRequest.set_status (Sample.request "pending") st /\
       user_role (session (Sample.driver_world "pending")) = Some "driver" /\
       user_id (session (Sample.driver_world "pending")) = Some uid /\
       get_ride (db (Sample.driver_world "pending"))
                (RideRequest.ride_id (Sample.request "pending")) = Some r /\
       Ride.driver_id r = uid).
Proof.
  exact (request_status_changes_only_by_owner_decision
           (H := Sample.externals) (Sample.answer 1 "declined") (Sample.clock 6)
           (Sample.driver_world "pending") 0%nat (Sample.request "pending") eq_refl).
Defined.

(** C4.  A handler that answers 400, 401, 403 or 404 leaves the store as it
    was.  In particular a rider who calls [create_ride] gets 403 and no ride
    is stored, and a [create_ride_request] for more seats than the ride has
    free gets 400 and no request is stored. *)
Theorem failed_requests_leave_store_unchanged `{Externals} :
  (forall (req : Request) (clk : Clock) (w : World),
     In (code (fst (handle req clk w))) [400; 401; 403; 404] ->
     db (snd (handle req clk w)) = db w) /\
  (forall (data : json) (clk : Clock) (w : World) (uid : Z),
     user_id (session w) = Some uid ->
     user_role (session w) = Some "rider" ->
     code (fst (create_ride data clk w)) = 403 /\
     db (snd (create_ride data clk w)) = db w) /\
  (forall (kvs : list (string * json)) (clk : Clock) (w : World)
          (uid ride_id seats : Z) (ride : Ride.t),
     user_id (session w) = Some uid ->
     user_role (session w) = Some "rider" ->
     dict_lookup "rideId" kvs = Some (JInt ride_id) ->
     dict_lookup "seats" kvs = Some (JInt seats) ->
     get_ride (db w) ride_id = Some ride ->
     Ride.available_seats ride < seats ->
     code (fst (create_ride_request (JObj kvs) clk w)) = 400 /\
     db (snd (create_ride_request (JObj kvs) clk w)) = db w).
Proof.
  split; [|split].
  - intros req clk w Hin.
    pose proof (handle_failure_db req clk w) as E.
    destruct (handle req clk w) as [resp w']; simpl in *.
    apply E; intros Hc; rewrite Hc in Hin; simpl in Hin;
      repeat (destruct Hin as [Hin|Hin]; [discriminate|]); exact Hin.
  - intros data clk w uid Hu Hr.
    unfold create_ride, role_is_not. unfold_handler. rewrite Hu, Hr.
    split; reflexivity.
  - intros kvs clk w uid ride_id seats ride Hu Hr Hid Hseats Hride Hlt.
    unfold create_ride_request, role_is_not, first_missing, py_in, py_getitem,
      py_lt, bind_int.
    unfold_handler. rewrite Hu, Hr, Hid, Hseats. cbn -[get_ride get_by_key].
    rewrite (proj2 (get_by_key_Some _ _ _) Hride). cbn.
    apply Z.ltb_lt in Hlt. rewrite Hlt. split; reflexivity.
Qed.

Lemma failed_requests_witness :
  db (snd (handle (H := Sample.externals) (Sample.offer 3) (Sample.clock 5)
                  Sample.rider_world)) = db Sample.rider_world /\
  (code (fst (create_ride (H := Sample.externals) JNull (Sample.clock 5)
                          Sample.rider_world)) = 403 /\
   db (snd (create_ride (H := Sample.externals) JNull (Sample.clock 5)
                        Sample.rider_world)) = db Sample.rider_world) /\
  (code (fst (create_ride_request (H := Sample.externals)
                (JObj [("rideId", JInt 1); ("seats", JInt 4)]) (Sample.clock 5)
                Sample.rider_world)) = 400 /\
   db (snd (create_ride_request (H := Sample.externals)
              (JObj [("rideId", JInt 1); ("seats", JInt 4)]) (Sample.clock 5)
              Sample.rider_world)) = db Sample.rider_world).
Proof.
  pose proof (failed_requests_leave_store_unchanged (H := Sample.externals))
    as (Hall & Hride & Hrequest).
  split; [|split].
  - apply Hall. vm_compute. right. right. left. reflexivity.
  - apply (Hride JNull (Sample.clock 5) Sample.rider_world 2); reflexivity.
  - apply (Hrequest [("rideId", JInt 1); ("seats", JInt 4)] (Sample.clock 5)
                    Sample.rider_world 2 1 4 Sample.ride); reflexivity.
Defined.

(** C5 (the code departs from the claim).  Registration stores whatever
    string the body gives as [role]: a sign-up with role [admin] answers 201
    and the stored user has role [admin]. *)
Theorem register_stores_any_role :
  let (resps, sv) :=
    serve_all (H := Sample.externals)
              [(0%nat, Sample.signup "root@example.org" "admin", Sample.clock 1)]
              initial_server in
  map code resps = [201] /\
  map User.role (users (store sv)) = ["admin"] /\
  option_map user_role (sessions sv !! 0%nat) = Some (Some "admin").
Proof. vm_compute. repeat split. Qed.

(** The part of C5 that the code does keep: a stored user row, its role
    included, is never rewritten. *)
Lemma stored_user_never_changes `{Externals}
    (req : Request) (clk : Clock) (w : World) (i : nat) (u : User.t) :
  users (db w) !! i = Some u ->
  users (db (snd (handle req clk w))) !! i = Some u.
Proof.
  intros Hi. pose proof (handle_store_step req clk w) as Hstep.
  inversion Hstep; cbn [users]; try assumption.
  now apply lookup_app_l_Some.
Qed.

(** ** Email uniqueness *)

Lemma first_missing_dict (fields : list string) (kvs : list (string * json)) :
  exists missing, first_missing fields (JObj kvs) = inr missing.
Proof.
  induction fields as [|f rest IH]; simpl; [now eexists|].
  destruct (dict_lookup f kvs); [exact IH|now eexists].
Qed.

Lemma user_by_email_None (d : Db) (e : string) :
  user_by_email d e = None -> e ∉ map User.email (users d).
Proof.
  unfold user_by_email. intros Hnone Hin.
  apply list_elem_of_In, in_map_iff in Hin. destruct Hin as (u & <- & Hu).
  pose proof (find_none _ _ Hnone u Hu) as Hneq. simpl in Hneq.
  now rewrite String.eqb_refl in Hneq.
Qed.

Lemma store_step_unique_emails (w : World) (req : Request) (d' : Db) :
  store_step w req d' -> unique_emails_in (db w) -> unique_emails_in d'.
Proof.
  unfold unique_emails_in.
  intros Hstep Hnd. inversion Hstep; cbn [users]; try assumption.
  rewrite map_app. apply NoDup_app. split; [assumption|]. split.
  - intros e He Hin. simpl in Hin. apply list_elem_of_singleton in Hin. subst e.
    eapply user_by_email_None; eassumption.
  - simpl. apply NoDup_singleton.
Qed.

Lemma serve_store `{Externals} (client : nat) (req : Request) (clk : Clock)
      (sv : Server) :
  store (snd (serve client req clk sv)) =
  db (snd (handle req clk
             (mkWorld (default empty_session (sessions sv !! client))
                      (store sv) (collections sv)))).
Proof. unfold serve. now destruct (handle _ _ _). Qed.

Lemma serve_all_unique_emails `{Externals}
      (calls : list (nat * Request * Clock)) (sv : Server) :
  unique_emails_in (store sv) ->
  unique_emails_in (store (snd (serve_all calls sv))).
Proof.
  revert sv. induction calls as [|[[client req] clk] rest IH]; intros sv Hsv;
    simpl; [assumption|].
  pose proof (serve_store client req clk sv) as Hstore.
  destruct (serve client req clk sv) as [resp sv'] eqn:E. simpl in Hstore.
  specialize (IH sv'). destruct (serve_all rest sv') as [resps sv'']. simpl in *.
  apply IH. rewrite Hstore.
  eapply store_step_unique_emails; [apply handle_store_step|exact Hsv].
Qed.

(** C6.  A registration whose email is already stored answers 400 and
    stores nothing; hence, however the server is called from its initial
    state, no two user rows share an email. *)
Theorem duplicate_email_is_rejected `{Externals} :
  (forall (kvs : list (string * json)) (clk : Clock) (w : World)
          (e : string) (u : User.t),
     dict_lookup "email" kvs = Some (JStr e) ->
     user_by_email (db w) e = Some u ->
     code (fst (register (JObj kvs) clk w)) = 400 /\
     db (snd (register (JObj kvs) clk w)) = db w) /\
  (forall calls : list (nat * Request * Clock),
     NoDup (map User.email (users (store (snd (serve_all calls initial_server)))))).
Proof.
  split.
  - intros kvs clk w e u He Hu.
    unfold register. unfold_handler.
    destruct (first_missing_dict
                ["firstName"; "lastName"; "email"; "phone"; "password"; "role"] kvs)
      as [missing ->].
    destruct missing as [field|]; [split; reflexivity|].
    unfold py_getitem. rewrite He. cbn [py_hash bind_text]. world_simpl.
    destruct (decide _); cbn [negb]; world_simpl; [split; reflexivity|].
    rewrite Hu. split; reflexivity.
  - intros calls. apply serve_all_unique_emails. constructor.
Qed.

Lemma duplicate_email_witness :
  code (fst (register (H := Sample.externals)
               (JObj (Sample.signup_fields "driver@example.org" "rider"))
               (Sample.clock 9) Sample.rider_world)) = 400 /\
  db (snd (register (H := Sample.externals)
             (JObj (Sample.signup_fields "driver@example.org" "rider"))
             (Sample.clock 9) Sample.rider_world)) = db Sample.rider_world.
Proof.
  exact (proj1 (duplicate_email_is_rejected (H := Sample.externals))
               (Sample.signup_fields "driver@example.org" "rider") (Sample.clock 9)
               Sample.rider_world "driver@example.org" Sample.driver
               eq_refl eq_refl).
Defined.

(** The part of C7 that the code does keep: as long as the password check
    returns, a login for an email that no stored user has and a login for a
    stored email whose hash does not match the password get the same
    response, 401 with the message [Invalid credentials], and neither leaves
    a trace in the session or in the server's state. *)
Lemma login_failure_is_uniform `{Externals}
    (kvs : list (string * json)) (clk : Clock) (w1 w2 : World)
    (e : string) (password : json) (u : User.t) :
  dict_lookup "email" kvs = Some (JStr e) ->
  dict_lookup "password" kvs = Some password ->
  user_by_email (db w1) e = None ->
  user_by_email (db w2) e = Some u ->
  check_password_hash (User.password_hash u) password = inr false ->
  fst (login (JObj kvs) clk w1) = fst (login (JObj kvs) clk w2) /\
  fst (login (JObj kvs) clk w1) = message "Invalid credentials" 401 /\
  snd (login (JObj kvs) clk w1) = w1 /\
  snd (login (JObj kvs) clk w2) = w2.
Proof.
  intros He Hp Hnone Hsome Hcheck.
  unfold login, py_in, py_getitem. unfold_handler.
  rewrite He, Hp. cbn [negb bind_text]. rewrite Hnone, Hsome, Hcheck.
  repeat split.
Qed.

Example login_failure_is_uniform_example :
  fst (login (H := Sample.externals)
         (JObj (Sample.signin_fields "rider@example.org" "guess")) (Sample.clock 9)
         (mkWorld empty_session empty_db empty_data))
  = fst (login (H := Sample.externals)
           (JObj (Sample.signin_fields "rider@example.org" "guess")) (Sample.clock 9)
           (mkWorld empty_session (Sample.store_with "pending") empty_data)) /\
  fst (login (H := Sample.externals)
         (JObj (Sample.signin_fields "rider@example.org" "guess")) (Sample.clock 9)
         (mkWorld empty_session empty_db empty_data))
  = message "Invalid credentials" 401 /\
  snd (login (H := Sample.externals)
         (JObj (Sample.signin_fields "rider@example.org" "guess")) (Sample.clock 9)
         (mkWorld empty_session empty_db empty_data))
  = mkWorld empty_session empty_db empty_data /\
  snd (login (H := Sample.externals)
         (JObj (Sample.signin_fields "rider@example.org" "guess")) (Sample.clock 9)
         (mkWorld empty_session (Sample.store_with "pending") empty_data))
  = mkWorld empty_session (Sample.store_with "pending") empty_data.
Proof.
  exact (login_failure_is_uniform (H := Sample.externals)
           (Sample.signin_fields "rider@example.org" "guess") (Sample.clock 9)
           (mkWorld empty_session empty_db empty_data)
           (mkWorld empty_session (Sample.store_with "pending") empty_data)
           "rider@example.org" (JStr "guess") Sample.rider
           eq_refl eq_refl eq_refl eq_refl eq_refl).
Defined.

(** When the password check raises for the stored user, the handler's
    [except] clause answers 500 with the exception text, while the same body
    for an email that no stored user has is answered 401 without the check
    being made. *)
Lemma login_check_raise_is_visible `{Externals}
    (kvs : list (string * json)) (clk : Clock) (w1 w2 : World)
    (e : string) (password : json) (u : User.t) (err : exn) :
  dict_lookup "email" kvs = Some (JStr e) ->
  dict_lookup "password" kvs = Some password ->
  user_by_email (db w1) e = None ->
  user_by_email (db w2) e = Some u ->
  check_password_hash (User.password_hash u) password = inl err ->
  login (JObj kvs) clk w1 = (message "Invalid credentials" 401, w1) /\
  login (JObj kvs) clk w2 = (failure "Login failed" err, w2).
Proof.
  intros He Hp Hnone Hsome Hcheck.
  unfold login, py_in, py_getitem. unfold_handler.
  rewrite He, Hp. cbn [negb bind_text]. rewrite Hnone, Hsome, Hcheck.
  split; now destruct w1, w2.
Qed.

(** C7 (the code departs from the claim).  After the sample setup a third
    client tries to log in with a password that is a JSON number, which
    [check_password_hash] cannot hash.  For an email that nobody registered
    the answer is 401 [Invalid credentials]; for the rider's registered
    email it is 500 [Login failed] with the exception text.  Both attempts
    fail, and their responses tell whether the email is registered. *)
Theorem login_with_unhashable_password_reveals_registration :
  let sv := snd (serve_all (H := Sample.externals) Sample.setup initial_server) in
  let attempt (email : string) :=
    Login (JObj [("email", JStr email); ("password", JInt 1234)]) in
  map User.email (users (store sv)) = ["driver@example.org"; "rider@example.org"] /\
  fst (serve (H := Sample.externals) 2%nat (attempt "nobody@example.org")
             (Sample.clock 5) sv)
  = message "Invalid credentials" 401 /\
  fst (serve (H := Sample.externals) 2%nat (attempt "rider@example.org")
             (Sample.clock 5) sv)
  = mkResponse (JObj [("message", JStr "Login failed");
                      ("error", JStr AttributeError)]) 500.
Proof. vm_compute. repeat split. Qed.

(** C9.  [update_request_status] writes nothing to the store but the status
    of the request it names and, when the new status is [accepted], the
    [available_seats] of the referenced ride: the [users] table, the number
    and order of rows, every other row and every other field stay as they
    were.  No handler changes the [status] of a stored ride, so a ride whose
    seats are used up by an acceptance keeps the status it had. *)
Theorem update_request_status_frame `{Externals} :
  (forall (request_id : Z) (data : json) (w : World),
     let w' := snd (update_request_status request_id data w) in
     users (db w') = users (db w) /\
     (forall (i : nat) (q : RideRequest.t),
        ride_requests (db w) !! i = Some q ->
        exists q',
          ride_requests (db w') !! i = Some q' /\
          (q' = q \/
           (get_ride_request (db w) request_id = Some q /\
            exists st, q' = RideRequest.set_status q st))) /\
     (forall (i : nat) (r : Ride.t),
        rides (db w) !! i = Some r ->
        exists r',
          rides (db w') !! i = Some r' /\
          (r' = r \/
           exists q,
             get_ride_request (db w) request_id = Some q /\
             get_ride (db w) (RideRequest.ride_id q) = Some r /\
             py_get data "status" JNull = inr (JStr "accepted") /\
             r' = Ride.set_available_seats r
                    (Ride.available_seats r - RideRequest.seats q))) /\
     length (ride_requests (db w')) = length (ride_requests (db w)) /\
     length (rides (db w')) = length (rides (db w))) /\
  (forall (req : Request) (clk : Clock) (w : World) (i : nat) (r : Ride.t),
     rides (db w) !! i = Some r ->
     exists r',
       rides (db (snd (handle req clk w))) !! i = Some r' /\
       Ride.status r' = Ride.status r).
Proof.
  split.
  - intros request_id data w w'. subst w'.
    pose proof (update_request_status_effect request_id data w) as E.
    destruct (update_request_status request_id data w) as [resp w']. simpl.
    destruct E as [_ [(_ & ->)|(uid & st & q0 & r0 & _ & _ & _ & Hst & Hv & Hq & Hr & _ & ->)]].
    + repeat split; eauto.
    + cbn [users rides ride_requests].
      pose proof (find_key_eq _ _ _ _ Hq) as Hqid.
      pose proof (find_key_eq _ _ _ _ Hr) as Hrid.
      split; [reflexivity|]. split; [|split; [|split]].
      * intros i q Hi.
        destruct (update_row_lookup RideRequest.id (RideRequest.id q0)
                    (RideRequest.set_status q0 st) q _ i Hi) as (q' & Hq' & Hcase).
        exists q'. split; [exact Hq'|].
        destruct Hcase as [->|[Hfind ->]]; [now left|right].
        unfold get_ride_request in *. rewrite Hqid in Hfind.
        rewrite Hq in Hfind. injection Hfind as ->.
        split; [exact Hq|now exists st].
      * intros i r Hi. destruct Hv as [-> | ->]; cbn [String.eqb Ascii.eqb Bool.eqb].
        -- destruct (update_row_lookup Ride.id (Ride.id r0)
                       (Ride.set_available_seats r0
                          (Ride.available_seats r0 - RideRequest.seats q0))
                       r _ i Hi) as (r' & Hr' & Hcase).
           exists r'. split; [exact Hr'|].
           destruct Hcase as [->|[Hfind ->]]; [now left|right].
           unfold get_ride in *. rewrite Hrid in Hfind.
           rewrite Hr in Hfind. injection Hfind as ->.
           exists q0. repeat split; assumption.
        -- exists r. split; [exact Hi|now left].
      * apply update_row_length.
      * destruct (String.eqb st "accepted"); [apply update_row_length|reflexivity].
  - intros req clk w i r Hi.
    pose proof (handle_store_step req clk w) as Hstep.
    inversion Hstep
      as [Hd | data u Hreq Hu Hd | data r1 Hreq Hs Hd | data q0 Hreq Hs Hd
          | request_id data uid st q0 r0 Hreq Huid Hrole Hst Hv Hq Hr Hown Hd];
      cbn [rides].
    + now exists r.
    + now exists r.
    + exists r. split; [now apply lookup_app_l_Some|reflexivity].
    + now exists r.
    + destruct (String.eqb st "accepted"); [|now exists r].
      destruct (update_row_lookup Ride.id (Ride.id r0)
                  (Ride.set_available_seats r0
                     (Ride.available_seats r0 - RideRequest.seats q0))
                  r _ i Hi) as (r' & Hr' & Hcase).
      exists r'. split; [exact Hr'|].
      destruct Hcase as [->|[Hfind ->]]; [reflexivity|].
      pose proof (find_key_eq _ _ _ _ Hr) as Hrid.
      unfold get_ride in *. rewrite Hrid in Hfind.
      rewrite Hr in Hfind. now injection Hfind as ->.
Qed.

Lemma update_request_status_frame_witness :
  (exists q',
     ride_requests
       (db (snd (update_request_status 1 (JObj [("status", JStr "accepted")])
                   (Sample.driver_world "pending")))) !! 0%nat = Some q' /\
     (q' = Sample.request "pending" \/
      (get_ride_request (db (Sample.driver_world "pending")) 1
       = Some (Sample.request "pending") /\
       exists st, q' = RideRequest.set_status (Sample.request "pending") st))) /\
  (exists r',
     rides
       (db (snd (update_request_status 1 (JObj [("status", JStr "accepted")])
                   (Sample.driver_world "pending")))) !! 0%nat = Some r' /\
     (r' = Sample.ride \/
      exists q,
        get_ride_request (db (Sample.driver_world "pending")) 1 = Some q /\
        get_ride (db (Sample.driver_world "pending")) (RideRequest.ride_id q)
        = Some Sample.ride /\
        py_get (JObj [("status", JStr "accepted")]) "status" JNull
        = inr (JStr "accepted") /\
        r' = Ride.set_available_seats Sample.ride
               (Ride.available_seats Sample.ride - RideRequest.seats q))) /\
  (exists r',
     rides (db (snd (handle (H := Sample.externals) (Sample.answer 1 "accepted")
                       (Sample.clock 6) (Sample.driver_world "pending")))) !! 0%nat
     = Some r' /\
     Ride.status r' = Ride.status Sample.ride).
Proof.
  pose proof (update_request_status_frame (H := Sample.externals)) as [Hframe Hstatus].
  destruct (Hframe 1 (JObj [("status", JStr "accepted")])
                   (Sample.driver_world "pending")) as (_ & Hq & Hr & _).
  split; [|split].
  - exact (Hq 0%nat (Sample.request "pending") eq_refl).
  - exact (Hr 0%nat Sample.ride eq_refl).
  - exact (Hstatus (Sample.answer 1 "accepted") (Sample.clock 6)
                   (Sample.driver_world "pending") 0%nat Sample.ride eq_refl).
Defined.

(** A ride left without free seats after an acceptance is still [active]. *)
Example overbooked_ride_stays_active :
  map Ride.status
      (rides (store (snd (serve_all (H := Sample.externals) Sample.overbooking
                                    initial_server))))
  = ["active"].
Proof. vm_compute. reflexivity. Qed.

(** ** Ordering of query results *)

Lemma created_le_total (a b : option Z) :
  created_le a b = true \/ created_le b a = true.
Proof. destruct a, b; simpl; auto. lia. Qed.

Lemma created_le_trans (a b c : option Z) :
  created_le a b = true -> created_le b c = true -> created_le a c = true.
Proof. destruct a, b, c; simpl; try easy. lia. Qed.

#[global] Instance newer_total {A} (f : A -> option Z) : Total (newer f).
Proof. intros x y. unfold newer. destruct (created_le_total (f y) (f x)); auto. Qed.

#[global] Instance newer_trans {A} (f : A -> option Z) : Transitive (newer f).
Proof. intros x y z Hxy Hyz. unfold newer in *. eapply created_le_trans; eassumption. Qed.

Lemma dict_lookup_set (k : string) (v : json) (kvs : list (string * json)) :
  dict_lookup k (dict_set k v kvs) = Some v.
Proof.
  induction kvs as [|[k' v'] rest IH]; simpl.
  - now rewrite String.eqb_refl.
  - destruct (String.eqb k k') eqn:E; simpl.
    + now rewrite String.eqb_refl.
    + now rewrite E.
Qed.

(** C10.  In [search_rides] a parameter given as the empty string acts as
    an absent one, whatever the other parameters are: the call has the
    result of the call without it, and no filter is applied for it.  The
    rides listed are the [active] rides that pass three filters, one for
    each parameter and depending on that parameter alone, and each filter
    lets every ride pass when its parameter is empty.  So with all three
    parameters empty or absent the handler answers 200 with every [active]
    ride, newest first, each serialized with its driver embedded.  (The
    listing is stated for origin and destination needles whose pattern the
    store accepts, which the empty one always is.) *)
Theorem empty_search_parameters_are_no_filter `{Externals} :
  exists by_origin by_destination by_date : string -> Ride.t -> bool,
    (forall r : Ride.t,
       by_origin "" r = true /\ by_destination "" r = true /\ by_date "" r = true) /\
    forall (args : SearchArgs) (clk : Clock) (w : World),
      search_rides args clk w = search_rides (without_empty args) clk w /\
      (pattern_fits (default "" (arg_origin args)) = true ->
       pattern_fits (default "" (arg_destination args)) = true ->
       exists found : list Ride.t,
        fst (search_rides args clk w)
        = mkResponse (JArr (map (fun r => Ride_to_dict (db w) r true) found)) 200 /\
        found ≡ₚ List.filter
                   (fun r => String.eqb (Ride.status r) "active"
                             && by_origin (default "" (arg_origin args)) r
                             && by_destination (default "" (arg_destination args)) r
                             && by_date (default "" (arg_date args)) r)
                   (rides (db w)) /\
        StronglySorted (newer Ride.created_at) found /\
        (forall (r : Ride.t) (u : User.t),
           get_user (db w) (Ride.driver_id r) = Some u ->
           exists fields,
             Ride_to_dict (db w) r true = JObj fields /\
             dict_lookup "driver" fields = Some (User_to_dict u))).
Proof.
  exists (fun origin r =>
            negb (nonempty origin) || ilike (Ride.origin r) ("%" +:+ origin +:+ "%")),
         (fun destination r =>
            negb (nonempty destination)
            || ilike (Ride.destination r) ("%" +:+ destination +:+ "%")),
         (fun date r => negb (nonempty date) || String.eqb (Ride.date r) date).
  split; [intros r; repeat split|].
  intros args clk w. split.
  - assert (Hpresent : forall a : option string,
               default "" (match a with
                           | Some s => if nonempty s then Some s else None
                           | None => None
                           end) = default "" a).
    { intros [[|c s]|]; reflexivity. }
    unfold search_rides, without_empty.
    cbn [arg_origin arg_destination arg_date]. now rewrite !Hpresent.
  - intros _ _.
    exists (order_by_created_desc Ride.created_at
              (List.filter
                 (matches_search (default "" (arg_origin args))
                                 (default "" (arg_destination args))
                                 (default "" (arg_date args)))
                 (rides (db w)))).
    split; [|split; [|split]].
    + apply search_rides_result.
    + unfold order_by_created_desc. rewrite merge_sort_Permutation.
      reflexivity.
    + apply StronglySorted_merge_sort; apply _.
    + intros r u Hu. unfold Ride_to_dict. rewrite Hu.
      eexists. split; [reflexivity|]. apply dict_lookup_set.
Qed.

Lemma empty_search_witness :
  search_rides (H := Sample.externals) (mkSearchArgs (Some "") None (Some ""))
               (Sample.clock 9) Sample.rider_world
  = search_rides (H := Sample.externals) (mkSearchArgs None None None)
                 (Sample.clock 9) Sample.rider_world /\
  exists found : list Ride.t,
    fst (search_rides (H := Sample.externals) (mkSearchArgs (Some "") None (Some ""))
                      (Sample.clock 9) Sample.rider_world)
    = mkResponse
        (JArr (map (fun r => Ride_to_dict (H := Sample.externals)
                               (db Sample.rider_world) r true) found)) 200 /\
    found ≡ₚ List.filter (fun r => String.eqb (Ride.status r) "active")
                         (rides (db Sample.rider_world)) /\
    StronglySorted (newer Ride.created_at) found /\
    (forall u : User.t,
       get_user (db Sample.rider_world) (Ride.driver_id Sample.ride) = Some u ->
       exists fields,
         Ride_to_dict (H := Sample.externals) (db Sample.rider_world) Sample.ride true
         = JObj fields /\
         dict_lookup "driver" fields = Some (User_to_dict (H := Sample.externals) u)).
Proof.
  destruct (empty_search_parameters_are_no_filter (H := Sample.externals))
    as (by_origin & by_destination & by_date & Hempty & Hall).
  destruct (Hall (mkSearchArgs (Some "") None (Some "")) (Sample.clock 9)
                 Sample.rider_world)
    as (Hsame & Hlist).
  destruct (Hlist eq_refl eq_refl) as (found & Hbody & Hperm & Hsorted & Hdriver).
  split; [exact Hsame|].
  exists found. split; [exact Hbody|]. split; [|split].
  - rewrite Hperm.
    rewrite (List.filter_ext _ (fun r => String.eqb (Ride.status r) "active"));
      [reflexivity|].
    intros r. cbn [arg_origin arg_destination arg_date from_option id].
    destruct (Hempty r) as (Ho & Hd & Ht).
    rewrite Ho, Hd, Ht. now rewrite !andb_true_r.
  - exact Hsorted.
  - intros u. apply Hdriver.
Defined.

(** The sample search returns the sample ride with the driver's public
    fields. *)
Example search_returns_ride_with_driver :
  fst (search_rides (H := Sample.externals) (mkSearchArgs (Some "") None None)
                    (Sample.clock 9) Sample.rider_world)
  = mkResponse
      (JArr [Ride_to_dict (H := Sample.externals) (Sample.store_with "pending")
                          Sample.ride true]) 200.
Proof. vm_compute. reflexivity. Qed.

(** ** Password hashes and serialization *)











Lemma User_to_dict_ignores_hash `{Externals} (u : User.t) (h : string) :
  User_to_dict (User.set_password_hash u h) = User_to_dict u.
Proof. reflexivity. Qed.















(** What the rider sees of themselves: nine public fields. *)
Example current_user_representation :
  fst (get_current_user (H := Sample.externals) Sample.rider_world)
  = mkResponse
      (JObj [ ("id", JInt 2); ("firstName", JStr "Asha"); ("lastName", JStr "Rao");
              ("email", JStr "rider@example.org"); ("phone", JStr "555-0100");
              ("role", JStr "rider"); ("rating", JInt 5); ("totalRides", JInt 0);
              ("createdAt", JStr "3") ]) 200.
Proof. vm_compute. reflexivity. Qed.

(** * Further properties of the application *)

(** ** The authentication gate *)

Lemma protected_needs_session `{Externals} (req : Request) (clk : Clock) (w : World) :
  protected req = true ->
  user_id (session w) = None ->
  handle req clk w = (message "Unauthorized" 401, w).
Proof.
  intros Hp Hs.
  destruct req; try discriminate Hp; simpl;
    unfold get_current_user, create_ride, get_my_rides, create_ride_request,
      get_my_requests, update_request_status, require_auth;
    now rewrite Hs.
Qed.

(** X1.  Each endpoint wrapped in [require_auth], called without a bound
    session, answers 401 [Unauthorized] and changes nothing: not the store,
    not the session, not the in-process collections. *)
Theorem unauthenticated_calls_are_refused `{Externals}
    (req : Request) (clk : Clock) (w : World) :
  protected req = true ->
  user_id (session w) = None ->
  handle req clk w = (message "Unauthorized" 401, w).
Proof. apply protected_needs_session. Qed.

Lemma unauthenticated_calls_witness :
  handle (H := Sample.externals) (Sample.offer 3) (Sample.clock 1)
         (mkWorld empty_session (Sample.store_with "pending") empty_data)
  = (message "Unauthorized" 401,
     mkWorld empty_session (Sample.store_with "pending") empty_data).
Proof.
  exact (unauthenticated_calls_are_refused (H := Sample.externals)
           (Sample.offer 3) (Sample.clock 1)
           (mkWorld empty_session (Sample.store_with "pending") empty_data)
           eq_refl eq_refl).
Defined.

(** ** Logging out *)

Lemma logout_result (w : World) :
  exists rd,
    logout w = (message "Logged out successfully" 200,
                mkWorld empty_session (db w) rd) /\
    (user_id (session w) = None -> rd = ride_data w) /\
    (forall uid, user_id (session w) = Some uid -> uid <> 0 ->
       (uid ∉ active_drivers rd) /\ (user_sessions rd !! uid = None)) /\
    unique_emails rd = unique_emails (ride_data w) /\
    search_history rd = search_history (ride_data w).
Proof.
  unfold logout. run_handler.
  all: eexists; split; [reflexivity|]; world_simpl.
  all: split; [try (intros; discriminate); try (intros; reflexivity)|].
  all: split; [|split; reflexivity].
  all: try (intros uid Hu; discriminate Hu).
  all: intros uid [= <-] Hnz.
  all: repeat match goal with
         | Hb : _ && _ = true |- _ => apply andb_true_iff in Hb; destruct Hb
         | Hb : _ && _ = false |- _ => apply andb_false_iff in Hb; destruct Hb
         | Hb : bool_decide _ = true |- _ => apply bool_decide_eq_true in Hb
         | Hb : bool_decide _ = false |- _ => apply bool_decide_eq_false in Hb
         | Hb : truthy _ = false |- _ =>
             unfold truthy in Hb; apply negb_false_iff, Z.eqb_eq in Hb; lia
         end.
  all: cbn in *; split; try set_solver.
  all: try apply lookup_delete_eq.
  all: try (apply eq_None_not_Some; assumption).
Qed.

(** X2.  [logout] always answers 200 and leaves the store alone; after it
    the session is unbound, so every protected endpoint answers 401, and a
    second [logout] answers 200 again and changes nothing more. *)
Theorem logout_unbinds_and_is_idempotent `{Externals}
    (req : Request) (clk : Clock) (w : World) :
  protected req = true ->
  fst (logout w) = message "Logged out successfully" 200 /\
  session (snd (logout w)) = empty_session /\
  db (snd (logout w)) = db w /\
  handle req clk (snd (logout w)) = (message "Unauthorized" 401, snd (logout w)) /\
  logout (snd (logout w)) = (message "Logged out successfully" 200, snd (logout w)).
Proof.
  intros Hp.
  destruct (logout_result w) as (rd & -> & _). cbn [fst snd session db].
  repeat split. now apply protected_needs_session.
Qed.

Lemma logout_unbinds_witness :
  fst (logout (Sample.driver_world "pending"))
  = message "Logged out successfully" 200 /\
  session (snd (logout (Sample.driver_world "pending"))) = empty_session /\
  db (snd (logout (Sample.driver_world "pending")))
  = db (Sample.driver_world "pending") /\
  handle (H := Sample.externals) GetMyRides (Sample.clock 9)
         (snd (logout (Sample.driver_world "pending")))
  = (message "Unauthorized" 401, snd (logout (Sample.driver_world "pending"))) /\
  logout (snd (logout (Sample.driver_world "pending")))
  = (message "Logged out successfully" 200,
     snd (logout (Sample.driver_world "pending"))).
Proof.
  exact (logout_unbinds_and_is_idempotent (H := Sample.externals) GetMyRides
           (Sample.clock 9) (Sample.driver_world "pending") eq_refl).
Defined.

(** ** Logging in *)

Lemma login_accepts `{Externals} (kvs : list (string * json)) (clk : Clock)
      (w : World) (e : string) (password : json) (u : User.t) :
  dict_lookup "email" kvs = Some (JStr e) ->
  dict_lookup "password" kvs = Some password ->
  user_by_email (db w) e = Some u ->
  check_password_hash (User.password_hash u) password = inr true ->
  exists rd,
    login (JObj kvs) clk w
    = (mkResponse (User_to_dict u) 200,
       mkWorld (mkSession (Some (User.id u)) (Some (User.role u))) (db w) rd) /\
    user_sessions rd !! User.id u
    = Some (mkSessionData (User.role u) (User.email u) (isoformat (now clk))) /\
    (User.role u = "driver" -> User.id u ∈ active_drivers rd) /\
    unique_emails rd = unique_emails (ride_data w) /\
    search_history rd = search_history (ride_data w).
Proof.
  intros He Hp Hu Hc.
  unfold login, py_in, py_getitem. unfold_handler.
  rewrite He, Hp. cbn [negb bind_text]. rewrite Hu, Hc. world_simpl.
  destruct (String.eqb (User.role u) "driver") eqn:Hr; world_simpl.
  - eexists. split; [reflexivity|]. cbn. split; [apply lookup_insert_eq|].
    split; [intros _; set_solver|]. split; reflexivity.
  - eexists. split; [reflexivity|]. cbn. split; [apply lookup_insert_eq|].
    split; [|split; reflexivity].
    intros Hd. rewrite Hd in Hr. discriminate.
Qed.

(** X3.  A login with a stored email and a matching password answers 200
    with that user's representation, binds the session to the user's id and
    role, records the login in [user_sessions] and, for a driver, in
    [active_drivers]; the store is not written.  A [logout] right after
    removes both records again. *)
Theorem login_binds_and_logout_forgets `{Externals}
    (kvs : list (string * json)) (clk : Clock) (w : World)
    (e : string) (password : json) (u : User.t) :
  dict_lookup "email" kvs = Some (JStr e) ->
  dict_lookup "password" kvs = Some password ->
  user_by_email (db w) e = Some u ->
  check_password_hash (User.password_hash u) password = inr true ->
  User.id u <> 0 ->
  let w1 := snd (login (JObj kvs) clk w) in
  let w2 := snd (logout w1) in
  fst (login (JObj kvs) clk w) = mkResponse (User_to_dict u) 200 /\
  session w1 = mkSession (Some (User.id u)) (Some (User.role u)) /\
  db w1 = db w /\
  is_Some (user_sessions (ride_data w1) !! User.id u) /\
  (User.role u = "driver" -> User.id u ∈ active_drivers (ride_data w1)) /\
  session w2 = empty_session /\
  user_sessions (ride_data w2) !! User.id u = None /\
  User.id u ∉ active_drivers (ride_data w2).
Proof.
  intros He Hp Hu Hc Hnz w1 w2. subst w1 w2.
  destruct (login_accepts kvs clk w e password u He Hp Hu Hc)
    as (rd & -> & Hs & Hd & _).
  cbn [fst snd session db ride_data].
  destruct (logout_result
              (mkWorld (mkSession (Some (User.id u)) (Some (User.role u))) (db w) rd))
    as (rd2 & -> & _ & Hforget & _).
  cbn [fst snd session db ride_data].
  destruct (Hforget (User.id u) eq_refl Hnz) as [Hnot Hnone].
  repeat split; try assumption. now rewrite Hs.
Qed.

Lemma login_binds_witness :
  let w := mkWorld empty_session (Sample.store_with "pending") empty_data in
  let body := JObj (Sample.signin_fields "driver@example.org" "secret") in
  let w1 := snd (login (H := Sample.externals) body (Sample.clock 9) w) in
  let w2 := snd (logout w1) in
  fst (login (H := Sample.externals) body (Sample.clock 9) w)
  = mkResponse (User_to_dict (H := Sample.externals) Sample.driver) 200 /\
  session w1 = mkSession (Some 1) (Some "driver") /\
  db w1 = db w /\
  is_Some (user_sessions (ride_data w1) !! 1) /\
  ("driver" = "driver" -> 1 ∈ active_drivers (ride_data w1)) /\
  session w2 = empty_session /\
  user_sessions (ride_data w2) !! 1 = None /\
  1 ∉ active_drivers (ride_data w2).
Proof.
  exact (login_binds_and_logout_forgets (H := Sample.externals)
           (Sample.signin_fields "driver@example.org" "secret") (Sample.clock 9)
           (mkWorld empty_session (Sample.store_with "pending") empty_data)
           "driver@example.org" (JStr "secret") Sample.driver
           eq_refl eq_refl eq_refl eq_refl ltac:(discriminate)).
Defined.

(** ** Primary keys *)

Lemma next_id_above (ids : list Z) (x : Z) : In x ids -> x < next_id ids.
Proof.
  unfold next_id. induction ids as [|y rest IH]; simpl; [easy|].
  intros [->|Hx]; [lia|]. specialize (IH Hx). lia.
Qed.

Lemma next_id_positive (ids : list Z) : 0 < next_id ids.
Proof.
  unfold next_id. induction ids as [|y rest IH]; simpl; lia.
Qed.

Lemma next_id_fresh (ids : list Z) : ~ In (next_id ids) ids.
Proof. intros Hin. apply next_id_above in Hin. lia. Qed.

Lemma NoDup_snoc_fresh (ids : list Z) : NoDup ids -> NoDup (ids ++ [next_id ids]).
Proof.
  intros Hnd. apply NoDup_app. split; [assumption|]. split.
  - intros x Hx Hin. apply list_elem_of_singleton in Hin. subst x.
    apply list_elem_of_In in Hx. now apply next_id_fresh in Hx.
  - apply NoDup_singleton.
Qed.

Section KeyedMore.
Context {A : Type} (key : A -> Z).

Lemma update_row_keys (row : A) (table : list A) :
  map key (update_row (fun a => key a =? key row) row table) = map key table.
Proof.
  induction table as [|a rest IH]; simpl; [reflexivity|].
  destruct (key a =? key row) eqn:E; simpl; [|now rewrite IH].
  apply Z.eqb_eq in E. now rewrite E.
Qed.

Lemma find_key_app (pk : Z) (table : list A) (row : A) :
  find (fun a => key a =? pk) (table ++ [row])
  = match find (fun a => key a =? pk) table with
    | Some x => Some x
    | None => if key row =? pk then Some row else None
    end.
Proof.
  induction table as [|a rest IH]; simpl; [reflexivity|].
  destruct (key a =? pk); [reflexivity|exact IH].
Qed.

Lemma find_key_fresh (table : list A) :
  find (fun a => key a =? next_id (map key table)) table = None.
Proof.
  destruct (find _ table) as [x|] eqn:E; [|reflexivity].
  pose proof (find_key_eq key _ _ _ E) as Hk.
  apply (find_key_In key) in E.
  exfalso. apply (next_id_fresh (map key table)). rewrite <- Hk.
  now apply in_map.
Qed.

(** With distinct keys, the lookup by a row's key returns that row. *)
Lemma find_key_unique (table : list A) (x : A) :
  NoDup (map key table) -> In x table ->
  find (fun a => key a =? key x) table = Some x.
Proof.
  induction table as [|a rest IH]; simpl; [easy|].
  intros Hnd [->|Hx].
  - now rewrite Z.eqb_refl.
  - apply NoDup_cons in Hnd. destruct Hnd as [Hna Hnd].
    destruct (key a =? key x) eqn:E.
    + apply Z.eqb_eq in E. exfalso. apply Hna. rewrite E.
      apply list_elem_of_In. now apply in_map.
    + now apply IH.
Qed.

Lemma In_update_row (pk : Z) (row x : A) (table : list A) :
  In x (update_row (fun a => key a =? pk) row table) ->
  x = row \/ In x table.
Proof.
  induction table as [|a rest IH]; simpl; [easy|].
  destruct (key a =? pk); simpl.
  - intros [<-|Hx]; auto.
  - intros [<-|Hx]; auto. destruct (IH Hx); auto.
Qed.

(** A lookup after an update of a row with the same key: the new row if the
    key is the updated one, the old result otherwise. *)
Lemma find_after_update (pk : Z) (row old : A) (table : list A) :
  find (fun a => key a =? key row) table = Some old ->
  find (fun a => key a =? pk) (update_row (fun a => key a =? key row) row table)
  = if key row =? pk then Some row else find (fun a => key a =? pk) table.
Proof.
  induction table as [|a rest IH]; simpl; [discriminate|].
  destruct (key a =? key row) eqn:E; simpl.
  - intros _. apply Z.eqb_eq in E. rewrite E. now destruct (key row =? pk).
  - intros Hf. specialize (IH Hf).
    destruct (key a =? pk) eqn:E2.
    + destruct (key row =? pk) eqn:E3; [|reflexivity]. lia.
    + exact IH.
Qed.
End KeyedMore.

(** ** Every handler as a transition *)

Lemma login_session `{Externals} (data : json) (clk : Clock) (w : World) :
  session (snd (login data clk w)) = session w \/
  exists u, In u (users (db w)) /\
            session (snd (login data clk w))
            = mkSession (Some (User.id u)) (Some (User.role u)).
Proof.
  unfold login. run_handler; try (now left).
  all: right.
  all: match goal with
       | Hu : user_by_email _ _ = Some ?u |- _ =>
           exists u; split; [|reflexivity];
           unfold user_by_email in Hu; now apply find_some in Hu
       end.
Qed.

Lemma handle_transition `{Externals} (req : Request) (clk : Clock) (w : World) :
  transition w (db (snd (handle req clk w))) (session (snd (handle req clk w))).
Proof.
  destruct req as [data|data| | |data|args| |data| |request_id data]; simpl.
  - pose proof (register_effect data clk w) as E.
    destruct (register data clk w) as [resp w']; simpl.
    destruct E as [(_ & -> & ->)|(u & _ & -> & Hu & Hid & _ & _ & ->)];
      [constructor|].
    now apply tr_register.
  - pose proof (login_effect data clk w) as E.
    pose proof (login_session data clk w) as S.
    destruct (login data clk w) as [resp w']; simpl in *.
    destruct E as [-> _].
    destruct S as [-> | (u & Hu & ->)]; [constructor|now apply tr_login].
  - destruct (logout_result w) as (rd & -> & _). simpl. constructor.
  - rewrite get_current_user_effect. constructor.
  - pose proof (create_ride_effect data clk w) as E.
    destruct (create_ride data clk w) as [resp w']; simpl.
    destruct E as [-> [(_ & ->)|(r & uid & _ & -> & Hu & Hr & Hd & Hs & Hid & _)]];
      [constructor|].
    subst uid. now apply tr_ride.
  - pose proof (search_rides_effect args clk w) as E.
    destruct (search_rides args clk w) as [resp w']; simpl.
    destruct E as (_ & -> & ->). constructor.
  - rewrite get_my_rides_effect. constructor.
  - pose proof (create_ride_request_effect data clk w) as E.
    destruct (create_ride_request data clk w) as [resp w']; simpl.
    destruct E as [-> [(_ & ->)|(q & r & uid & _ & -> & Hu & Hr & Hd & Hs & Hid & Hg & Hle)]];
      [constructor|].
    subst uid. now apply (tr_request _ q r).
  - rewrite get_my_requests_effect. constructor.
  - pose proof (update_request_status_effect request_id data w) as E.
    destruct (update_request_status request_id data w) as [resp w']; simpl.
    destruct E as [-> [(_ & ->)|(uid & st & q & r & _ & Hu & Hro & Hst & Hv & Hq & Hr & Ho & ->)]];
      [constructor|].
    subst uid. apply (tr_decision _ q r st); try assumption.
    now apply (find_key_In RideRequest.id) in Hq.
Qed.

(** ** Invariants of the store *)

Lemma transition_keys_ok (w : World) (d' : Db) (s' : Session) :
  transition w d' s' -> keys_ok (db w) -> keys_ok d'.
Proof.
  unfold keys_ok. intros Ht ((Hu & Hpos) & Hr & Hq).
  inversion Ht as [| |u Hin|u Hid Hem|r Hid Hs Hro Hst|q r Hid Hs Hro Hg Hle Hst
                   |q r st Hv Hin Hg Hs Hro];
    cbn [users rides ride_requests]; auto.
  - rewrite !map_app. simpl. rewrite Hid. repeat split; auto.
    + now apply NoDup_snoc_fresh.
    + apply Forall_app. split; [assumption|].
      constructor; [apply next_id_positive|constructor].
  - rewrite map_app. simpl. rewrite Hid. repeat split; auto.
    now apply NoDup_snoc_fresh.
  - rewrite map_app. simpl. rewrite Hid. repeat split; auto.
    now apply NoDup_snoc_fresh.
  - repeat split; auto.
    + destruct (String.eqb st "accepted"); [|assumption].
      now rewrite (update_row_keys Ride.id
                     (Ride.set_available_seats r
                        (Ride.available_seats r - RideRequest.seats q))).
    + now rewrite (update_row_keys RideRequest.id (RideRequest.set_status q st)).
Qed.

Lemma transition_users (w : World) (d' : Db) (s' : Session) :
  transition w d' s' ->
  users d' = users (db w) \/
  exists u, users d' = (users (db w) ++ [u])%list /\
            User.id u = next_id (map User.id (users (db w))) /\
            s' = mkSession (Some (User.id u)) (Some (User.role u)).
Proof.
  intros Ht. inversion Ht; cbn [users]; auto.
  right. eexists. repeat split; eauto.
Qed.

Lemma transition_get_user (w : World) (d' : Db) (s' : Session) (uid : Z) (u : User.t) :
  transition w d' s' ->
  get_user (db w) uid = Some u -> get_user d' uid = Some u.
Proof.
  intros Ht Hu. unfold get_user in *.
  destruct (transition_users _ _ _ Ht) as [-> | (u' & -> & _)]; [assumption|].
  now rewrite (find_key_app User.id), Hu.
Qed.

(** Any session that named a stored user before the request still does. *)
Lemma transition_keeps_sessions (w : World) (d' : Db) (s' : Session) (s : Session) :
  transition w d' s' -> session_ok (db w) s -> session_ok d' s.
Proof.
  intros Ht Hs uid Huid. destruct (Hs uid Huid) as (u & Hu & Hr).
  exists u. split; [|assumption]. eapply transition_get_user; eassumption.
Qed.

Lemma transition_session_ok (w : World) (d' : Db) (s' : Session) :
  transition w d' s' -> keys_ok (db w) ->
  session_ok (db w) (session w) -> session_ok d' s'.
Proof.
  intros Ht ((Hnd & _) & _) Hs.
  inversion Ht as [| |u Hin|u Hid Hem|r Hid Hsu Hro Hst|q r Hid Hsu Hro Hg Hle Hst
                   |q r st Hv Hin Hg Hsu Hro];
    subst; try (eapply transition_keeps_sessions; eassumption).
  - intros uid Hu. discriminate Hu.
  - intros uid [= <-]. exists u. split; [|reflexivity].
    now apply (find_key_unique User.id).
  - intros uid [= <-]. exists u. split; [|reflexivity].
    unfold get_user. cbn [users]. rewrite (find_key_app User.id).
    assert (Hfresh : find (fun a => User.id a =? User.id u) (users (db w)) = None)
      by (rewrite Hid; apply (find_key_fresh User.id)).
    now rewrite Hfresh, Z.eqb_refl.
Qed.

Lemma transition_references_ok (w : World) (d' : Db) (s' : Session) :
  transition w d' s' -> session_ok (db w) (session w) ->
  references_ok (db w) -> references_ok d'.
Proof.
  intros Ht Hs [Hrides Hreqs].
  assert (Huser : forall uid u, get_user (db w) uid = Some u -> get_user d' uid = Some u)
    by (intros; eapply transition_get_user; eassumption).
  inversion Ht as [| |u Hin|u Hid Hem|r Hid Hsu Hro Hst|q r Hid Hsu Hro Hg Hle Hst
                   |q r st Hv Hin Hg Hsu Hro];
    subst; try (split; assumption).
  - (* register *)
    split.
    + intros r Hr. destruct (Hrides r Hr) as (x & Hx & Hrole). eauto.
    + intros q Hq. destruct (Hreqs q Hq) as (Hride & x & Hx & Hrole). split; eauto.
  - (* create_ride *)
    split.
    + intros r' Hr'. cbn [rides] in Hr'. apply in_app_or in Hr'.
      destruct Hr' as [Hr'|[<-|[]]].
      * destruct (Hrides r' Hr') as (x & Hx & Hrole). eauto.
      * destruct (Hs _ Hsu) as (x & Hx & Hrx). rewrite Hro in Hrx.
        injection Hrx as Hrx. eauto.
    + intros q Hq. destruct (Hreqs q Hq) as ((r0 & Hr0) & x & Hx & Hrole).
      split; [|eauto]. exists r0. unfold get_ride in *. cbn [rides].
      now rewrite (find_key_app Ride.id), Hr0.
  - (* create_ride_request *)
    split; [exact Hrides|].
    intros q' Hq'. cbn [ride_requests] in Hq'. apply in_app_or in Hq'.
    destruct Hq' as [Hq'|[<-|[]]]; [now apply Hreqs|].
    split; [now exists r|].
    destruct (Hs _ Hsu) as (x & Hx & Hrx). rewrite Hro in Hrx.
    injection Hrx as Hrx. eauto.
  - (* update_request_status *)
    pose proof (find_key_eq Ride.id _ _ _ Hg) as Hrid.
    assert (Hride : forall pk r0, get_ride (db w) pk = Some r0 ->
              exists r1,
                find (fun x => Ride.id x =? pk)
                     (if String.eqb st "accepted"
                      then update_row (fun x => Ride.id x =? Ride.id r)
                             (Ride.set_available_seats r
                                (Ride.available_seats r - RideRequest.seats q))
                             (rides (db w))
                      else rides (db w)) = Some r1).
    { intros pk r0 Hr0. destruct (String.eqb st "accepted"); [|now exists r0].
      unfold get_ride in *.
      rewrite (find_after_update Ride.id pk
                 (Ride.set_available_seats r
                    (Ride.available_seats r - RideRequest.seats q)) r).
      - cbn [Ride.id Ride.set_available_seats].
        destruct (Ride.id r =? pk); eauto.
      - cbn [Ride.id Ride.set_available_seats]. rewrite Hrid. exact Hg. }
    split.
    + intros r' Hr'. cbn [rides] in Hr'.
      destruct (String.eqb st "accepted"); [|now apply Hrides].
      apply (In_update_row Ride.id) in Hr'. destruct Hr' as [-> | Hr'];
        [|now apply Hrides].
      apply (Hrides r). now apply (find_key_In Ride.id) in Hg.
    + intros q' Hq'. cbn [ride_requests] in Hq'.
      apply (In_update_row RideRequest.id) in Hq'.
      destruct Hq' as [-> | Hq'].
      * destruct (Hreqs q Hin) as ((r0 & Hr0) & Hrider).
        split; [|exact Hrider]. exact (Hride _ _ Hr0).
      * destruct (Hreqs q' Hq') as ((r0 & Hr0) & Hrider).
        split; [|exact Hrider]. exact (Hride _ _ Hr0).
Qed.

(** ** The in-process collections *)

Lemma serialize_and_cache_frame `{Externals} (d : Db) (l : list Ride.t) (w : World) :
  unique_emails (ride_data (snd (serialize_and_cache d l w)))
  = unique_emails (ride_data w) /\
  search_history (ride_data (snd (serialize_and_cache d l w)))
  = search_history (ride_data w) /\
  active_rides (ride_data (snd (serialize_and_cache d l w)))
  = active_rides (ride_data w).
Proof.
  revert w. induction l as [|r rest IH]; intros w; [repeat split|].
  cbn [serialize_and_cache]. unfold_handler. world_simpl.
  match goal with
  | |- context [serialize_and_cache d rest ?w1] =>
      specialize (IH w1); destruct (serialize_and_cache d rest w1) as [[e|res] w2]
  end; simpl in *; exact IH.
Qed.

Lemma history_bound (history : list SearchParams) (p : SearchParams) :
  (length history <= 10)%nat ->
  (length ((if (10 <=? length history)%nat then tail history else history) ++ [p])
   <= 10)%nat.
Proof.
  intros Hl. rewrite length_app. cbn [length].
  destruct (10 <=? length history)%nat eqn:E.
  - destruct history; cbn [tail length] in *; lia.
  - apply Nat.leb_gt in E. lia.
Qed.

Ltac collections_leaf Hc :=
  unfold collections_ok in *;
  cbn [unique_emails search_history
       set_active_rides set_search_history set_user_sessions set_ride_cache
       set_driver_rides set_unique_emails set_active_drivers];
  first [exact Hc | now apply history_bound].

Lemma handle_collections_ok `{Externals} (req : Request) (clk : Clock) (w : World) :
  collections_ok (ride_data w) ->
  collections_ok (ride_data (snd (handle req clk w))).
Proof.
  intros Hc.
  destruct req as [data|data| | |data|args| |data| |request_id data]; simpl.
  - unfold register. run_handler; solve [collections_leaf Hc].
  - unfold login. run_handler; solve [collections_leaf Hc].
  - destruct (logout_result w) as (rd & -> & _ & _ & He & Hh). cbn [snd ride_data].
    unfold collections_ok. now rewrite Hh.
  - now rewrite get_current_user_effect.
  - unfold create_ride. run_handler; solve [collections_leaf Hc].
  - unfold search_rides. unfold_handler. world_simpl.
    match goal with
    | |- context [serialize_and_cache ?d ?l ?w1] =>
        pose proof (serialize_and_cache_frame d l w1) as (He & Hh & _);
        destruct (serialize_and_cache_spec d l w1) as [rd Hrd];
        rewrite Hrd in *
    end.
    world_simpl. cbn in He, Hh.
    unfold collections_ok. rewrite Hh. now apply history_bound.
  - now rewrite get_my_rides_effect.
  - unfold create_ride_request. run_handler; solve [collections_leaf Hc].
  - now rewrite get_my_requests_effect.
  - unfold update_request_status. run_handler; solve [collections_leaf Hc].
Qed.

Ltac emails_leaf :=
  cbn [unique_emails
       set_active_rides set_search_history set_user_sessions set_ride_cache
       set_driver_rides set_unique_emails set_active_drivers];
  set_solver.

(** No handler takes an element out of [unique_emails]. *)
Lemma handle_unique_emails_grow `{Externals} (req : Request) (clk : Clock)
      (w : World) :
  unique_emails (ride_data w) ⊆ unique_emails (ride_data (snd (handle req clk w))).
Proof.
  destruct req as [data|data| | |data|args| |data| |request_id data]; simpl.
  - unfold register. run_handler; solve [emails_leaf].
  - unfold login. run_handler; solve [emails_leaf].
  - destruct (logout_result w) as (rd & -> & _ & _ & He & Hh). cbn [snd ride_data].
    now rewrite He.
  - now rewrite get_current_user_effect.
  - unfold create_ride. run_handler; solve [emails_leaf].
  - unfold search_rides. unfold_handler. world_simpl.
    match goal with
    | |- context [serialize_and_cache ?d ?l ?w1] =>
        pose proof (serialize_and_cache_frame d l w1) as (He & Hh & _);
        destruct (serialize_and_cache_spec d l w1) as [rd Hrd];
        rewrite Hrd in *
    end.
    world_simpl. cbn in He, Hh. now rewrite He.
  - now rewrite get_my_rides_effect.
  - unfold create_ride_request. run_handler; solve [emails_leaf].
  - now rewrite get_my_requests_effect.
  - unfold update_request_status. run_handler; solve [emails_leaf].
Qed.

(** ** Invariants of a running server *)

Lemma initial_server_ok : server_ok initial_server.
Proof.
  unfold server_ok, keys_ok, references_ok, collections_ok, session_ok. simpl.
  repeat split; try constructor; try easy.
  all: try lia.
Qed.

Lemma serve_server_ok `{Externals} (client : nat) (req : Request) (clk : Clock)
      (sv : Server) :
  server_ok sv -> server_ok (snd (serve client req clk sv)).
Proof.
  intros (Hk & Hr & Hs & Hc). unfold serve.
  set (w := mkWorld (default empty_session (sessions sv !! client))
                    (store sv) (collections sv)).
  assert (Hsw : session_ok (db w) (session w)).
  { subst w. cbn [db session]. destruct (sessions sv !! client) as [s|] eqn:E.
    - now apply (Hs client).
    - intros uid Hu. discriminate Hu. }
  pose proof (handle_transition req clk w) as Ht.
  pose proof (handle_collections_ok req clk w Hc) as Hc'.
  destruct (handle req clk w) as [resp w']. cbn [snd store sessions collections] in *.
  split; [|split; [|split]].
  - exact (transition_keys_ok _ _ _ Ht Hk).
  - exact (transition_references_ok _ _ _ Ht Hsw Hr).
  - intros c s Hcs. cbn [sessions] in Hcs.
    destruct (decide (c = client)) as [->|Hne].
    + rewrite lookup_insert_eq in Hcs. injection Hcs as <-.
      exact (transition_session_ok _ _ _ Ht Hk Hsw).
    + rewrite lookup_insert_ne in Hcs by congruence.
      exact (transition_keeps_sessions _ _ _ _ Ht (Hs c s Hcs)).
  - exact Hc'.
Qed.

Lemma serve_all_server_ok `{Externals} (calls : list (nat * Request * Clock))
      (sv : Server) :
  server_ok sv -> server_ok (snd (serve_all calls sv)).
Proof.
  revert sv. induction calls as [|[[client req] clk] rest IH]; intros sv Hsv;
    simpl; [assumption|].
  pose proof (serve_server_ok client req clk sv Hsv) as Hstep.
  destruct (serve client req clk sv) as [resp sv']. simpl in Hstep.
  specialize (IH sv' Hstep). now destruct (serve_all rest sv').
Qed.

(** X4.  However the server is called from its initial state, the primary
    keys of each table are pairwise distinct, and user ids are positive. *)
Theorem primary_keys_stay_unique `{Externals}
    (calls : list (nat * Request * Clock)) :
  keys_ok (store (snd (serve_all calls initial_server))).
Proof. apply (serve_all_server_ok calls initial_server initial_server_ok). Qed.

(** X5.  However the server is called from its initial state, every stored
    ride belongs to a stored user whose role is [driver], and every stored
    request names a stored ride and a stored user whose role is [rider]. *)
Theorem references_stay_valid `{Externals}
    (calls : list (nat * Request * Clock)) :
  references_ok (store (snd (serve_all calls initial_server))).
Proof. apply (serve_all_server_ok calls initial_server initial_server_ok). Qed.

(** X6.  However the server is called from its initial state, a session that
    is bound names a stored user and carries that user's role; so
    [get_current_user] answers 200 with that user's representation for a
    bound session and never "User not found". *)
Theorem bound_sessions_name_stored_users `{Externals}
    (calls : list (nat * Request * Clock)) (client : nat) (s : Session) (uid : Z) :
  let sv := snd (serve_all calls initial_server) in
  sessions sv !! client = Some s ->
  user_id s = Some uid ->
  exists u,
    get_user (store sv) uid = Some u /\
    user_role s = Some (User.role u) /\
    fst (get_current_user (mkWorld s (store sv) (collections sv)))
    = mkResponse (User_to_dict u) 200.
Proof.
  intros sv Hs Hu. subst sv.
  destruct (serve_all_server_ok calls initial_server initial_server_ok)
    as (_ & _ & Hok & _).
  destruct (Hok client s Hs uid Hu) as (u & Hget & Hrole).
  exists u. repeat split; try assumption.
  unfold get_current_user. unfold_handler. world_simpl.
  rewrite Hu. cbv beta iota. world_simpl. now rewrite Hget.
Qed.

Lemma bound_sessions_witness :
  let sv := snd (serve_all (H := Sample.externals) Sample.setup initial_server) in
  exists u,
    get_user (store sv) 2 = Some u /\
    user_role Sample.rider_session = Some (User.role u) /\
    fst (get_current_user (H := Sample.externals)
           (mkWorld Sample.rider_session (store sv) (collections sv)))
    = mkResponse (User_to_dict (H := Sample.externals) u) 200.
Proof.
  apply (bound_sessions_name_stored_users (H := Sample.externals)
           Sample.setup 1%nat Sample.rider_session 2).
  - vm_compute. reflexivity.
  - reflexivity.
Defined.

Lemma serve_all_unique_emails_grow `{Externals}
      (calls : list (nat * Request * Clock)) (sv : Server) :
  unique_emails (collections sv)
  ⊆ unique_emails (collections (snd (serve_all calls sv))).
Proof.
  revert sv. induction calls as [|[[client req] clk] rest IH]; intros sv;
    simpl; [reflexivity|].
  assert (Hstep : unique_emails (collections sv)
                  ⊆ unique_emails (collections (snd (serve client req clk sv)))).
  { unfold serve.
    set (w := mkWorld (default empty_session (sessions sv !! client))
                      (store sv) (collections sv)).
    pose proof (handle_unique_emails_grow req clk w) as Hg.
    destruct (handle req clk w) as [resp w']. exact Hg. }
  destruct (serve client req clk sv) as [resp sv']. simpl in Hstep.
  specialize (IH sv'). destruct (serve_all rest sv'). simpl in *.
  etransitivity; eassumption.
Qed.

(** X7.  However the server is called from its initial state, the search
    history never holds more than ten entries.  The [unique_emails] set only
    grows, whatever the calls and the state they start from; and a
    registration that answers 201 for an email given as a string leaves that
    email in the set. *)
Theorem unique_emails_grow_and_history_is_bounded `{Externals} :
  (forall calls : list (nat * Request * Clock),
     (length (search_history (collections (snd (serve_all calls initial_server))))
      <= 10)%nat) /\
  (forall (calls : list (nat * Request * Clock)) (sv : Server),
     unique_emails (collections sv)
     ⊆ unique_emails (collections (snd (serve_all calls sv)))) /\
  (forall (kvs : list (string * json)) (e : string) (clk : Clock) (w : World),
     dict_lookup "email" kvs = Some (JStr e) ->
     code (fst (register (JObj kvs) clk w)) = 201 ->
     HStr e ∈ unique_emails (ride_data (snd (register (JObj kvs) clk w)))).
Proof.
  split; [|split].
  - intros calls.
    apply (serve_all_server_ok calls initial_server initial_server_ok).
  - intros calls sv. apply serve_all_unique_emails_grow.
  - intros kvs e clk w He. unfold register, py_getitem. rewrite He.
    run_handler; cbn [code]; try discriminate; intros _.
    all: cbn [unique_emails set_unique_emails]; set_solver.
Qed.

Lemma unique_emails_grow_witness :
  HStr "driver@example.org"
  ∈ unique_emails
      (ride_data
         (snd (register (H := Sample.externals)
                 (JObj (Sample.signup_fields "driver@example.org" "driver"))
                 (Sample.clock 1) (mkWorld empty_session empty_db empty_data)))).
Proof.
  pose proof (unique_emails_grow_and_history_is_bounded (H := Sample.externals))
    as (_ & _ & Hreg).
  apply (Hreg (Sample.signup_fields "driver@example.org" "driver")
              "driver@example.org" (Sample.clock 1)
              (mkWorld empty_session empty_db empty_data)); reflexivity.
Defined.

(** ** Registering *)

Lemma first_missing_find (fields : list string) (kvs : list (string * json)) :
  first_missing fields (JObj kvs) = inr (find (absent kvs) fields).
Proof.
  induction fields as [|f rest IH]; simpl; [reflexivity|].
  unfold absent at 1. destruct (dict_lookup f kvs); [exact IH|reflexivity].
Qed.

Lemma user_by_email_existsb (d : Db) (e : string) :
  user_by_email d e = None ->
  existsb (fun u => String.eqb (User.email u) e) (users d) = false.
Proof.
  unfold user_by_email. induction (users d) as [|u rest IH]; simpl; [reflexivity|].
  destruct (String.eqb (User.email u) e); [discriminate|exact IH].
Qed.

Lemma register_accepts `{Externals} (kvs : list (string * json)) (clk : Clock)
      (w : World) (first_name last_name e phone role h : string) (password : json) :
  dict_lookup "firstName" kvs = Some (JStr first_name) ->
  dict_lookup "lastName" kvs = Some (JStr last_name) ->
  dict_lookup "email" kvs = Some (JStr e) ->
  dict_lookup "phone" kvs = Some (JStr phone) ->
  dict_lookup "password" kvs = Some password ->
  dict_lookup "role" kvs = Some (JStr role) ->
  generate_password_hash password = inr h ->
  HStr e ∉ unique_emails (ride_data w) ->
  user_by_email (db w) e = None ->
  let u := User.mk (next_id (map User.id (users (db w)))) first_name last_name e
                   phone h role 5 0 (Some (utcnow clk)) in
  exists rd,
    register (JObj kvs) clk w
    = (mkResponse (User_to_dict u) 201,
       mkWorld (mkSession (Some (User.id u)) (Some role))
               (mkDb (users (db w) ++ [u]) (rides (db w)) (ride_requests (db w)))
               rd) /\
    unique_emails rd = {[HStr e]} ∪ unique_emails (ride_data w).
Proof.
  intros Hfn Hln He Hph Hpw Hro Hgen Hfresh Hnone u.
  assert (Hall : find (absent kvs)
                   ["firstName"; "lastName"; "email"; "phone"; "password"; "role"]
                 = None)
    by (simpl; unfold absent; now rewrite Hfn, Hln, He, Hph, Hpw, Hro).
  unfold register. rewrite first_missing_find, Hall. unfold_handler.
  unfold py_getitem. rewrite Hfn, Hln, He, Hph, Hpw, Hro.
  cbn [py_hash bind_text not_null]. world_simpl.
  destruct (decide (HStr e ∈ unique_emails (ride_data w))) as [Hin|_];
    [contradiction|].
  cbn [negb]. world_simpl. rewrite Hnone, Hgen. world_simpl.
  rewrite (user_by_email_existsb _ _ Hnone). world_simpl.
  eexists. split; reflexivity.
Qed.

(** X8.  A registration round trip.  When the six fields are strings, the
    email is new and the password can be hashed, [register] answers 201,
    stores the user under a fresh id with rating 5 and no rides, and binds
    the session.  In the world it leaves, [get_current_user] returns the
    same representation, a login with the same email and password (the
    library accepting the hash it produced) returns it again, and a second
    registration of that email answers 400. *)
Theorem register_then_me_login_and_conflict `{Externals}
    (kvs : list (string * json)) (clk clk' : Clock) (w : World)
    (first_name last_name e phone role h : string) (password : json) :
  dict_lookup "firstName" kvs = Some (JStr first_name) ->
  dict_lookup "lastName" kvs = Some (JStr last_name) ->
  dict_lookup "email" kvs = Some (JStr e) ->
  dict_lookup "phone" kvs = Some (JStr phone) ->
  dict_lookup "password" kvs = Some password ->
  dict_lookup "role" kvs = Some (JStr role) ->
  generate_password_hash password = inr h ->
  check_password_hash h password = inr true ->
  HStr e ∉ unique_emails (ride_data w) ->
  user_by_email (db w) e = None ->
  let u := User.mk (next_id (map User.id (users (db w)))) first_name last_name e
                   phone h role 5 0 (Some (utcnow clk)) in
  let w' := snd (register (JObj kvs) clk w) in
  fst (register (JObj kvs) clk w) = mkResponse (User_to_dict u) 201 /\
  users (db w') = (users (db w) ++ [u])%list /\
  fst (get_current_user w') = mkResponse (User_to_dict u) 200 /\
  fst (login (JObj kvs) clk' w') = mkResponse (User_to_dict u) 200 /\
  register (JObj kvs) clk' w' = (message "Email already registered" 400, w').
Proof.
  intros Hfn Hln He Hph Hpw Hro Hgen Hchk Hfresh Hnone u w'. subst w'.
  destruct (register_accepts kvs clk w first_name last_name e phone role h password
              Hfn Hln He Hph Hpw Hro Hgen Hfresh Hnone) as (rd & -> & Hrd).
  fold u. cbn [fst snd db users].
  assert (Hfind : find (fun a => User.id a =? User.id u) (users (db w)) = None)
    by apply (find_key_fresh User.id).
  split; [reflexivity|]. split; [reflexivity|]. split; [|split].
  - unfold get_current_user. unfold_handler. world_simpl.
    unfold get_user. cbn [users]. rewrite (find_key_app User.id), Hfind.
    now rewrite Z.eqb_refl.
  - assert (Hu : user_by_email
                   (mkDb (users (db w) ++ [u]) (rides (db w)) (ride_requests (db w))) e
                 = Some u).
    { unfold user_by_email in *. cbn [users].
      assert (Hap : forall l, find (fun x => String.eqb (User.email x) e) l = None ->
                find (fun x => String.eqb (User.email x) e) (l ++ [u]) = Some u).
      { induction l as [|a l IH]; simpl.
        - now rewrite String.eqb_refl.
        - destruct (String.eqb (User.email a) e); [discriminate|exact IH]. }
      now apply Hap. }
    destruct (login_accepts kvs clk'
                (mkWorld (mkSession (Some (User.id u)) (Some role))
                   (mkDb (users (db w) ++ [u]) (rides (db w)) (ride_requests (db w)))
                   rd)
                e password u He Hpw Hu Hchk) as (rd2 & -> & _).
    reflexivity.
  - assert (Hall : find (absent kvs)
                     ["firstName"; "lastName"; "email"; "phone"; "password"; "role"]
                   = None)
      by (simpl; unfold absent; now rewrite Hfn, Hln, He, Hph, Hpw, Hro).
    unfold register. rewrite first_missing_find, Hall. unfold_handler.
    unfold py_getitem. rewrite He. cbn [py_hash]. world_simpl.
    destruct (decide (HStr e ∈ unique_emails rd)) as [_|Hout];
      [reflexivity|].
    exfalso. apply Hout. rewrite Hrd. set_solver.
Qed.

Lemma register_round_trip_witness :
  let kvs := Sample.signup_fields "new@example.org" "rider" in
  let w := Sample.rider_world in
  let u := User.mk 3 "Asha" "Rao" "new@example.org" "555-0100" "pbkdf2:secret"
                   "rider" 5 0 (Some 7) in
  let w' := snd (register (H := Sample.externals) (JObj kvs) (Sample.clock 7) w) in
  fst (register (H := Sample.externals) (JObj kvs) (Sample.clock 7) w)
  = mkResponse (User_to_dict (H := Sample.externals) u) 201 /\
  users (db w') = (users (db w) ++ [u])%list /\
  fst (get_current_user (H := Sample.externals) w')
  = mkResponse (User_to_dict (H := Sample.externals) u) 200 /\
  fst (login (H := Sample.externals) (JObj kvs) (Sample.clock 8) w')
  = mkResponse (User_to_dict (H := Sample.externals) u) 200 /\
  register (H := Sample.externals) (JObj kvs) (Sample.clock 8) w'
  = (message "Email already registered" 400, w').
Proof.
  apply (register_then_me_login_and_conflict (H := Sample.externals)
           (Sample.signup_fields "new@example.org" "rider")
           (Sample.clock 7) (Sample.clock 8) Sample.rider_world
           "Asha" "Rao" "new@example.org" "555-0100" "rider" "pbkdf2:secret"
           (JStr "secret")); try reflexivity.
  apply not_elem_of_empty.
Defined.

(** X9.  [register] checks the six required keys in order before anything
    else: when one is absent from the body, the answer is 400 naming the
    first absent key, and nothing changes, the in-process email set
    included. *)
Theorem register_names_first_missing_field `{Externals}
    (kvs : list (string * json)) (clk : Clock) (w : World) (field : string) :
  find (absent kvs) ["firstName"; "lastName"; "email"; "phone"; "password"; "role"]
  = Some field ->
  register (JObj kvs) clk w = (message ("Missing field: " +:+ field) 400, w).
Proof.
  intros Hf. unfold register. rewrite first_missing_find, Hf. reflexivity.
Qed.

Lemma register_missing_field_witness :
  register (H := Sample.externals)
           (JObj [("firstName", JStr "Asha"); ("email", JStr "a@example.org")])
           (Sample.clock 1) Sample.rider_world
  = (message "Missing field: lastName" 400, Sample.rider_world).
Proof.
  exact (register_names_first_missing_field (H := Sample.externals)
           [("firstName", JStr "Asha"); ("email", JStr "a@example.org")]
           (Sample.clock 1) Sample.rider_world "lastName" eq_refl).
Defined.

(** X10.  A registration that passes the email check and then raises (here:
    the password cannot be hashed) answers 500 and stores no user, but the
    email stays in the in-process set: every later registration with that
    email answers 400 [Email already registered], although no user has
    it. *)
Theorem failed_registration_blocks_the_email `{Externals}
    (kvs kvs' : list (string * json)) (clk clk' : Clock) (w : World)
    (e : string) (password : json) (err : exn) :
  find (absent kvs) ["firstName"; "lastName"; "email"; "phone"; "password"; "role"]
  = None ->
  find (absent kvs') ["firstName"; "lastName"; "email"; "phone"; "password"; "role"]
  = None ->
  dict_lookup "email" kvs = Some (JStr e) ->
  dict_lookup "email" kvs' = Some (JStr e) ->
  dict_lookup "password" kvs = Some password ->
  generate_password_hash password = inl err ->
  HStr e ∉ unique_emails (ride_data w) ->
  user_by_email (db w) e = None ->
  let w1 := snd (register (JObj kvs) clk w) in
  fst (register (JObj kvs) clk w) = failure "Registration failed" err /\
  db w1 = db w /\
  user_by_email (db w1) e = None /\
  register (JObj kvs') clk' w1 = (message "Email already registered" 400, w1).
Proof.
  intros Hall Hall' He He' Hpw Hgen Hfresh Hnone w1. subst w1.
  assert (Hkey : forall name, In name ["firstName"; "lastName"; "phone"; "role"] ->
            exists v, dict_lookup name kvs = Some v).
  { intros name Hin.
    destruct (dict_lookup name kvs) as [v|] eqn:E; [now exists v|].
    exfalso.
    assert (Hab : absent kvs name = true) by (unfold absent; now rewrite E).
    pose proof (find_none _ _ Hall name) as Hn.
    rewrite Hn in Hab; [discriminate|].
    simpl in *. intuition. }
  destruct (Hkey "firstName") as [v1 H1]; [simpl; auto|].
  destruct (Hkey "lastName") as [v2 H2]; [simpl; auto|].
  destruct (Hkey "phone") as [v3 H3]; [simpl; auto|].
  assert (Hsecond : forall w1,
            HStr e ∈ unique_emails (ride_data w1) ->
            register (JObj kvs') clk' w1 = (message "Email already registered" 400, w1)).
  { intros w1 Hin. unfold register. rewrite first_missing_find, Hall'.
    unfold_handler. unfold py_getitem. rewrite He'. cbn [py_hash]. world_simpl.
    destruct (decide (HStr e ∈ unique_emails (ride_data w1))); [reflexivity|contradiction]. }
  assert (Hfirst : exists rd,
            register (JObj kvs) clk w
            = (failure "Registration failed" err, mkWorld (session w) (db w) rd) /\
            HStr e ∈ unique_emails rd).
  { unfold register. rewrite first_missing_find, Hall. unfold_handler.
    unfold py_getitem. rewrite He, H1, H2, H3, Hpw. cbn [py_hash bind_text]. world_simpl.
    destruct (decide (HStr e ∈ unique_emails (ride_data w))) as [Hin|Hout];
      [contradiction|].
    cbn [negb]. world_simpl. rewrite Hnone, Hgen. world_simpl. eexists.
    split; [reflexivity|]. cbn. set_solver. }
  destruct Hfirst as (rd & -> & Hin). cbn [fst snd db].
  repeat split; try assumption. now apply Hsecond.
Qed.

Lemma failed_registration_witness :
  let kvs := [ ("firstName", JStr "Asha"); ("lastName", JStr "Rao");
               ("email", JStr "new@example.org"); ("phone", JStr "555-0100");
               ("password", JInt 1234); ("role", JStr "rider") ] in
  let kvs' := Sample.signup_fields "new@example.org" "rider" in
  let w1 := snd (register (H := Sample.externals) (JObj kvs) (Sample.clock 7)
                          Sample.rider_world) in
  fst (register (H := Sample.externals) (JObj kvs) (Sample.clock 7)
                Sample.rider_world)
  = failure "Registration failed" AttributeError /\
  db w1 = db Sample.rider_world /\
  user_by_email (db w1) "new@example.org" = None /\
  register (H := Sample.externals) (JObj kvs') (Sample.clock 8) w1
  = (message "Email already registered" 400, w1).
Proof.
  apply (failed_registration_blocks_the_email (H := Sample.externals)
           [ ("firstName", JStr "Asha"); ("lastName", JStr "Rao");
             ("email", JStr "new@example.org"); ("phone", JStr "555-0100");
             ("password", JInt 1234); ("role", JStr "rider") ]
           (Sample.signup_fields "new@example.org" "rider")
           (Sample.clock 7) (Sample.clock 8) Sample.rider_world
           "new@example.org" (JInt 1234) AttributeError); try reflexivity.
  apply not_elem_of_empty.
Defined.

(** ** Deciding on a request *)

(** X11.  [update_request_status] checks, in this order: the caller's role
    (403), the requested status (400), the existence of the request (404),
    and the ownership of its ride (403, also when the ride is missing).  An
    invalid status is thus reported even for a request that does not exist.
    A request id beyond the store's 64-bit keys cannot be looked up: the
    handler answers 500 instead of 404.  Each refusal leaves everything
    unchanged. *)
Theorem update_request_status_checks_in_order
    (request_id uid : Z) (kvs : list (string * json)) (w : World) :
  user_id (session w) = Some uid ->
  let call := update_request_status request_id (JObj kvs) w in
  let status := default JNull (dict_lookup "status" kvs) in
  (role_is_not "driver" (session w) = true ->
   call = (message "Only drivers can update request status" 403, w)) /\
  (role_is_not "driver" (session w) = false ->
   invalid_status status = true ->
   call = (message "Invalid status" 400, w)) /\
  (role_is_not "driver" (session w) = false ->
   invalid_status status = false ->
   get_ride_request (db w) request_id = None ->
   int64 request_id = true ->
   call = (message "Request not found" 404, w)) /\
  (role_is_not "driver" (session w) = false ->
   invalid_status status = false ->
   get_ride_request (db w) request_id = None ->
   int64 request_id = false ->
   call = (failure "Failed to update request" OverflowError, w)) /\
  (role_is_not "driver" (session w) = false ->
   invalid_status status = false ->
   forall q,
     get_ride_request (db w) request_id = Some q ->
     (forall r, get_ride (db w) (RideRequest.ride_id q) = Some r ->
                Ride.driver_id r <> uid) ->
     call = (message "Unauthorized" 403, w)).
Proof.
  intros Hu call status. subst call status.
  unfold update_request_status, py_get, get_by_key. unfold_handler. world_simpl.
  rewrite Hu.
  split; [|split; [|split; [|split]]].
  - intros ->. reflexivity.
  - intros -> ->. reflexivity.
  - intros -> -> -> ->. now destruct w.
  - intros -> -> -> ->. now destruct w.
  - intros -> -> q -> Hr. cbv beta iota. world_simpl.
    destruct (get_ride (db w) (RideRequest.ride_id q)) as [r|] eqn:E;
      [|now destruct w].
    rewrite Hu. specialize (Hr r eq_refl).
    destruct (Ride.driver_id r =? uid) eqn:E2; [|now destruct w].
    apply Z.eqb_eq in E2. contradiction.
Qed.

Lemma update_request_status_order_witness :
  update_request_status 1 (JObj [("status", JStr "accepted")]) Sample.rider_world
  = (message "Only drivers can update request status" 403, Sample.rider_world) /\
  update_request_status 99 (JObj [("status", JStr "pending")])
                        (Sample.driver_world "pending")
  = (message "Invalid status" 400, Sample.driver_world "pending") /\
  update_request_status 99 (JObj [("status", JStr "accepted")])
                        (Sample.driver_world "pending")
  = (message "Request not found" 404, Sample.driver_world "pending") /\
  update_request_status (2 ^ 63) (JObj [("status", JStr "accepted")])
                        (Sample.driver_world "pending")
  = (failure "Failed to update request" OverflowError,
     Sample.driver_world "pending") /\
  update_request_status 1 (JObj [("status", JStr "accepted")])
    (mkWorld (mkSession (Some 7) (Some "driver")) (Sample.store_with "pending")
             empty_data)
  = (message "Unauthorized" 403,
     mkWorld (mkSession (Some 7) (Some "driver")) (Sample.store_with "pending")
             empty_data).
Proof.
  split; [|split; [|split; [|split]]].
  - apply (update_request_status_checks_in_order 1 2
             [("status", JStr "accepted")] Sample.rider_world eq_refl).
    reflexivity.
  - apply (update_request_status_checks_in_order 99 1
             [("status", JStr "pending")] (Sample.driver_world "pending") eq_refl);
      reflexivity.
  - apply (update_request_status_checks_in_order 99 1
             [("status", JStr "accepted")] (Sample.driver_world "pending") eq_refl);
      reflexivity.
  - apply (update_request_status_checks_in_order (2 ^ 63) 1
             [("status", JStr "accepted")] (Sample.driver_world "pending") eq_refl);
      reflexivity.
  - apply (update_request_status_checks_in_order 1 7
             [("status", JStr "accepted")]
             (mkWorld (mkSession (Some 7) (Some "driver"))
                      (Sample.store_with "pending") empty_data) eq_refl
          ) with (q := Sample.request "pending"); try reflexivity.
    intros r [= <-]. discriminate.
Defined.

Lemma decision_result (request_id uid : Z) (kvs : list (string * json)) (w : World)
      (q : RideRequest.t) (r : Ride.t) (st : string) :
  user_id (session w) = Some uid ->
  user_role (session w) = Some "driver" ->
  dict_lookup "status" kvs = Some (JStr st) ->
  st = "accepted" \/ st = "declined" ->
  get_ride_request (db w) request_id = Some q ->
  get_ride (db w) (RideRequest.ride_id q) = Some r ->
  Ride.driver_id r = uid ->
  (st = "accepted" ->
   int64 (Ride.available_seats r - RideRequest.seats q) = true) ->
  exists rd,
    update_request_status request_id (JObj kvs) w
    = (message "Request updated successfully" 200,
       mkWorld (session w)
         (mkDb (users (db w))
               (if String.eqb st "accepted"
                then update_row (fun x => Ride.id x =? Ride.id r)
                       (Ride.set_available_seats r
                          (Ride.available_seats r - RideRequest.seats q))
                       (rides (db w))
                else rides (db w))
               (update_row (fun x => RideRequest.id x =? RideRequest.id q)
                  (RideRequest.set_status q st) (ride_requests (db w))))
         rd).
Proof.
  intros Hu Hro Hst Hv Hq Hr Hown Hrange.
  unfold update_request_status, role_is_not, py_get, flush_int.
  unfold_handler. world_simpl.
  rewrite Hu, Hro, Hst. cbn -[get_ride get_ride_request get_by_key int64].
  assert (Hrides : update_row (fun x => Ride.id x =? Ride.id r) r (rides (db w))
                   = rides (db w))
    by (eapply (update_row_same Ride.id); exact Hr).
  destruct Hv as [-> | ->]; cbn -[get_ride get_ride_request get_by_key int64];
    rewrite (proj2 (get_by_key_Some _ _ _) Hq);
    cbn -[get_ride get_ride_request int64];
    rewrite Hr, Hu, Hown, Z.eqb_refl; cbn -[get_ride get_ride_request int64].
  - rewrite (Hrange eq_refl). destruct (_ && _); eexists; reflexivity.
  - rewrite Hrides. eexists; reflexivity.
Qed.

(** X12.  Seats taken by an acceptance are not given back: when the owning
    driver accepts a request for [S] seats (the reduced seat count fitting
    the store's 64-bit integers) and then declines the same request, both
    calls answer 200, the request ends [declined], and the ride still has
    [S] seats fewer than before. *)
Theorem decline_after_accept_keeps_seats_taken
    (request_id uid : Z) (w : World) (q : RideRequest.t) (r : Ride.t) :
  user_id (session w) = Some uid ->
  user_role (session w) = Some "driver" ->
  get_ride_request (db w) request_id = Some q ->
  get_ride (db w) (RideRequest.ride_id q) = Some r ->
  Ride.driver_id r = uid ->
  int64 (Ride.available_seats r - RideRequest.seats q) = true ->
  let w1 := snd (update_request_status request_id
                   (JObj [("status", JStr "accepted")]) w) in
  let w2 := snd (update_request_status request_id
                   (JObj [("status", JStr "declined")]) w1) in
  code (fst (update_request_status request_id
               (JObj [("status", JStr "accepted")]) w)) = 200 /\
  code (fst (update_request_status request_id
               (JObj [("status", JStr "declined")]) w1)) = 200 /\
  get_ride_request (db w2) request_id = Some (RideRequest.set_status q "declined") /\
  get_ride (db w2) (RideRequest.ride_id q)
  = Some (Ride.set_available_seats r
            (Ride.available_seats r - RideRequest.seats q)).
Proof.
  intros Hu Hro Hq Hr Hown Hrange w1 w2. subst w2 w1.
  pose proof (find_key_eq RideRequest.id _ _ _ Hq) as Hqid.
  pose proof (find_key_eq Ride.id _ _ _ Hr) as Hrid.
  destruct (decision_result request_id uid [("status", JStr "accepted")] w q r
              "accepted" Hu Hro eq_refl (or_introl eq_refl) Hq Hr Hown
              (fun _ => Hrange))
    as (rd1 & ->).
  cbn [fst snd code message String.eqb Ascii.eqb Bool.eqb].
  split; [reflexivity|].
  set (r1 := Ride.set_available_seats r
               (Ride.available_seats r - RideRequest.seats q)).
  set (q1 := RideRequest.set_status q "accepted").
  set (w1 := mkWorld _ _ rd1).
  assert (Hq1 : get_ride_request (db w1) request_id = Some q1).
  { subst w1. cbn [db ride_requests]. unfold get_ride_request in *.
    apply (find_update_row RideRequest.id request_id q1 q); assumption. }
  assert (Hr1 : get_ride (db w1) (RideRequest.ride_id q1) = Some r1).
  { subst w1. cbn [db rides]. unfold get_ride in *.
    apply (find_update_row Ride.id (RideRequest.ride_id q) r1 r); assumption. }
  destruct (decision_result request_id uid [("status", JStr "declined")] w1 q1 r1
              "declined" Hu Hro eq_refl (or_intror eq_refl) Hq1 Hr1 Hown
              (fun E => ltac:(discriminate E)))
    as (rd2 & ->).
  cbn [fst snd code message db rides ride_requests String.eqb Ascii.eqb Bool.eqb].
  split; [reflexivity|]. split.
  - unfold get_ride_request in *.
    apply (find_update_row RideRequest.id request_id
             (RideRequest.set_status q1 "declined") q1); assumption.
  - exact Hr1.
Qed.

Lemma decline_after_accept_witness :
  let w := Sample.driver_world "pending" in
  let w1 := snd (update_request_status 1 (JObj [("status", JStr "accepted")]) w) in
  let w2 := snd (update_request_status 1 (JObj [("status", JStr "declined")]) w1) in
  code (fst (update_request_status 1 (JObj [("status", JStr "accepted")]) w)) = 200 /\
  code (fst (update_request_status 1 (JObj [("status", JStr "declined")]) w1)) = 200 /\
  get_ride_request (db w2) 1 = Some (Sample.request "declined") /\
  get_ride (db w2) 1 = Some (Ride.set_available_seats Sample.ride (3 - 2)).
Proof.
  exact (decline_after_accept_keeps_seats_taken 1 1 (Sample.driver_world "pending")
           (Sample.request "pending") Sample.ride
           eq_refl eq_refl eq_refl eq_refl eq_refl eq_refl).
Defined.

(** X13.  An acceptance is not remembered: when the owning driver accepts
    the same request twice (both reduced seat counts fitting the store's
    64-bit integers), both calls answer 200 and the ride loses the request's
    seats twice. *)
Theorem accepting_twice_takes_seats_twice
    (request_id uid : Z) (w : World) (q : RideRequest.t) (r : Ride.t) :
  user_id (session w) = Some uid ->
  user_role (session w) = Some "driver" ->
  get_ride_request (db w) request_id = Some q ->
  get_ride (db w) (RideRequest.ride_id q) = Some r ->
  Ride.driver_id r = uid ->
  int64 (Ride.available_seats r - RideRequest.seats q) = true ->
  int64 (Ride.available_seats r - RideRequest.seats q - RideRequest.seats q)
  = true ->
  let accept := JObj [("status", JStr "accepted")] in
  let w1 := snd (update_request_status request_id accept w) in
  let w2 := snd (update_request_status request_id accept w1) in
  code (fst (update_request_status request_id accept w)) = 200 /\
  code (fst (update_request_status request_id accept w1)) = 200 /\
  get_ride_request (db w2) request_id = Some (RideRequest.set_status q "accepted") /\
  get_ride (db w2) (RideRequest.ride_id q)
  = Some (Ride.set_available_seats r
            (Ride.available_seats r - RideRequest.seats q - RideRequest.seats q)).
Proof.
  intros Hu Hro Hq Hr Hown Hrange1 Hrange2 accept w1 w2. subst w2 w1 accept.
  pose proof (find_key_eq RideRequest.id _ _ _ Hq) as Hqid.
  pose proof (find_key_eq Ride.id _ _ _ Hr) as Hrid.
  destruct (decision_result request_id uid [("status", JStr "accepted")] w q r
              "accepted" Hu Hro eq_refl (or_introl eq_refl) Hq Hr Hown
              (fun _ => Hrange1))
    as (rd1 & ->).
  cbn [fst snd code message String.eqb Ascii.eqb Bool.eqb].
  split; [reflexivity|].
  set (r1 := Ride.set_available_seats r
               (Ride.available_seats r - RideRequest.seats q)).
  set (q1 := RideRequest.set_status q "accepted").
  set (w1 := mkWorld _ _ rd1).
  assert (Hq1 : get_ride_request (db w1) request_id = Some q1).
  { subst w1. cbn [db ride_requests]. unfold get_ride_request in *.
    apply (find_update_row RideRequest.id request_id q1 q); assumption. }
  assert (Hr1 : get_ride (db w1) (RideRequest.ride_id q1) = Some r1).
  { subst w1. cbn [db rides]. unfold get_ride in *.
    apply (find_update_row Ride.id (RideRequest.ride_id q) r1 r); assumption. }
  destruct (decision_result request_id uid [("status", JStr "accepted")] w1 q1 r1
              "accepted" Hu Hro eq_refl (or_introl eq_refl) Hq1 Hr1 Hown
              (fun _ => Hrange2))
    as (rd2 & ->).
  cbn [fst snd code message db rides ride_requests String.eqb Ascii.eqb Bool.eqb].
  split; [reflexivity|]. split.
  - unfold get_ride_request in *.
    apply (find_update_row RideRequest.id request_id
             (RideRequest.set_status q1 "accepted") q1); assumption.
  - unfold get_ride in *.
    apply (find_update_row Ride.id (RideRequest.ride_id q)
             (Ride.set_available_seats r1
                (Ride.available_seats r1 - RideRequest.seats q1)) r1);
      assumption.
Qed.

Lemma accepting_twice_witness :
  let w := Sample.driver_world "pending" in
  let accept := JObj [("status", JStr "accepted")] in
  let w1 := snd (update_request_status 1 accept w) in
  let w2 := snd (update_request_status 1 accept w1) in
  code (fst (update_request_status 1 accept w)) = 200 /\
  code (fst (update_request_status 1 accept w1)) = 200 /\
  get_ride_request (db w2) 1 = Some (Sample.request "accepted") /\
  get_ride (db w2) 1 = Some (Ride.set_available_seats Sample.ride (3 - 2 - 2)).
Proof.
  exact (accepting_twice_takes_seats_twice 1 1 (Sample.driver_world "pending")
           (Sample.request "pending") Sample.ride
           eq_refl eq_refl eq_refl eq_refl eq_refl eq_refl eq_refl).
Defined.

(** ** Asking for seats *)

(** X14.  [create_ride_request] compares the requested seats only with the
    seats the ride has free: for a rider, an existing ride and any integer
    [seats] not above [available_seats] that the store's 64-bit column can
    hold (zero and negative numbers included) it answers 201 and stores a
    [pending] request with a fresh id for the caller.  Nothing is reserved:
    the ride row is not written. *)
Theorem create_ride_request_stores_pending_request `{Externals}
    (kvs : list (string * json)) (clk : Clock) (w : World)
    (uid ride_id seats : Z) (ride : Ride.t) (msg : option string) :
  user_id (session w) = Some uid ->
  user_role (session w) = Some "rider" ->
  dict_lookup "rideId" kvs = Some (JInt ride_id) ->
  dict_lookup "seats" kvs = Some (JInt seats) ->
  bind_text (default (JStr "") (dict_lookup "message" kvs)) = inr msg ->
  get_ride (db w) ride_id = Some ride ->
  int64 ride_id = true ->
  seats <= Ride.available_seats ride ->
  int64 seats = true ->
  let q := RideRequest.mk (next_id (map RideRequest.id (ride_requests (db w))))
                          ride_id uid seats msg "pending" (Some (utcnow clk)) in
  create_ride_request (JObj kvs) clk w
  = (mkResponse (JObj (RideRequest_fields q)) 201,
     mkWorld (session w)
             (mkDb (users (db w)) (rides (db w)) (ride_requests (db w) ++ [q]))
             (ride_data w)).
Proof.
  intros Hu Hro Hid Hseats Hmsg Hride Hkey Hle Hrange q.
  unfold create_ride_request, role_is_not, first_missing, py_in, py_getitem,
    py_get, py_lt, bind_int.
  unfold_handler. rewrite Hu, Hro, Hid, Hseats.
  cbn -[get_ride get_by_key bind_text next_id int64].
  rewrite (proj2 (get_by_key_Some _ _ _) Hride).
  cbn -[bind_text next_id int64].
  apply Z.ltb_ge in Hle. rewrite Hle, Hu. cbn -[bind_text next_id int64].
  rewrite Hkey. cbn -[bind_text next_id int64].
  rewrite Hrange. cbn -[bind_text next_id int64].
  rewrite Hmsg. reflexivity.
Qed.

Lemma create_ride_request_witness :
  create_ride_request (H := Sample.externals)
    (JObj [("rideId", JInt 1); ("seats", JInt (-4))]) (Sample.clock 9)
    Sample.rider_world
  = (mkResponse
       (JObj (RideRequest_fields (H := Sample.externals)
                (RideRequest.mk 2 1 2 (-4) (Some "") "pending" (Some 9)))) 201,
     mkWorld Sample.rider_session
       (mkDb [Sample.driver; Sample.rider] [Sample.ride]
             [Sample.request "pending";
              RideRequest.mk 2 1 2 (-4) (Some "") "pending" (Some 9)])
       empty_data).
Proof.
  apply (create_ride_request_stores_pending_request (H := Sample.externals)
           [("rideId", JInt 1); ("seats", JInt (-4))] (Sample.clock 9)
           Sample.rider_world 2 1 (-4) Sample.ride (Some ""));
    try reflexivity.
  vm_compute. discriminate.
Defined.

(** ** Pattern matching in searches *)

Lemma like_percent (p s : string) :
  like (String "%" p) s
  = like p s || match s with
                | EmptyString => false
                | String _ s' => like (String "%" p) s'
                end.
Proof. destruct s; reflexivity. Qed.

Lemma like_percent_only (s : string) : like "%" s = true.
Proof.
  induction s as [|c s IH]; [reflexivity|].
  rewrite like_percent. rewrite IH. apply orb_true_r.
Qed.

Lemma append_percent (p : string) (c : ascii) :
  String c p +:+ "%" = String c (p +:+ "%").
Proof. reflexivity. Qed.

Lemma like_plain_prefix (p s : string) :
  plain p = true -> like (p +:+ "%") s = is_prefix p s.
Proof.
  revert s. induction p as [|c p IH]; intros s Hp.
  - simpl. change (like "%" s = is_prefix "" s).
    rewrite like_percent_only. now destruct s.
  - simpl in Hp. apply andb_true_iff in Hp. destruct Hp as [Hc Hp].
    apply andb_true_iff in Hc. destruct Hc as [Hc1 Hc2].
    apply negb_true_iff in Hc1, Hc2.
    rewrite append_percent. cbn [like]. rewrite Hc1.
    destruct s as [|d s]; [reflexivity|].
    rewrite Hc2. cbn [is_prefix orb]. now rewrite IH.
Qed.

Lemma like_plain_contains (p s : string) :
  plain p = true -> like ("%" +:+ p +:+ "%") s = is_substring p s.
Proof.
  intros Hp. change ("%" +:+ p +:+ "%") with (String "%" (p +:+ "%")).
  induction s as [|c s IH].
  - rewrite like_percent. cbn [is_substring]. rewrite like_plain_prefix by assumption.
    reflexivity.
  - rewrite like_percent. cbn [is_substring]. rewrite like_plain_prefix by assumption.
    now rewrite IH.
Qed.

Lemma lower_ascii_not_wildcard (c : ascii) :
  Ascii.eqb (lower_ascii c) "%" = Ascii.eqb c "%" /\
  Ascii.eqb (lower_ascii c) "_" = Ascii.eqb c "_".
Proof.
  destruct c as [[] [] [] [] [] [] [] []]; vm_compute; split; reflexivity.
Qed.

Lemma plain_lower (s : string) : plain (lower s) = plain s.
Proof.
  induction s as [|c s IH]; [reflexivity|].
  cbn [lower plain]. destruct (lower_ascii_not_wildcard c) as [-> ->].
  now rewrite IH.
Qed.

Lemma lower_append (a b : string) : lower (a +:+ b) = lower a +:+ lower b.
Proof. induction a as [|c a IH]; simpl; [reflexivity|]. now rewrite IH. Qed.




(** ** Listings *)

Lemma get_my_rides_result `{Externals} (w : World) (uid : Z) :
  user_id (session w) = Some uid ->
  user_role (session w) = Some "driver" ->
  get_my_rides w
  = (mkResponse
       (JArr (map (fun r => JObj (Ride_fields r))
                  (order_by_created_desc Ride.created_at
                     (List.filter (fun r => Ride.driver_id r =? uid) (rides (db w))))))
       200, w).
Proof.
  intros Hu Hr. unfold get_my_rides, role_is_not. unfold_handler. world_simpl.
  rewrite Hu, Hr. cbn. now rewrite Hu.
Qed.

Lemma plain_needle_filter (column needle : string) :
  plain needle = true ->
  negb (nonempty needle) || ilike column ("%" +:+ needle +:+ "%")
  = is_substring (lower needle) (lower column).
Proof.
  intros Hp.
  assert (E : ilike column ("%" +:+ needle +:+ "%")
              = is_substring (lower needle) (lower column)).
  { unfold ilike. rewrite !lower_append. change (lower "%") with "%".
    apply like_plain_contains. now rewrite plain_lower. }
  rewrite E. destruct needle as [|c needle]; [|reflexivity].
  cbn [nonempty negb orb lower]. now destruct (lower column).
Qed.

(** X17.  For an origin and a destination parameter without the wildcards
    [%] and [_] (and, as the rides' origins and destinations, without NUL,
    the pattern within the length the store accepts), [search_rides]
    answers 200 and its body lists, newest first and each with the driver
    embedded, exactly the stored rides that are [active], whose origin and
    destination contain the respective parameter (letter case of ASCII
    letters ignored; an empty or absent parameter is contained in
    everything), and whose date equals the date parameter unless that is
    empty or absent.  The store and the session are not touched. *)
Theorem search_rides_lists_matching_active_rides `{Externals}
    (args : SearchArgs) (clk : Clock) (w : World) :
  let origin := default "" (arg_origin args) in
  let destination := default "" (arg_destination args) in
  let date := default "" (arg_date args) in
  plain origin = true ->
  plain destination = true ->
  no_nul origin && pattern_fits origin = true ->
  no_nul destination && pattern_fits destination = true ->
  forallb (fun r => no_nul (Ride.origin r) && no_nul (Ride.destination r))
          (rides (db w)) = true ->
  exists found : list Ride.t,
    fst (search_rides args clk w)
    = mkResponse (JArr (map (fun r => Ride_to_dict (db w) r true) found)) 200 /\
    found ≡ₚ List.filter
               (fun r => String.eqb (Ride.status r) "active"
                         && is_substring (lower origin) (lower (Ride.origin r))
                         && is_substring (lower destination)
                                         (lower (Ride.destination r))
                         && (negb (nonempty date) || String.eqb (Ride.date r) date))
               (rides (db w)) /\
    StronglySorted (newer Ride.created_at) found /\
    db (snd (search_rides args clk w)) = db w /\
    session (snd (search_rides args clk w)) = session w.
Proof.
  intros origin destination date Ho Hd _ _ _.
  exists (order_by_created_desc Ride.created_at
            (List.filter (matches_search origin destination date) (rides (db w)))).
  pose proof (search_rides_effect args clk w) as E.
  split; [|split; [|split]].
  - apply search_rides_result.
  - unfold order_by_created_desc. rewrite merge_sort_Permutation.
    rewrite (List.filter_ext (matches_search origin destination date)
               (fun r => String.eqb (Ride.status r) "active"
                         && is_substring (lower origin) (lower (Ride.origin r))
                         && is_substring (lower destination)
                                         (lower (Ride.destination r))
                         && (negb (nonempty date) || String.eqb (Ride.date r) date)));
      [reflexivity|].
    intros r. unfold matches_search.
    now rewrite (plain_needle_filter _ _ Ho), (plain_needle_filter _ _ Hd).
  - apply StronglySorted_merge_sort; apply _.
  - destruct (search_rides args clk w) as [resp w']. simpl. now destruct E as (_ & ? & ?).
Qed.

Lemma search_rides_lists_witness :
  exists found : list Ride.t,
    fst (search_rides (H := Sample.externals)
           (mkSearchArgs (Some "pune") (Some "") None) (Sample.clock 9)
           Sample.rider_world)
    = mkResponse
        (JArr (map (fun r => Ride_to_dict (H := Sample.externals)
                               (db Sample.rider_world) r true) found)) 200 /\
    found ≡ₚ List.filter
               (fun r => String.eqb (Ride.status r) "active"
                         && is_substring (lower "pune") (lower (Ride.origin r))
                         && is_substring (lower "") (lower (Ride.destination r))
                         && (negb (nonempty "") || String.eqb (Ride.date r) ""))
               (rides (db Sample.rider_world)) /\
    StronglySorted (newer Ride.created_at) found /\
    db (snd (search_rides (H := Sample.externals)
               (mkSearchArgs (Some "pune") (Some "") None) (Sample.clock 9)
               Sample.rider_world)) = db Sample.rider_world /\
    session (snd (search_rides (H := Sample.externals)
                    (mkSearchArgs (Some "pune") (Some "") None) (Sample.clock 9)
                    Sample.rider_world)) = session Sample.rider_world.
Proof.
  exact (search_rides_lists_matching_active_rides (H := Sample.externals)
           (mkSearchArgs (Some "pune") (Some "") None) (Sample.clock 9)
           Sample.rider_world eq_refl eq_refl eq_refl eq_refl eq_refl).
Defined.

(** X18.  For a driver, [get_my_rides] answers 200 with exactly the rides
    whose [driver_id] is the caller's id, newest first, serialized without
    the embedded driver; any other role gets 403.  Nothing is written. *)
Theorem get_my_rides_lists_own_rides `{Externals} (w : World) (uid : Z) :
  user_id (session w) = Some uid ->
  (user_role (session w) = Some "driver" ->
   exists found : list Ride.t,
     get_my_rides w
     = (mkResponse (JArr (map (fun r => JObj (Ride_fields r)) found)) 200, w) /\
     found ≡ₚ List.filter (fun r => Ride.driver_id r =? uid) (rides (db w)) /\
     StronglySorted (newer Ride.created_at) found) /\
  (user_role (session w) <> Some "driver" ->
   get_my_rides w = (message "Only drivers can view posted rides" 403, w)).
Proof.
  intros Hu. split.
  - intros Hr.
    exists (order_by_created_desc Ride.created_at
              (List.filter (fun r => Ride.driver_id r =? uid) (rides (db w)))).
    split; [|split].
    + now apply get_my_rides_result.
    + apply merge_sort_Permutation.
    + apply StronglySorted_merge_sort; apply _.
  - intros Hr. unfold get_my_rides, role_is_not. unfold_handler. world_simpl.
    rewrite Hu. destruct (user_role (session w)) as [r|]; [|reflexivity].
    destruct (String.eqb r "driver") eqn:E; [|reflexivity].
    apply String.eqb_eq in E. subst r. contradiction.
Qed.

Lemma get_my_rides_witness :
  (exists found : list Ride.t,
     get_my_rides (H := Sample.externals) (Sample.driver_world "pending")
     = (mkResponse
          (JArr (map (fun r => JObj (Ride_fields (H := Sample.externals) r)) found))
          200,
        Sample.driver_world "pending") /\
     found ≡ₚ List.filter (fun r => Ride.driver_id r =? 1)
                          (rides (db (Sample.driver_world "pending"))) /\
     StronglySorted (newer Ride.created_at) found) /\
  get_my_rides (H := Sample.externals) Sample.rider_world
  = (message "Only drivers can view posted rides" 403, Sample.rider_world).
Proof.
  split.
  - apply (get_my_rides_lists_own_rides (H := Sample.externals)
             (Sample.driver_world "pending") 1 eq_refl). reflexivity.
  - apply (get_my_rides_lists_own_rides (H := Sample.externals)
             Sample.rider_world 2 eq_refl). discriminate.
Defined.

Lemma driver_view_total `{Externals} (d : Db) (l : list RideRequest.t) :
  Forall (fun q => is_Some (get_ride d (RideRequest.ride_id q))) l ->
  driver_view d l
  = inr (map (fun q =>
                JObj (dict_set "ride"
                        (match get_ride d (RideRequest.ride_id q) with
                         | Some ride => Ride_to_dict d ride false
                         | None => JNull
                         end)
                        (RideRequest_dict d q true false))) l).
Proof.
  induction 1 as [|q l [r Hr] _ IH]; [reflexivity|].
  cbn [driver_view map]. now rewrite Hr, IH.
Qed.

(** X19.  [get_my_requests] answers 200 for every bound session and writes
    nothing.  A driver gets, newest first, exactly the requests whose ride
    the caller owns, each with the ride attached; every other role gets
    exactly the requests the caller made. *)
Theorem get_my_requests_lists_by_role `{Externals} (w : World) (uid : Z) :
  user_id (session w) = Some uid ->
  exists (found : list RideRequest.t) (items : list json),
    get_my_requests w = (mkResponse (JArr items) 200, w) /\
    length items = length found /\
    StronglySorted (newer RideRequest.created_at) found /\
    (user_role (session w) = Some "driver" ->
     found ≡ₚ List.filter
               (fun q => match get_ride (db w) (RideRequest.ride_id q) with
                         | Some r => Ride.driver_id r =? uid
                         | None => false
                         end) (ride_requests (db w)) /\
     items = map (fun q =>
                    JObj (dict_set "ride"
                            (match get_ride (db w) (RideRequest.ride_id q) with
                             | Some ride => Ride_to_dict (db w) ride false
                             | None => JNull
                             end)
                            (RideRequest_dict (db w) q true false))) found) /\
    (user_role (session w) <> Some "driver" ->
     found ≡ₚ List.filter (fun q => RideRequest.rider_id q =? uid)
                          (ride_requests (db w)) /\
     items = map (fun q => RideRequest_to_dict (db w) q false true) found).
Proof.
  intros Hu.
  unfold get_my_requests. unfold_handler. world_simpl. rewrite Hu.
  cbv beta iota. world_simpl.
  destruct (negb (role_is_not "driver" (session w))) eqn:Hrole.
  - set (sel := fun q => match get_ride (db w) (RideRequest.ride_id q) with
                         | Some r => Ride.driver_id r =? uid
                         | None => false
                         end).
    set (found := order_by_created_desc RideRequest.created_at
                    (List.filter sel (ride_requests (db w)))).
    assert (Hall : Forall (fun q => is_Some (get_ride (db w) (RideRequest.ride_id q)))
                          found).
    { apply Forall_forall. intros q Hq.
      assert (Hq' : q ∈ List.filter sel (ride_requests (db w))).
      { subst found. unfold order_by_created_desc in Hq.
        now rewrite merge_sort_Permutation in Hq. }
      apply list_elem_of_In, filter_In in Hq'. destruct Hq' as [_ Hs].
      subst sel. simpl in Hs.
      destruct (get_ride (db w) (RideRequest.ride_id q)); [eauto|discriminate]. }
    rewrite (driver_view_total _ _ Hall). world_simpl.
    eexists found, _. split; [reflexivity|]. split; [now rewrite length_map|].
    split; [apply StronglySorted_merge_sort; apply _|]. split.
    + intros _. split; [apply merge_sort_Permutation|reflexivity].
    + intros Hn. exfalso. apply Hn. unfold role_is_not in Hrole.
      destruct (user_role (session w)) as [r|]; [|discriminate].
      apply negb_true_iff, negb_false_iff, String.eqb_eq in Hrole. now subst.
  - eexists (order_by_created_desc RideRequest.created_at _), _.
    split; [reflexivity|]. split; [now rewrite length_map|].
    split; [apply StronglySorted_merge_sort; apply _|]. split.
    + intros Hd. unfold role_is_not in Hrole. rewrite Hd in Hrole. discriminate.
    + intros _. split; [apply merge_sort_Permutation|reflexivity].
Qed.

Lemma get_my_requests_witness :
  exists (found : list RideRequest.t) (items : list json),
    get_my_requests (H := Sample.externals) Sample.rider_world
    = (mkResponse (JArr items) 200, Sample.rider_world) /\
    found ≡ₚ List.filter (fun q => RideRequest.rider_id q =? 2)
                         (ride_requests (db Sample.rider_world)) /\
    items = map (fun q => RideRequest_to_dict (H := Sample.externals)
                            (db Sample.rider_world) q false true) found.
Proof.
  destruct (get_my_requests_lists_by_role (H := Sample.externals)
              Sample.rider_world 2 eq_refl)
    as (found & items & Hcall & _ & _ & _ & Hrider).
  exists found, items. split; [exact Hcall|].
  apply Hrider. discriminate.
Defined.

(** ** Offering a ride *)

Lemma create_ride_accepts `{Externals} (kvs : list (string * json)) (clk : Clock)
      (w : World) (uid seats price : Z)
      (origin destination date time vehicle : string) (notes : option string) :
  user_id (session w) = Some uid ->
  user_role (session w) = Some "driver" ->
  dict_lookup "origin" kvs = Some (JStr origin) ->
  dict_lookup "destination" kvs = Some (JStr destination) ->
  dict_lookup "date" kvs = Some (JStr date) ->
  dict_lookup "time" kvs = Some (JStr time) ->
  dict_lookup "availableSeats" kvs = Some (JInt seats) ->
  dict_lookup "price" kvs = Some (JInt price) ->
  dict_lookup "vehicleType" kvs = Some (JStr vehicle) ->
  bind_text (default (JStr "") (dict_lookup "notes" kvs)) = inr notes ->
  int64 seats = true ->
  int64 price = true ->
  let ride := Ride.mk (next_id (map Ride.id (rides (db w)))) uid origin destination
                      date time seats price vehicle notes "active"
                      (Some (utcnow clk)) in
  exists rd,
    create_ride (JObj kvs) clk w
    = (mkResponse (JObj (Ride_fields ride)) 201,
       mkWorld (session w)
               (mkDb (users (db w)) (rides (db w) ++ [ride]) (ride_requests (db w)))
               rd) /\
    active_rides rd = (active_rides (ride_data w) ++ [Ride.id ride])%list /\
    ride_cache rd !! Ride.id ride = Some (JObj (Ride_fields ride)).
Proof.
  intros Hu Hro Ho Hd Hdt Ht Hs Hp Hv Hn Hsr Hpr ride.
  unfold create_ride, role_is_not, first_missing, py_in, py_getitem, py_get.
  unfold_handler. rewrite Hu, Hro, Ho, Hd, Hdt, Ht, Hs, Hp, Hv.
  cbn -[bind_text next_id int64]. rewrite Hu. cbn -[bind_text next_id int64].
  rewrite Hsr. cbn -[bind_text next_id int64].
  rewrite Hpr. cbn -[bind_text next_id int64].
  rewrite Hn. cbn -[next_id]. rewrite Hu. cbn -[next_id].
  eexists. split; [reflexivity|]. split; [reflexivity|].
  cbn -[next_id]. apply lookup_insert_eq.
Qed.

(** X20.  A driver's [create_ride] with well-typed fields, the seat count
    and the price within the store's 64-bit integers, answers 201 and
    stores the ride as [active] under a fresh id, with the seat count as
    given (it is not checked to be positive).  From then on the ride is in
    the result of an unfiltered [search_rides], and in the caller's
    [get_my_rides]. *)
Theorem create_ride_is_then_listed `{Externals}
    (kvs : list (string * json)) (clk clk' : Clock) (w : World)
    (uid seats price : Z) (origin destination date time vehicle : string)
    (notes : option string) :
  user_id (session w) = Some uid ->
  user_role (session w) = Some "driver" ->
  dict_lookup "origin" kvs = Some (JStr origin) ->
  dict_lookup "destination" kvs = Some (JStr destination) ->
  dict_lookup "date" kvs = Some (JStr date) ->
  dict_lookup "time" kvs = Some (JStr time) ->
  dict_lookup "availableSeats" kvs = Some (JInt seats) ->
  dict_lookup "price" kvs = Some (JInt price) ->
  dict_lookup "vehicleType" kvs = Some (JStr vehicle) ->
  bind_text (default (JStr "") (dict_lookup "notes" kvs)) = inr notes ->
  int64 seats = true ->
  int64 price = true ->
  let ride := Ride.mk (next_id (map Ride.id (rides (db w)))) uid origin destination
                      date time seats price vehicle notes "active"
                      (Some (utcnow clk)) in
  let w' := snd (create_ride (JObj kvs) clk w) in
  fst (create_ride (JObj kvs) clk w) = mkResponse (JObj (Ride_fields ride)) 201 /\
  rides (db w') = (rides (db w) ++ [ride])%list /\
  (exists items,
     fst (search_rides (mkSearchArgs None None None) clk' w')
     = mkResponse (JArr items) 200 /\
     In (Ride_to_dict (db w') ride true) items) /\
  (exists items,
     fst (get_my_rides w') = mkResponse (JArr items) 200 /\
     In (JObj (Ride_fields ride)) items).
Proof.
  intros Hu Hro Ho Hd Hdt Ht Hs Hp Hv Hn Hsr Hpr ride w'. subst w'.
  destruct (create_ride_accepts kvs clk w uid seats price origin destination date
              time vehicle notes Hu Hro Ho Hd Hdt Ht Hs Hp Hv Hn Hsr Hpr)
    as (rd & -> & _).
  fold ride. cbn [fst snd db rides].
  split; [reflexivity|]. split; [reflexivity|]. split.
  - eexists. split; [apply search_rides_result|].
    cbn [db rides arg_origin arg_destination arg_date default].
    match goal with
    | |- In (Ride_to_dict ?d _ _) _ =>
        apply (in_map (fun r => Ride_to_dict d r true))
    end.
    apply list_elem_of_In.
    unfold order_by_created_desc. rewrite merge_sort_Permutation.
    apply list_elem_of_In, filter_In. split; [|reflexivity].
    apply in_or_app. right. now left.
  - eexists. rewrite (get_my_rides_result (mkWorld (session w) _ rd) uid Hu Hro).
    split; [reflexivity|].
    cbn [db rides].
    apply (in_map (fun r => JObj (Ride_fields r))). apply list_elem_of_In.
    unfold order_by_created_desc. rewrite merge_sort_Permutation.
    apply list_elem_of_In, filter_In. split.
    + apply in_or_app. right. now left.
    + cbn. apply Z.eqb_refl.
Qed.

Lemma create_ride_witness :
  let kvs :=
    [ ("origin", JStr "Delhi CP"); ("destination", JStr "Gurgaon");
      ("date", JStr "2025-02-01"); ("time", JStr "08:00");
      ("availableSeats", JInt 0); ("price", JInt 50); ("vehicleType", JStr "van") ] in
  let w := Sample.driver_world "pending" in
  let ride := Ride.mk 2 1 "Delhi CP" "Gurgaon" "2025-02-01" "08:00" 0 50 "van"
                      (Some "") "active" (Some 7) in
  let w' := snd (create_ride (H := Sample.externals) (JObj kvs) (Sample.clock 7) w) in
  fst (create_ride (H := Sample.externals) (JObj kvs) (Sample.clock 7) w)
  = mkResponse (JObj (Ride_fields (H := Sample.externals) ride)) 201 /\
  rides (db w') = (rides (db w) ++ [ride])%list /\
  (exists items,
     fst (search_rides (H := Sample.externals) (mkSearchArgs None None None)
                       (Sample.clock 8) w')
     = mkResponse (JArr items) 200 /\
     In (Ride_to_dict (H := Sample.externals) (db w') ride true) items) /\
  (exists items,
     fst (get_my_rides (H := Sample.externals) w') = mkResponse (JArr items) 200 /\
     In (JObj (Ride_fields (H := Sample.externals) ride)) items).
Proof.
  exact (create_ride_is_then_listed (H := Sample.externals)
           [ ("origin", JStr "Delhi CP"); ("destination", JStr "Gurgaon");
             ("date", JStr "2025-02-01"); ("time", JStr "08:00");
             ("availableSeats", JInt 0); ("price", JInt 50);
             ("vehicleType", JStr "van") ]
           (Sample.clock 7) (Sample.clock 8) (Sample.driver_world "pending")
           1 0 50 "Delhi CP" "Gurgaon" "2025-02-01" "08:00" "van" (Some "")
           eq_refl eq_refl eq_refl eq_refl eq_refl eq_refl eq_refl eq_refl eq_refl
           eq_refl eq_refl eq_refl).
Defined.

(** ** Rows are kept *)

Lemma transition_tables_grow (w : World) (d' : Db) (s' : Session) :
  transition w d' s' ->
  users (db w) `prefix_of` users d' /\
  map Ride.id (rides (db w)) `prefix_of` map Ride.id (rides d') /\
  map RideRequest.id (ride_requests (db w)) `prefix_of`
    map RideRequest.id (ride_requests d').
Proof.
  intros Ht.
  inversion Ht as [| |u Hin|u Hid Hem|r Hid Hs Hro Hst|q r Hid Hs Hro Hg Hle Hst
                   |q r st Hv Hin Hg Hs Hro];
    cbn [users rides ride_requests]; rewrite ?map_app;
    repeat split; try reflexivity; try (now apply prefix_app_r).
  - destruct (String.eqb st "accepted"); [|reflexivity].
    now rewrite (update_row_keys Ride.id
                   (Ride.set_available_seats r
                      (Ride.available_seats r - RideRequest.seats q))).
  - now rewrite (update_row_keys RideRequest.id (RideRequest.set_status q st)).
Qed.

(** X21.  No handler deletes or rewrites a user row, and none deletes a
    ride or a request or changes its key: after any request the old
    [users] table is a prefix of the new one, and so are the key columns of
    [rides] and [ride_requests]. *)
Theorem tables_only_grow `{Externals} (req : Request) (clk : Clock) (w : World) :
  let d' := db (snd (handle req clk w)) in
  users (db w) `prefix_of` users d' /\
  map Ride.id (rides (db w)) `prefix_of` map Ride.id (rides d') /\
  map RideRequest.id (ride_requests (db w)) `prefix_of`
    map RideRequest.id (ride_requests d').
Proof.
  intros d'. subst d'.
  exact (transition_tables_grow _ _ _ (handle_transition req clk w)).
Qed.

(** ** Bodies that are not objects or lack a key *)

(** X22.  [login] on an object without [email] or without [password]
    answers 400 and changes nothing; [register] and [login] on a body that
    is [null], a boolean or a number end in their 500 path (the membership
    test raises), again changing nothing. *)
Theorem login_and_register_reject_malformed_bodies `{Externals}
    (clk : Clock) (w : World) :
  (forall kvs,
     absent kvs "email" || absent kvs "password" = true ->
     login (JObj kvs) clk w = (message "Email and password required" 400, w)) /\
  (forall data,
     match data with JNull | JBool _ | JInt _ => True | _ => False end ->
     login data clk w = (failure "Login failed" TypeError, w) /\
     register data clk w = (failure "Registration failed" TypeError, w)).
Proof.
  split.
  - intros kvs Hab. unfold login, py_in. unfold_handler. unfold absent in Hab.
    destruct (dict_lookup "email" kvs); [|reflexivity].
    destruct (dict_lookup "password" kvs); [discriminate|reflexivity].
  - intros [| | | | |] Hd; try contradiction; split; reflexivity.
Qed.

Lemma malformed_bodies_witness :
  login (H := Sample.externals) (JObj [("email", JStr "a@example.org")])
        (Sample.clock 1) Sample.rider_world
  = (message "Email and password required" 400, Sample.rider_world) /\
  login (H := Sample.externals) JNull (Sample.clock 1) Sample.rider_world
  = (failure "Login failed" TypeError, Sample.rider_world) /\
  register (H := Sample.externals) JNull (Sample.clock 1) Sample.rider_world
  = (failure "Registration failed" TypeError, Sample.rider_world).
Proof.
  destruct (login_and_register_reject_malformed_bodies (H := Sample.externals)
              (Sample.clock 1) Sample.rider_world) as [Hmissing Hscalar].
  split.
  - apply Hmissing. reflexivity.
  - apply (Hscalar JNull). exact I.
Defined.

(** ** Route suggestions and the demo endpoint *)

Lemma route_suggestions_In (routes : list (string * string)) (origin dest : string) :
  In dest (route_suggestions routes origin) <->
  exists route_origin,
    In (route_origin, dest) routes /\ lower route_origin = lower origin.
Proof.
  induction routes as [|[ro rd] rest IH]; simpl.
  - split; [easy|]. now intros (? & [] & _).
  - destruct (String.eqb (lower ro) (lower origin)) eqn:E.
    + apply String.eqb_eq in E. simpl. rewrite IH. split.
      * intros [<-|(x & Hx & Hl)]; [exists ro; auto|exists x; auto].
      * intros (x & [[= <- <-]|Hx] & Hl); [now left|right; eauto].
    + apply String.eqb_neq in E. rewrite IH. split.
      * intros (x & Hx & Hl). eauto.
      * intros (x & [[= <- <-]|Hx] & Hl); [contradiction|eauto].
Qed.

(** X23.  [get_popular_route_suggestions] returns the destinations of the
    popular routes whose origin equals the given one up to letter case, in
    the order of the route list; two origins that differ only in case get
    the same suggestions. *)
Theorem route_suggestions_ignore_case (origin origin' dest : string) :
  (In dest (get_popular_route_suggestions origin) <->
   exists route_origin,
     In (route_origin, dest) popular_routes /\ lower route_origin = lower origin) /\
  (lower origin = lower origin' ->
   get_popular_route_suggestions origin = get_popular_route_suggestions origin').
Proof.
  split; [apply route_suggestions_In|].
  intros Hl. unfold get_popular_route_suggestions.
  induction popular_routes as [|[ro rd] rest IH]; simpl; [reflexivity|].
  now rewrite Hl, IH.
Qed.

Lemma route_suggestions_witness :
  get_popular_route_suggestions "PUNE STATION"
  = get_popular_route_suggestions "pune station".
Proof.
  exact (proj2 (route_suggestions_ignore_case "PUNE STATION" "pune station" "")
               eq_refl).
Defined.

Lemma search_history_after_search `{Externals} (args : SearchArgs) (clk : Clock)
      (w : World) :
  let history := search_history (ride_data w) in
  search_history (ride_data (snd (search_rides args clk w)))
  = ((if (10 <=? length history)%nat then tail history else history)
     ++ [mkSearchParams (default "" (arg_origin args))
                        (default "" (arg_destination args))
                        (default "" (arg_date args)) (isoformat (now clk))])%list.
Proof.
  intros history. subst history.
  unfold search_rides. unfold_handler. world_simpl.
  match goal with
  | |- context [serialize_and_cache ?d ?l ?w1] =>
      pose proof (serialize_and_cache_frame d l w1) as (_ & Hh & _);
      destruct (serialize_and_cache d l w1) as [[e|res] w2]
  end; cbn in *; exact Hh.
Qed.

Lemma last_three_snoc {A} (l : list A) (x : A) :
  last (last_three (l ++ [x])) = Some x /\
  (length (last_three (l ++ [x])) <= 3)%nat.
Proof.
  unfold last_three. rewrite length_drop, length_app. simpl. split; [|lia].
  rewrite drop_app_le by lia. apply last_snoc.
Qed.

Lemma last_of_map {A B} (f : A -> B) (l : list A) :
  last (map f l) = option_map f (last l).
Proof.
  induction l as [|x [|y l] IH]; [reflexivity..|].
  exact IH.
Qed.

(** X24.  The demo endpoint answers 200 and changes nothing.  Called after a
    search, its [recent_searches] holds at most three entries, the last of
    which is that search with the parameters as [search_rides] read them
    (an absent one as the empty string). *)
Theorem demo_shows_latest_search `{Externals}
    (args : SearchArgs) (clk : Clock) (w : World) :
  let w' := snd (search_rides args clk w) in
  snd (demo_data_structures w') = w' /\
  code (fst (demo_data_structures w')) = 200 /\
  exists kvs recent,
    body (fst (demo_data_structures w')) = JObj kvs /\
    dict_lookup "recent_searches" kvs = Some (JArr recent) /\
    (length recent <= 3)%nat /\
    last recent
    = Some (JObj [ ("origin", JStr (default "" (arg_origin args)));
                   ("destination", JStr (default "" (arg_destination args)));
                   ("date", JStr (default "" (arg_date args)));
                   ("timestamp", JStr (isoformat (now clk))) ]).
Proof.
  intros w'. subst w'. split; [reflexivity|]. split; [reflexivity|].
  unfold demo_data_structures. cbn [fst body].
  rewrite search_history_after_search.
  set (trimmed := if (10 <=? _)%nat then _ else _).
  set (p := mkSearchParams _ _ _ _).
  eexists _, _. split; [reflexivity|]. split; [reflexivity|].
  destruct (last_three_snoc trimmed p) as [Hlast Hlen].
  assert (Hnil : forall l : list SearchParams,
            match l with [] => [] | _ :: _ => last_three l end = last_three l)
    by (intros [|? ?]; reflexivity).
  rewrite Hnil. split; [now rewrite length_map|].
  now rewrite last_of_map, Hlast.
Qed.
